(** * Smart Posture Tracker: the posture analysis pipeline

    A shallow embedding of [software/data-analysis/posture_algorithms.py]
    (class [PostureAlgorithms]) and the properties of its stages.

    Numbers.  The program computes on IEEE doubles; here a finite number is
    a real ([R]) and a scalar that may be NaN is an [option R] ([None] is
    NaN).  Columns stored in a frame hold finite numbers only: NaN appears
    in the intermediate series of [diff] and [rolling], which the program
    closes with [fillna(0)] before storing them.  A numeric column has no
    integer or float type of its own: the column that [df[c] = 0] creates
    takes a fractional value afterwards, as pandas does by widening it.
    An int that enters float arithmetic is converted to a double first,
    which Python refuses beyond the range of a double
    ([Py.int_overflows_float]).

    Frames.  A pandas [DataFrame] is an ordered list of named columns over
    a common row count.  Frames are mutable objects: they live in a store
    and the program holds references to them, so that [df.copy()] and the
    in-place writes that follow it are visible as such. *)

From Stdlib Require Import Reals Lra Lia String ZArith Bool Arith List.
Import ListNotations.

Open Scope string_scope.
Open Scope list_scope.
Open Scope R_scope.

(* ================================================================= *)
(** ** Python results *)

Module Py.

Inductive exn : Type :=
| KeyError (key : string)
| ValueError (msg : string)
| TypeError (msg : string)
| IndexError
| ZeroDivisionError
| OverflowError.

Inductive result (A : Type) : Type :=
| Ok (a : A)
| Raise (e : exn).

Arguments Ok {A} a.
Arguments Raise {A} e.

Definition is_ok {A} (r : result A) : bool :=
  match r with Ok _ => true | Raise _ => false end.

(** An int in float arithmetic is first converted to a double, rounding
    to nearest: from [2^1024 - 2^970] on in absolute value the result is
    out of range and Python raises [OverflowError] ("int too large to
    convert to float"). *)
Definition float_overflow_bound : Z := 2 ^ 1024 - 2 ^ 970.

Definition int_overflows_float (n : Z) : bool :=
  (float_overflow_bound <=? Z.abs n)%Z.

End Py.
Import Py.

(* ================================================================= *)
(** ** Scalars that may be NaN *)

Module NaN.

Definition float := option R.

Definition sub (a b : float) : float :=
  match a, b with Some x, Some y => Some (x - y) | _, _ => None end.

Definition mul (a b : float) : float :=
  match a, b with Some x, Some y => Some (x * y) | _, _ => None end.

Definition abs (a : float) : float :=
  match a with Some x => Some (Rabs x) | None => None end.

(** Every comparison with NaN is false. *)
Definition gt (a b : float) : bool :=
  match a, b with
  | Some x, Some y => if Rgt_dec x y then true else false
  | _, _ => false
  end.

Definition lt (a b : float) : bool := gt b a.

(** [Series.fillna(0)]. *)
Definition fillna0 (xs : list float) : list R :=
  map (fun x => match x with Some v => v | None => 0 end) xs.

End NaN.

(* ================================================================= *)
(** ** Data frames *)

Module Frame.

Inductive column : Type :=
| NumCol (xs : list R)
| StrCol (xs : list string).

Definition col_len (c : column) : nat :=
  match c with NumCol xs => length xs | StrCol xs => length xs end.

Record DataFrame : Type := mkFrame {
  nrows : nat;
  columns : list (string * column)
}.

Fixpoint assoc_get {V} (k : string) (l : list (string * V)) : option V :=
  match l with
  | [] => None
  | (k', v) :: t => if String.eqb k k' then Some v else assoc_get k t
  end.

(** Assignment to an existing key keeps its position; a new key goes to
    the end, as a new column of a frame and a new key of a dict do. *)
Fixpoint assoc_set {V} (k : string) (v : V) (l : list (string * V))
  : list (string * V) :=
  match l with
  | [] => [(k, v)]
  | (k', v') :: t =>
      if String.eqb k k' then (k, v) :: t else (k', v') :: assoc_set k v t
  end.

Definition get_col (c : string) (df : DataFrame) : option column :=
  assoc_get c (columns df).

Definition set_col (c : string) (v : column) (df : DataFrame) : DataFrame :=
  mkFrame (nrows df) (assoc_set c v (columns df)).

Definition has_col (c : string) (df : DataFrame) : bool :=
  match get_col c df with Some _ => true | None => false end.

(** Every column of a frame has one entry per row. *)
Definition wf (df : DataFrame) : Prop :=
  Forall (fun kc => col_len (snd kc) = nrows df) (columns df).

(** In-place update of one position of a list ([None] out of range). *)
Fixpoint set_nth {A} (i : nat) (v : A) (l : list A) : option (list A) :=
  match l, i with
  | [], _ => None
  | _ :: t, O => Some (v :: t)
  | x :: t, S j =>
      match set_nth j v t with Some t' => Some (x :: t') | None => None end
  end.

(** The number in column [c] at row [i], when there is one. *)
Definition num_at (df : DataFrame) (c : string) (i : nat) : option R :=
  match get_col c df with
  | Some (NumCol xs) => nth_error xs i
  | _ => None
  end.

Definition str_at (df : DataFrame) (c : string) (i : nat) : option string :=
  match get_col c df with
  | Some (StrCol xs) => nth_error xs i
  | _ => None
  end.

End Frame.
Import Frame.

(* ================================================================= *)
(** ** The store of frames and the monad of the program

    A computation takes the store and returns a result or an exception,
    with the store as the computation left it: writes done before an
    exception stay done. *)

Module Store.

Definition ref := nat.
Definition store := list DataFrame.

Definition M (A : Type) : Type := store -> result A * store.

Definition ret {A} (a : A) : M A := fun s => (Ok a, s).

Definition raise {A} (e : exn) : M A := fun s => (Raise e, s).

Definition bind {A B} (m : M A) (k : A -> M B) : M B :=
  fun s =>
    match m s with
    | (Ok a, s') => k a s'
    | (Raise e, s') => (Raise e, s')
    end.

Definition lookup (s : store) (r : ref) : option DataFrame := nth_error s r.

Fixpoint update (r : ref) (df : DataFrame) (s : store) : store :=
  match s, r with
  | [], _ => []
  | _ :: t, O => df :: t
  | x :: t, S r' => x :: update r' df t
  end.

(** Reading and replacing the frame behind a reference.  A reference the
    store does not hold is a dangling name, which Python reports as a
    [TypeError] here. *)
Definition read (r : ref) : M DataFrame :=
  fun s =>
    match lookup s r with
    | Some df => (Ok df, s)
    | None => (Raise (TypeError "no such frame"), s)
    end.

Definition write (r : ref) (df : DataFrame) : M unit :=
  fun s => (Ok tt, update r df s).

(** [for x in xs: body x] *)
Fixpoint for_each {A} (xs : list A) (body : A -> M unit) : M unit :=
  match xs with
  | [] => ret tt
  | x :: t => bind (body x) (fun _ => for_each t body)
  end.

End Store.
Import Store.

Declare Scope py_scope.
Delimit Scope py_scope with py.
Notation "x <- m ;; k" := (bind m (fun x => k))
  (at level 61, m at next level, right associativity) : py_scope.
Notation "m ;; k" := (bind m (fun _ => k))
  (at level 61, right associativity) : py_scope.
Open Scope py_scope.

(* ================================================================= *)
(** ** pandas: the frame operations the program uses *)

Module Pandas.

(** [df.copy()]: a new frame object with the same contents. *)
Definition copy (df : ref) : M ref :=
  f <- read df ;;
  fun s => (Ok (length s), s ++ [f]).

(** [len(df)] *)
Definition len (df : ref) : M nat :=
  f <- read df ;; ret (nrows f).

(** [c in df.columns] *)
Definition has_column (df : ref) (c : string) : M bool :=
  f <- read df ;; ret (has_col c f).

(** [df[c]] where the program goes on to compute with numbers. *)
Definition getitem_num (df : ref) (c : string) : M (list R) :=
  f <- read df ;;
  match get_col c f with
  | None => raise (KeyError c)
  | Some (NumCol xs) => ret xs
  | Some (StrCol _) => raise (TypeError "non-numeric column")
  end.

(** [df[c] = values]: the values must have one entry per row. *)
Definition setitem (df : ref) (c : string) (v : column) : M unit :=
  f <- read df ;;
  if Nat.eqb (col_len v) (nrows f)
  then write df (set_col c v f)
  else raise (ValueError "Length of values does not match length of index").

(** [df[c] = x] with a scalar, which fills the column. *)
Definition setitem_num (df : ref) (c : string) (x : R) : M unit :=
  f <- read df ;; write df (set_col c (NumCol (repeat x (nrows f))) f).

Definition setitem_str (df : ref) (c : string) (x : string) : M unit :=
  f <- read df ;; write df (set_col c (StrCol (repeat x (nrows f))) f).

(** [values[mask] = v], position by position. *)
Fixpoint mask_assign (mask : list bool) (v : R) (xs : list R) : list R :=
  match mask, xs with
  | b :: mask', x :: xs' => (if b then v else x) :: mask_assign mask' v xs'
  | _, _ => xs
  end.

(** [df.loc[mask, c] = v].  A NaN [v] is only ever passed together with
    an all-false mask (see [outlier_mask]), which writes nothing. *)
Definition loc_assign (df : ref) (mask : list bool) (c : string)
    (v : NaN.float) : M unit :=
  f <- read df ;;
  match get_col c f with
  | None => raise (KeyError c)
  | Some (StrCol _) => raise (TypeError "non-numeric column")
  | Some (NumCol xs) =>
      match v with
      | Some m => write df (set_col c (NumCol (mask_assign mask m xs)) f)
      | None => ret tt
      end
  end.

(** [df.iloc[i][c]], read as a number. *)
Definition iloc_num (df : ref) (i : nat) (c : string) : M R :=
  f <- read df ;;
  if Nat.ltb i (nrows f) then
    match get_col c f with
    | None => raise (KeyError c)
    | Some (StrCol _) => raise (TypeError "non-numeric column")
    | Some (NumCol xs) =>
        match nth_error xs i with
        | Some x => ret x
        | None => raise IndexError
        end
    end
  else raise IndexError.

(** [df.iloc[i, df.columns.get_loc(c)] = x] *)
Definition iloc_set_num (df : ref) (i : nat) (c : string) (x : R) : M unit :=
  f <- read df ;;
  match get_col c f with
  | None => raise (KeyError c)
  | Some (StrCol _) => raise (TypeError "number into a string column")
  | Some (NumCol xs) =>
      match set_nth i x xs with
      | Some xs' => write df (set_col c (NumCol xs') f)
      | None => raise IndexError
      end
  end.

Definition iloc_set_str (df : ref) (i : nat) (c : string) (x : string)
  : M unit :=
  f <- read df ;;
  match get_col c f with
  | None => raise (KeyError c)
  | Some (NumCol _) => raise (TypeError "string into a numeric column")
  | Some (StrCol xs) =>
      match set_nth i x xs with
      | Some xs' => write df (set_col c (StrCol xs') f)
      | None => raise IndexError
      end
  end.

End Pandas.
Import Pandas.

(* ================================================================= *)
(** ** pandas Series and numpy: the numeric operations *)

Module Series.

Definition sum (xs : list R) : R := fold_right Rplus 0 xs.

(** [Series.mean()]: NaN on an empty series. *)
Definition mean (xs : list R) : NaN.float :=
  match xs with
  | [] => None
  | _ => Some (sum xs / INR (length xs))
  end.

(** [Series.std()]: the sample standard deviation ([ddof = 1]), NaN with
    fewer than two values. *)
Definition std (xs : list R) : NaN.float :=
  match mean xs with
  | None => None
  | Some m =>
      if (length xs <? 2)%nat then None
      else Some (sqrt (sum (map (fun x => Rsqr (x - m)) xs)
                       / INR (length xs - 1)))
  end.

(** [Series.diff()]: NaN first, then the difference to the previous row. *)
Fixpoint diff_from (prev : R) (xs : list R) : list NaN.float :=
  match xs with
  | [] => []
  | x :: t => Some (x - prev) :: diff_from x t
  end.

Definition diff (xs : list R) : list NaN.float :=
  match xs with
  | [] => []
  | x :: t => None :: diff_from x t
  end.

(** The trailing window of [w] rows that ends at row [i]. *)
Definition window_at {A} (w i : nat) (xs : list A) : list A :=
  skipn (i + 1 - w) (firstn (i + 1) xs).

(** The observations of a window: its values that are not NaN. *)
Definition valid (win : list NaN.float) : list R :=
  flat_map (fun x => match x with Some v => [v] | None => [] end) win.

(** [Series.rolling(window=w, min_periods=minp).stat()]: NaN where the
    window holds fewer than [minp] observations. *)
Definition rolling (w minp : nat) (stat : list R -> NaN.float)
    (xs : list NaN.float) : list NaN.float :=
  map (fun i =>
         let obs := valid (window_at w i xs) in
         if (length obs <? minp)%nat then None else stat obs)
      (seq 0 (length xs)).

(** A series of finite numbers, seen as one that could hold NaN. *)
Definition finite (xs : list R) : list NaN.float := map Some xs.

(** [Series.value_counts()]: each distinct label with its count.  (pandas
    orders the labels by count; only lookups by label are made here.) *)
Fixpoint count_add (k : string) (l : list (string * nat))
  : list (string * nat) :=
  match l with
  | [] => [(k, 1%nat)]
  | (k', n) :: t =>
      if String.eqb k k' then (k', S n) :: t else (k', n) :: count_add k t
  end.

Definition value_counts (xs : list string) : list (string * nat) :=
  fold_left (fun acc k => count_add k acc) xs [].

End Series.

Module Np.

Definition map2 {A B C} (f : A -> B -> C) (xs : list A) (ys : list B)
  : list C :=
  map (fun p => f (fst p) (snd p)) (combine xs ys).

Definition neg (xs : list R) : list R := map Ropp xs.
Definition abs (xs : list R) : list R := map Rabs xs.
Definition sqrt (xs : list R) : list R := map R_sqrt.sqrt xs.
Definition square (xs : list R) : list R := map Rsqr xs.
Definition add (xs ys : list R) : list R := map2 Rplus xs ys.
Definition sub (xs ys : list R) : list R := map2 Rminus xs ys.
Definition scale (xs : list R) (k : R) : list R := map (fun x => x * k) xs.

(** The angle of the point [(x, y)]: [np.arctan2(y, x)] on finite
    numbers.  The sign of a zero is not represented: on the negative x
    axis the program returns [-PI] for [y = -0.0] (and for a negative [y]
    too small to move the rounded result off [-PI]) where this definition
    gives [PI].  Ranges are therefore stated closed, as [[-PI, PI]], which
    holds either way. *)
Definition atan2 (y x : R) : R :=
  if Rlt_dec 0 x then atan (y / x)
  else if Rlt_dec x 0 then
    (if Rle_dec 0 y then atan (y / x) + PI else atan (y / x) - PI)
  else if Rlt_dec 0 y then PI / 2
  else if Rlt_dec y 0 then - (PI / 2)
  else 0.

Definition arctan2 (ys xs : list R) : list R := map2 atan2 ys xs.

(** [x * 180 / np.pi] *)
Definition degrees (xs : list R) : list R := map (fun x => x * 180 / PI) xs.

(** [np.cumsum] *)
Fixpoint cumsum_from (acc : R) (xs : list R) : list R :=
  match xs with
  | [] => []
  | x :: t => (acc + x) :: cumsum_from (acc + x) t
  end.

Definition cumsum (xs : list R) : list R := cumsum_from 0 xs.

(** [np.polyfit(range(n), ys, 1)[0]]: the least-squares slope of [ys]
    against the row index.  An empty input is refused; a single point has
    no slope to fit and the minimum-norm solution gives 0. *)
Definition indices (n : nat) : list R := map INR (seq 0 n).

Definition polyfit_slope (ys : list R) : result R :=
  let n := length ys in
  let xs := indices n in
  match n with
  | O => Raise (TypeError "expected non-empty vector for x")
  | S O => Ok 0
  | _ =>
      Ok ((INR n * Series.sum (map2 Rmult xs ys)
            - Series.sum xs * Series.sum ys)
          / (INR n * Series.sum (map2 Rmult xs xs)
             - Series.sum xs * Series.sum xs))
  end.

End Np.

(* ================================================================= *)
(** ** scipy.signal

    The sample values the filters compute are taken from an interface;
    what the library fixes about shapes and refusals is written out: the
    number of coefficients of a Butterworth design, the length of a
    filtered signal, and the inputs the functions refuse. *)

Class SciPy : Type := {
  butter_b : nat -> R -> nat -> R;
  butter_a : nat -> R -> nat -> R;
  filtfilt_at : list R -> list R -> list R -> nat -> R;
  savgol_at : nat -> nat -> list R -> nat -> R
}.

Module Signal.

Section WithSciPy.
Context `{SciPy}.

(** [butter(N, Wn, btype='low')]: [N + 1] numerator and denominator
    coefficients; the critical frequency must lie strictly in (0, 1). *)
Definition butter (N : nat) (Wn : R) : result (list R * list R) :=
  if Rlt_dec 0 Wn then
    if Rlt_dec Wn 1 then
      Ok (map (butter_b N Wn) (seq 0 (N + 1)),
          map (butter_a N Wn) (seq 0 (N + 1)))
    else Raise (ValueError "Digital filter critical frequencies must be 0 < Wn < 1")
  else Raise (ValueError "Digital filter critical frequencies must be 0 < Wn < 1").

(** [filtfilt(b, a, x)] with the default padding: the signal is extended
    at both ends by [padlen = 3 * max(len(a), len(b))] samples, and must
    be longer than that. *)
Definition padlen (b a : list R) : nat := 3 * Nat.max (length a) (length b).

Definition filtfilt (b a x : list R) : result (list R) :=
  if (length x <=? padlen b a)%nat
  then Raise (ValueError "The length of the input vector x must be greater than padlen")
  else Ok (map (filtfilt_at b a x) (seq 0 (length x))).

(** [savgol_filter(x, window_length, polyorder)] with the default mode
    ['interp']. *)
Definition savgol_filter (x : list R) (window_length polyorder : nat)
  : result (list R) :=
  if (window_length <=? polyorder)%nat
  then Raise (ValueError "polyorder must be less than window_length.")
  else if (length x <? window_length)%nat
  then Raise (ValueError "window_length must be less than or equal to the size of x.")
  else Ok (map (savgol_at window_length polyorder x) (seq 0 (length x))).

End WithSciPy.

End Signal.

(** A pure result, used inside the program. *)
Definition lift {A} (r : result A) : M A :=
  match r with Ok a => ret a | Raise e => raise e end.

(* ================================================================= *)
(** ** class PostureAlgorithms *)

Module PostureAlgorithms.

Record FilterParams : Type := {
  lowpass_cutoff : R;
  order : nat
}.

Record Thresholds : Type := {
  forward_head_mild : R;
  forward_head_severe : R;
  hunched_shoulders_mild : R;
  hunched_shoulders_severe : R;
  side_lean_mild : R;
  side_lean_severe : R;
  movement_threshold : R;
  stability_threshold : R
}.

(** The fields of [self].  The learned model and its scaler are not
    represented; [is_trained] records that no model has been fit. *)
Record t : Type := {
  sample_rate : Z;
  window_size : Z;
  dt : R;
  filter_params : FilterParams;
  thresholds : Thresholds;
  feature_window : Z;
  is_trained : bool
}.

(** [__init__(self, sample_rate=10, window_size=50)], for an int
    [sample_rate].  The only step that can fail is [1.0 / sample_rate]:
    the conversion of the rate to a double, then the division. *)
Definition init (sample_rate window_size : Z) : result t :=
  if Py.int_overflows_float sample_rate then Raise OverflowError
  else if (sample_rate =? 0)%Z then Raise ZeroDivisionError
  else Ok {|
    sample_rate := sample_rate;
    window_size := window_size;
    dt := 1 / IZR sample_rate;
    filter_params := {| lowpass_cutoff := 3; order := 4 |};
    thresholds := {|
      forward_head_mild := 10;
      forward_head_severe := 20;
      hunched_shoulders_mild := 15;
      hunched_shoulders_severe := 25;
      side_lean_mild := 8;
      side_lean_severe := 15;
      movement_threshold := 3;
      stability_threshold := 2 |};
    feature_window := 30;
    is_trained := false |}.

(* ----------------------------------------------------------------- *)
(** *** Level 1: preprocess_data *)

Definition accel_columns : list string :=
  ["s1_accel_x"; "s1_accel_y"; "s1_accel_z";
   "s2_accel_x"; "s2_accel_y"; "s2_accel_z"].

Definition filtered_columns : list string :=
  ["s1_accel_x"; "s1_accel_y"; "s1_accel_z";
   "s1_gyro_x"; "s1_gyro_y"; "s1_gyro_z";
   "s2_accel_x"; "s2_accel_y"; "s2_accel_z";
   "s2_gyro_x"; "s2_gyro_y"; "s2_gyro_z"].

Definition gyro_columns : list string :=
  ["s1_gyro_x"; "s1_gyro_y"; "s1_gyro_z";
   "s2_gyro_x"; "s2_gyro_y"; "s2_gyro_z"].

(** [np.abs(series - mean) > 3 * std] *)
Definition outlier_mask (xs : list R) (mean std : NaN.float) : list bool :=
  map (fun x =>
         NaN.gt (NaN.abs (NaN.sub (Some x) mean)) (NaN.mul (Some 3) std))
      xs.

(** One channel of the 3-sigma step: mean and std over the whole series,
    then [df_clean.loc[outlier_mask, col] = mean]. *)
Definition remove_outliers (df_clean : ref) (col : string) : M unit :=
  xs <- getitem_num df_clean col ;;
  let mean := Series.mean xs in
  let std := Series.std xs in
  let outlier_mask := outlier_mask xs mean std in
  loc_assign df_clean outlier_mask col mean.

(** What the step leaves in the channel. *)
Definition suppress_outliers (xs : list R) : list R :=
  match Series.mean xs with
  | Some m =>
      mask_assign (outlier_mask xs (Series.mean xs) (Series.std xs)) m xs
  | None => xs
  end.

Section WithSciPy.
Context `{SciPy}.

Definition lowpass (b a : list R) (self : t) (df_clean : ref) (col : string)
  : M unit :=
  n <- len df_clean ;;
  if (2 * order (filter_params self) <? n)%nat then
    xs <- getitem_num df_clean col ;;
    ys <- lift (Signal.filtfilt b a xs) ;;
    setitem df_clean col (NumCol ys)
  else ret tt.

Definition smooth_gyro (df_clean : ref) (col : string) : M unit :=
  xs <- getitem_num df_clean col ;;
  n <- len df_clean ;;
  ys <- lift (Signal.savgol_filter xs (Nat.min 5 n) 2) ;;
  setitem df_clean col (NumCol ys).

Definition preprocess_data (self : t) (df : ref) : M ref :=
  df_clean <- copy df ;;
  (* 1. Remove outliers (3-sigma rule) *)
  for_each accel_columns (remove_outliers df_clean) ;;
  (* 2. Apply low-pass filter *)
  let nyquist := IZR (sample_rate self) / 2 in
  (if Rlt_dec (lowpass_cutoff (filter_params self)) nyquist then
     ba <- lift (Signal.butter (order (filter_params self))
                   (lowpass_cutoff (filter_params self) / nyquist)) ;;
     for_each filtered_columns (lowpass (fst ba) (snd ba) self df_clean)
   else ret tt) ;;
  (* 3. Smooth gyroscope data *)
  n <- len df_clean ;;
  (if (5 <=? n)%nat then for_each gyro_columns (smooth_gyro df_clean)
   else ret tt) ;;
  ret df_clean.

End WithSciPy.

(* ----------------------------------------------------------------- *)
(** *** Level 2: extract_orientation *)

(** [np.arctan2(-x, np.sqrt(y**2 + z**2)) * 180 / np.pi] *)
Definition pitch_of (x y z : list R) : list R :=
  Np.degrees (Np.arctan2 (Np.neg x) (Np.sqrt (Np.add (Np.square y) (Np.square z)))).

(** [np.arctan2(y, z) * 180 / np.pi] *)
Definition roll_of (y z : list R) : list R :=
  Np.degrees (Np.arctan2 y z).

Definition extract_orientation (self : t) (df : ref) : M ref :=
  df_oriented <- copy df ;;
  (* Sensor 1 (upper spine / neck) *)
  x <- getitem_num df_oriented "s1_accel_x" ;;
  y <- getitem_num df_oriented "s1_accel_y" ;;
  z <- getitem_num df_oriented "s1_accel_z" ;;
  setitem df_oriented "s1_pitch" (NumCol (pitch_of x y z)) ;;
  y <- getitem_num df_oriented "s1_accel_y" ;;
  z <- getitem_num df_oriented "s1_accel_z" ;;
  setitem df_oriented "s1_roll" (NumCol (roll_of y z)) ;;
  (* Sensor 2 (mid spine) *)
  x <- getitem_num df_oriented "s2_accel_x" ;;
  y <- getitem_num df_oriented "s2_accel_y" ;;
  z <- getitem_num df_oriented "s2_accel_z" ;;
  setitem df_oriented "s2_pitch" (NumCol (pitch_of x y z)) ;;
  y <- getitem_num df_oriented "s2_accel_y" ;;
  z <- getitem_num df_oriented "s2_accel_z" ;;
  setitem df_oriented "s2_roll" (NumCol (roll_of y z)) ;;
  (* Relative angles (spine curvature) *)
  p1 <- getitem_num df_oriented "s1_pitch" ;;
  p2 <- getitem_num df_oriented "s2_pitch" ;;
  setitem df_oriented "spine_pitch_curvature" (NumCol (Np.sub p1 p2)) ;;
  r1 <- getitem_num df_oriented "s1_roll" ;;
  r2 <- getitem_num df_oriented "s2_roll" ;;
  setitem df_oriented "spine_roll_curvature" (NumCol (Np.sub r1 r2)) ;;
  (* Total spine curvature magnitude *)
  cp <- getitem_num df_oriented "spine_pitch_curvature" ;;
  cr <- getitem_num df_oriented "spine_roll_curvature" ;;
  setitem df_oriented "spine_curvature_magnitude"
    (NumCol (Np.sqrt (Np.add (Np.square cp) (Np.square cr)))) ;;
  ret df_oriented.

(* ----------------------------------------------------------------- *)
(** *** Level 2: extract_advanced_features *)

Definition feature_columns : list string :=
  ["s1_movement_variability"; "s2_movement_variability";
   "spine_stability"; "s1_pitch_velocity"; "s2_pitch_velocity";
   "s1_pitch_acceleration"; "s2_pitch_acceleration";
   "s1_cumulative_rotation"; "s2_cumulative_rotation"].

(** [min(self.feature_window * self.sample_rate, len(df))] *)
Definition window_samples (self : t) (n : nat) : Z :=
  Z.min (feature_window self * sample_rate self) (Z.of_nat n).

(** [series.rolling(window=w, min_periods=5).std().fillna(0)] *)
Definition rolling_std (w : nat) (xs : list R) : list R :=
  NaN.fillna0 (Series.rolling w 5 Series.std (Series.finite xs)).

(** [series.diff().rolling(window=5, min_periods=2).mean().fillna(0)] *)
Definition velocity (xs : list R) : list R :=
  NaN.fillna0 (Series.rolling 5 2 Series.mean (Series.diff xs)).

(** [series.diff().fillna(0)] *)
Definition acceleration (vs : list R) : list R :=
  NaN.fillna0 (Series.diff vs).

(** [np.cumsum(np.abs(gx) + np.abs(gy) + np.abs(gz)) * self.dt] *)
Definition cumulative_rotation (self : t) (gx gy gz : list R) : list R :=
  Np.scale (Np.cumsum (Np.add (Np.add (Np.abs gx) (Np.abs gy)) (Np.abs gz)))
           (dt self).

Definition extract_advanced_features (self : t) (df : ref) : M ref :=
  df_features <- copy df ;;
  n <- len df ;;
  let window_samples := window_samples self n in
  (if (10 <=? window_samples)%Z then
     let w := Z.to_nat window_samples in
     (* 1. Movement variability *)
     p1 <- getitem_num df "s1_pitch" ;;
     setitem df_features "s1_movement_variability" (NumCol (rolling_std w p1)) ;;
     p2 <- getitem_num df "s2_pitch" ;;
     setitem df_features "s2_movement_variability" (NumCol (rolling_std w p2)) ;;
     (* 2. Posture stability *)
     m <- getitem_num df "spine_curvature_magnitude" ;;
     setitem df_features "spine_stability" (NumCol (rolling_std w m)) ;;
     (* 3. Movement velocity *)
     p1 <- getitem_num df "s1_pitch" ;;
     setitem df_features "s1_pitch_velocity" (NumCol (velocity p1)) ;;
     p2 <- getitem_num df "s2_pitch" ;;
     setitem df_features "s2_pitch_velocity" (NumCol (velocity p2)) ;;
     (* 4. Movement acceleration *)
     v1 <- getitem_num df_features "s1_pitch_velocity" ;;
     setitem df_features "s1_pitch_acceleration" (NumCol (acceleration v1)) ;;
     v2 <- getitem_num df_features "s2_pitch_velocity" ;;
     setitem df_features "s2_pitch_acceleration" (NumCol (acceleration v2)) ;;
     (* 5. Gyroscope integration *)
     gx <- getitem_num df "s1_gyro_x" ;;
     gy <- getitem_num df "s1_gyro_y" ;;
     gz <- getitem_num df "s1_gyro_z" ;;
     setitem df_features "s1_cumulative_rotation"
       (NumCol (cumulative_rotation self gx gy gz)) ;;
     gx <- getitem_num df "s2_gyro_x" ;;
     gy <- getitem_num df "s2_gyro_y" ;;
     gz <- getitem_num df "s2_gyro_z" ;;
     setitem df_features "s2_cumulative_rotation"
       (NumCol (cumulative_rotation self gx gy gz))
   else
     for_each feature_columns (fun col => setitem_num df_features col 0)) ;;
  ret df_features.

(* ----------------------------------------------------------------- *)
(** *** Level 3: classify_posture_realtime *)

(** The running pair [(posture_issues, severity)] of one row. *)
Definition verdict : Type := (list string * Z)%type.

(** 1. Forward head posture, on [s1_pitch]. *)
Definition forward_head (th : Thresholds) (v : R) (st : verdict) : verdict :=
  if Rgt_dec v (forward_head_severe th)
  then (fst st ++ ["severe_forward_head"], (snd st + 3)%Z)
  else if Rgt_dec v (forward_head_mild th)
  then (fst st ++ ["mild_forward_head"], (snd st + 1)%Z)
  else st.

(** 2. Hunched shoulders, on [spine_pitch_curvature]. *)
Definition hunched (th : Thresholds) (v : R) (st : verdict) : verdict :=
  if Rgt_dec v (hunched_shoulders_severe th)
  then (fst st ++ ["severe_hunched"], (snd st + 3)%Z)
  else if Rgt_dec v (hunched_shoulders_mild th)
  then (fst st ++ ["mild_hunched"], (snd st + 1)%Z)
  else st.

(** 3. Side lean, on [abs(spine_roll_curvature)]. *)
Definition side_lean (th : Thresholds) (v : R) (st : verdict) : verdict :=
  if Rgt_dec (Rabs v) (side_lean_severe th)
  then (fst st ++ ["severe_side_lean"], (snd st + 2)%Z)
  else if Rgt_dec (Rabs v) (side_lean_mild th)
  then (fst st ++ ["mild_side_lean"], (snd st + 1)%Z)
  else st.

(** 4. Movement, on [spine_stability]: an issue, with no severity. *)
Definition movement (th : Thresholds) (v : R) (st : verdict) : verdict :=
  if Rgt_dec v (movement_threshold th)
  then (fst st ++ ["excessive_movement"], snd st)
  else if Rlt_dec v (stability_threshold th)
  then (fst st ++ ["static_posture"], snd st)
  else st.

(** The body of the loop, for row [i]. *)
Definition classify_row (self : t) (df_classified : ref) (i : nat) : M unit :=
  let th := thresholds self in
  let st : verdict := ([], 0%Z) in
  v <- iloc_num df_classified i "s1_pitch" ;;
  let st := forward_head th v st in
  v <- iloc_num df_classified i "spine_pitch_curvature" ;;
  let st := hunched th v st in
  v <- iloc_num df_classified i "spine_roll_curvature" ;;
  let st := side_lean th v st in
  has_stability <- has_column df_classified "spine_stability" ;;
  st <- (if has_stability : bool then
           v <- iloc_num df_classified i "spine_stability" ;;
           ret (movement th v st)
         else ret st) ;;
  let posture_issues := fst st in
  let severity := snd st in
  (match posture_issues with
   | [] =>
       iloc_set_str df_classified i "posture_label" "good_posture" ;;
       iloc_set_num df_classified i "confidence" (9 / 10)
   | [issue] =>
       iloc_set_str df_classified i "posture_label" issue ;;
       iloc_set_num df_classified i "confidence" (8 / 10)
   | _ =>
       iloc_set_str df_classified i "posture_label" "multiple_issues" ;;
       iloc_set_num df_classified i "confidence" (7 / 10)
   end) ;;
  iloc_set_num df_classified i "severity_score" (IZR (Z.min severity 10)).

Definition classify_posture_realtime (self : t) (df : ref) : M ref :=
  df_classified <- copy df ;;
  setitem_str df_classified "posture_label" "unknown" ;;
  setitem_num df_classified "severity_score" 0 ;;
  setitem_num df_classified "confidence" 0 ;;
  n <- len df_classified ;;
  for_each (seq 0 n) (classify_row self df_classified) ;;
  ret df_classified.

(* ----------------------------------------------------------------- *)
(** *** Level 5: generate_recommendations *)

(** The dict that [analyze_patterns] returns: every key may be absent.
    [time_period] holds the number of minutes (its formatting to one
    decimal place is not represented). *)
Record PatternReport : Type := {
  pattern_analysis : option string;
  time_period : option R;
  total_samples : option nat;
  posture_distribution : option (list (string * R));
  trends : option (list (string * string));
  recommendations : option (list string)
}.

(** [d.get(k, default)] *)
Definition get {V} (d : list (string * V)) (k : string) (default : V) : V :=
  match assoc_get k d with Some v => v | None => default end.

Definition when (b : bool) (items : list string) : list string :=
  if b then items else [].

Definition gtb (x y : R) : bool := if Rgt_dec x y then true else false.
Definition ltb (x y : R) : bool := if Rlt_dec x y then true else false.

(** The advice texts, without the pictograph each starts with in the
    source. *)
Definition generate_recommendations (self : t)
    (analysis_results : PatternReport) : list string :=
  match posture_distribution analysis_results with
  | None => ["Continue monitoring for personalized recommendations"]
  | Some posture_dist =>
      let trends :=
        match trends analysis_results with Some d => d | None => [] end in
      let fh_issues :=
        get posture_dist "severe_forward_head" 0
        + get posture_dist "mild_forward_head" 0 in
      let hunched_issues :=
        get posture_dist "severe_hunched" 0
        + get posture_dist "mild_hunched" 0 in
      let side_issues :=
        get posture_dist "severe_side_lean" 0
        + get posture_dist "mild_side_lean" 0 in
      let movement_pattern := get trends "movement_pattern" "unknown" in
      let good_posture := get posture_dist "good_posture" 0 in
      let curvature_trend := assoc_get "spine_curvature_trend" trends in
      let recommendations :=
        when (gtb fh_issues 30)
          (["Forward Head Posture Alert: Adjust monitor height to eye level";
            "Exercise: Chin tucks (10 reps every hour)"]
           ++ match assoc_get "forward_head_trend" trends with
              | Some "worsening" =>
                  ["Trend Alert: Forward head posture is getting worse - take immediate action!"]
              | _ => []
              end)
        ++ when (gtb hunched_issues 25)
             ["Hunched Shoulders Detected: Focus on shoulder blade squeezes";
              "Stretching: Doorway chest stretch (30 seconds, 3 times)"]
        ++ when (gtb side_issues 20)
             ["Side Lean Detected: Check chair height and desk setup";
              "Exercise: Side planks for core strengthening"]
        ++ (if String.eqb movement_pattern "too_static" then
              ["Movement Alert: Take a 2-minute movement break every 30 minutes";
               "Set hourly reminders to change position"]
            else if String.eqb movement_pattern "highly_dynamic" then
              ["Consider if discomfort is causing excessive movement";
               "Check ergonomic setup - chair and desk height"]
            else [])
        ++ (if gtb good_posture 70 then
              ["Excellent work! Maintain current habits"]
            else if gtb good_posture 50 then
              ["Good progress - minor adjustments needed"]
            else if ltb good_posture 30 then
              ["Significant improvement needed - consider ergonomic assessment"]
            else [])
        ++ match curvature_trend with
           | Some "improving" =>
               ["Great news! Your posture is improving over time"]
           | Some "worsening" =>
               ["Warning: Posture declining - review workspace setup"]
           | _ => []
           end in
      firstn 6 recommendations
  end.

(* ----------------------------------------------------------------- *)
(** *** Level 4: analyze_patterns *)

(** The last [k] rows of a frame. *)
Definition col_tail (k : nat) (c : column) : column :=
  match c with
  | NumCol xs => NumCol (skipn (length xs - k) xs)
  | StrCol xs => StrCol (skipn (length xs - k) xs)
  end.

(** [DataFrame.tail(n)]: nothing for 0, the last [n] rows for a positive
    [n], all rows but the first [-n] for a negative one. *)
Definition tail_rows (n : Z) (len : nat) : nat :=
  if (n =? 0)%Z then O
  else if (0 <? n)%Z then Nat.min (Z.to_nat n) len
  else len - Nat.min (Z.to_nat (- n)) len.

Definition frame_tail (n : Z) (f : DataFrame) : DataFrame :=
  let k := tail_rows n (nrows f) in
  mkFrame k (map (fun kc => (fst kc, col_tail k (snd kc))) (columns f)).

Definition tail (df : ref) (n : Z) : M ref :=
  f <- read df ;;
  fun s => (Ok (length s), s ++ [frame_tail n f]).

(** [df[c].value_counts()] on a column of labels. *)
Definition getitem_str (df : ref) (c : string) : M (list string) :=
  f <- read df ;;
  match get_col c f with
  | None => raise (KeyError c)
  | Some (StrCol xs) => ret xs
  | Some (NumCol _) => raise (TypeError "labels are strings")
  end.

(** ['improving' if t < -0.01 else 'worsening' if t > 0.01 else 'stable'] *)
Definition trend_of (slope : R) : string :=
  if Rlt_dec slope (- (1 / 100)) then "improving"
  else if Rgt_dec slope (1 / 100) then "worsening"
  else "stable".

Definition movement_pattern_of (avg_movement : NaN.float) : string :=
  if NaN.gt avg_movement (Some 4) then "highly_dynamic"
  else if NaN.gt avg_movement (Some 2) then "moderately_active"
  else if NaN.lt avg_movement (Some (1 / 2)) then "too_static"
  else "optimal".

Definition insufficient_data : PatternReport :=
  {| pattern_analysis := Some "insufficient_data";
     time_period := None;
     total_samples := None;
     posture_distribution := None;
     trends := Some [];
     recommendations := Some ["Collect more data for pattern analysis"] |}.

Definition analyze_patterns (self : t) (df : ref)
    (analysis_window_minutes : Z) : M PatternReport :=
  n <- len df ;;
  if (Z.of_nat n <? sample_rate self * 60)%Z then ret insufficient_data
  else
    let analysis_samples :=
      Z.min (analysis_window_minutes * 60 * sample_rate self) (Z.of_nat n) in
    tailed <- tail df analysis_samples ;;
    recent_data <- copy tailed ;;
    len_recent <- len recent_data ;;
    (if (sample_rate self =? 0)%Z then raise ZeroDivisionError else ret tt) ;;
    let analysis_results :=
      {| pattern_analysis := None;
         time_period := Some (INR len_recent / IZR (sample_rate self) / 60);
         total_samples := Some len_recent;
         posture_distribution := None;
         trends := None;
         recommendations := None |} in
    (* 1. Posture distribution *)
    has_label <- has_column recent_data "posture_label" ;;
    analysis_results <-
      (if has_label : bool then
         labels <- getitem_str recent_data "posture_label" ;;
         let posture_counts := Series.value_counts labels in
         total_samples' <- len recent_data ;;
         let posture_percentages :=
           fold_left
             (fun acc pc =>
                assoc_set (fst pc)
                  (INR (snd pc) / INR total_samples' * 100) acc)
             posture_counts [] in
         ret {| pattern_analysis := pattern_analysis analysis_results;
                time_period := time_period analysis_results;
                total_samples := total_samples analysis_results;
                posture_distribution := Some posture_percentages;
                trends := trends analysis_results;
                recommendations := recommendations analysis_results |}
       else ret analysis_results) ;;
    (* 2. Trends *)
    let trends0 : list (string * string) := [] in
    has_pitch <- has_column recent_data "s1_pitch" ;;
    trends1 <-
      (if has_pitch : bool then
         ys <- getitem_num recent_data "s1_pitch" ;;
         fh_trend <- lift (Np.polyfit_slope ys) ;;
         ret (assoc_set "forward_head_trend" (trend_of fh_trend) trends0)
       else ret trends0) ;;
    has_curve <- has_column recent_data "spine_curvature_magnitude" ;;
    trends2 <-
      (if has_curve : bool then
         ys <- getitem_num recent_data "spine_curvature_magnitude" ;;
         curve_trend <- lift (Np.polyfit_slope ys) ;;
         ret (assoc_set "spine_curvature_trend" (trend_of curve_trend) trends1)
       else ret trends1) ;;
    has_stability <- has_column recent_data "spine_stability" ;;
    trends3 <-
      (if has_stability : bool then
         ss <- getitem_num recent_data "spine_stability" ;;
         let avg_movement := Series.mean ss in
         ret (assoc_set "movement_pattern"
                (movement_pattern_of avg_movement) trends2)
       else ret trends2) ;;
    let analysis_results :=
      {| pattern_analysis := pattern_analysis analysis_results;
         time_period := time_period analysis_results;
         total_samples := total_samples analysis_results;
         posture_distribution := posture_distribution analysis_results;
         trends := Some trends3;
         recommendations := recommendations analysis_results |} in
    (* 3. Recommendations *)
    let recs := generate_recommendations self analysis_results in
    ret {| pattern_analysis := pattern_analysis analysis_results;
           time_period := time_period analysis_results;
           total_samples := total_samples analysis_results;
           posture_distribution := posture_distribution analysis_results;
           trends := trends analysis_results;
           recommendations := Some recs |}.

End PostureAlgorithms.
Import PostureAlgorithms.

(* ================================================================= *)
(** ** Vocabulary of the properties *)

Module Props.

(** A value farther than 3 std from the mean of its series. *)
Definition is_outlier (xs : list R) (x : R) : Prop :=
  match Series.mean xs, Series.std xs with
  | Some m, Some s => Rabs (x - m) > 3 * s
  | _, _ => False
  end.

(** Each entry is greater than or equal to the previous one. *)
Definition nondecreasing (xs : list R) : Prop :=
  forall i a b,
    nth_error xs i = Some a -> nth_error xs (S i) = Some b -> a <= b.

(** The frames a caller holds keep their contents. *)
Definition frames_kept (s s' : store) : Prop :=
  forall r f, lookup s r = Some f -> lookup s' r = Some f.

(** A computation that allocates nothing and writes to no frame but [r]. *)
Definition writes_only {A} (r : ref) (m : M A) : Prop :=
  forall s,
    length (snd (m s)) = length s /\
    forall r', r' <> r -> lookup (snd (m s)) r' = lookup s r'.

(** A computation that can only return [a]. *)
Definition returns {A} (a : A) (m : M A) : Prop :=
  forall s a', fst (m s) = Ok a' -> a' = a.

(** Whatever the computation returns satisfies [P]. *)
Definition yields {A} (P : A -> Prop) (m : M A) : Prop :=
  forall s a, fst (m s) = Ok a -> P a.

(** Column [c] of [f] is numeric and aligned with the rows. *)
Definition numeric (f : DataFrame) (c : string) : Prop :=
  exists xs, get_col c f = Some (NumCol xs) /\ length xs = nrows f.

(** The severity each issue adds, as the rule table states it. *)
Definition severity_delta (issue : string) : Z :=
  if String.eqb issue "severe_forward_head" then 3
  else if String.eqb issue "mild_forward_head" then 1
  else if String.eqb issue "severe_hunched" then 3
  else if String.eqb issue "mild_hunched" then 1
  else if String.eqb issue "severe_side_lean" then 2
  else if String.eqb issue "mild_side_lean" then 1
  else 0.

Definition total_delta (issues : list string) : Z :=
  fold_right Z.add 0%Z (map severity_delta issues).

(** The verdict the loop body reaches on a row with the given readings
    ([stability] is [None] when the frame has no such column). *)
Definition row_verdict (th : Thresholds) (pitch curv_pitch curv_roll : R)
    (stability : option R) : verdict :=
  let st := side_lean th curv_roll
              (hunched th curv_pitch (forward_head th pitch ([], 0%Z))) in
  match stability with
  | Some v => movement th v st
  | None => st
  end.

Definition label_of (issues : list string) : string :=
  match issues with
  | [] => "good_posture"
  | [issue] => issue
  | _ => "multiple_issues"
  end.

Definition confidence_of (issues : list string) : R :=
  match issues with
  | [] => 9 / 10
  | [_] => 8 / 10
  | _ => 7 / 10
  end.

(** The angle formulas of one sample, in degrees. *)
Definition pitch_deg (accel_x accel_y accel_z : R) : R :=
  Np.atan2 (- accel_x) (sqrt (Rsqr accel_y + Rsqr accel_z)) * 180 / PI.

Definition roll_deg (accel_y accel_z : R) : R :=
  Np.atan2 accel_y accel_z * 180 / PI.

(** An instance built with the default arguments, [sample_rate = 10] and
    [window_size = 50]. *)
Definition ten_hertz : t :=
  {| sample_rate := 10;
     window_size := 50;
     dt := 1 / IZR 10;
     filter_params := {| lowpass_cutoff := 3; order := 4 |};
     thresholds := {|
       forward_head_mild := 10;
       forward_head_severe := 20;
       hunched_shoulders_mild := 15;
       hunched_shoulders_severe := 25;
       side_lean_mild := 8;
       side_lean_severe := 15;
       movement_threshold := 3;
       stability_threshold := 2 |};
     feature_window := 30;
     is_trained := false |}.

(** Filters that hand every sample through, for running the program on
    an example. *)
Definition passthrough : SciPy :=
  {| butter_b := fun _ _ _ => 1;
     butter_a := fun _ _ _ => 1;
     filtfilt_at := fun _ _ x i => nth i x 0;
     savgol_at := fun _ _ x i => nth i x 0 |}.

(** A loop body that rewrites one numeric column of the frame behind [r]
    in place, keeping its length, on frames whose row count satisfies
    [ok]. *)
Definition column_step (ok : nat -> Prop) (body : ref -> string -> M unit)
  : Prop :=
  forall r c s g xs,
    lookup s r = Some g -> ok (nrows g) ->
    get_col c g = Some (NumCol xs) -> length xs = nrows g ->
    exists ys,
      length ys = length xs /\
      body r c s = (Ok tt, update r (set_col c (NumCol ys) g) s).

(** The rule table: a criterion with a mild and a severe tier names at
    most one issue, the severe one first. *)
Definition tier (v mild severe : R) (mild_issue severe_issue : string)
  : list string :=
  if Rgt_dec v severe then [severe_issue]
  else if Rgt_dec v mild then [mild_issue]
  else [].

(** The issues the three angle criteria trigger on a row. *)
Definition angle_issues (th : Thresholds) (pitch curv_pitch curv_roll : R)
  : list string :=
  tier pitch (forward_head_mild th) (forward_head_severe th)
    "mild_forward_head" "severe_forward_head"
  ++ tier curv_pitch (hunched_shoulders_mild th) (hunched_shoulders_severe th)
       "mild_hunched" "severe_hunched"
  ++ tier (Rabs curv_roll) (side_lean_mild th) (side_lean_severe th)
       "mild_side_lean" "severe_side_lean".

(** The issue the movement criterion triggers, on a frame that has the
    stability column. *)
Definition movement_issues (th : Thresholds) (stability : option R)
  : list string :=
  match stability with
  | None => []
  | Some v =>
      if Rgt_dec v (movement_threshold th) then ["excessive_movement"]
      else if Rlt_dec v (stability_threshold th) then ["static_posture"]
      else []
  end.

Definition triggered (th : Thresholds) (pitch curv_pitch curv_roll : R)
    (stability : option R) : list string :=
  angle_issues th pitch curv_pitch curv_roll ++ movement_issues th stability.

(** A verdict whose severity is the sum of the deltas of its issues. *)
Definition accounted (st : verdict) : Prop := snd st = total_delta (fst st).

(** The verdict of row [i] of a frame whose angle columns are [p], [pc]
    and [rc], with the stability column [stab] when the frame has one. *)
Definition verdict_at (th : Thresholds) (p pc rc : list R)
    (stab : option (list R)) (i : nat) : verdict :=
  row_verdict th (nth i p 0) (nth i pc 0) (nth i rc 0)
    (option_map (fun ss => nth i ss 0) stab).

(** The state of the classified frame once the loop has done the rows
    below [k]: the inputs are as they were and the three result columns
    hold the verdicts of those rows. *)
Definition classified_upto (th : Thresholds) (f : DataFrame)
    (p pc rc : list R) (stab : option (list R)) (k : nat) (g : DataFrame)
  : Prop :=
  nrows g = nrows f /\
  get_col "s1_pitch" g = Some (NumCol p) /\
  get_col "spine_pitch_curvature" g = Some (NumCol pc) /\
  get_col "spine_roll_curvature" g = Some (NumCol rc) /\
  get_col "spine_stability" g = option_map NumCol stab /\
  exists ls cs vs,
    get_col "posture_label" g = Some (StrCol ls) /\
    get_col "confidence" g = Some (NumCol cs) /\
    get_col "severity_score" g = Some (NumCol vs) /\
    length ls = nrows f /\ length cs = nrows f /\ length vs = nrows f /\
    forall i, (i < k)%nat ->
      let v := verdict_at th p pc rc stab i in
      nth_error ls i = Some (label_of (fst v)) /\
      nth_error cs i = Some (confidence_of (fst v)) /\
      nth_error vs i = Some (IZR (Z.min (snd v) 10)).

(** Ten oriented samples: the upper sensor tilts one degree further on
    each, everything else is at rest. *)
Definition rest : list R := repeat 0 10.

Definition ramp_pitch : list R := [0; 1; 2; 3; 4; 5; 6; 7; 8; 9].

Definition ramp : DataFrame :=
  mkFrame 10
    [("s1_pitch", NumCol ramp_pitch);
     ("s2_pitch", NumCol rest);
     ("spine_curvature_magnitude", NumCol rest);
     ("s1_gyro_x", NumCol rest); ("s1_gyro_y", NumCol rest);
     ("s1_gyro_z", NumCol rest);
     ("s2_gyro_x", NumCol rest); ("s2_gyro_y", NumCol rest);
     ("s2_gyro_z", NumCol rest)].

(** One sample with both sensors upright: gravity along z. *)
Definition upright : DataFrame :=
  mkFrame 1
    [("timestamp", NumCol [0]);
     ("s1_accel_x", NumCol [0]); ("s1_accel_y", NumCol [0]);
     ("s1_accel_z", NumCol [98 / 10]);
     ("s2_accel_x", NumCol [0]); ("s2_accel_y", NumCol [0]);
     ("s2_accel_z", NumCol [98 / 10])].

(** Two classified-to-be samples, with and without the stability
    column: a strong forward lean, then a neutral row. *)
Definition leaning : DataFrame :=
  mkFrame 2
    [("s1_pitch", NumCol [25; 0]);
     ("spine_pitch_curvature", NumCol [0; 0]);
     ("spine_roll_curvature", NumCol [0; 0]);
     ("spine_stability", NumCol [5 / 2; 5 / 2])].

Definition leaning_angles_only : DataFrame :=
  mkFrame 2
    [("s1_pitch", NumCol [25; 0]);
     ("spine_pitch_curvature", NumCol [0; 0]);
     ("spine_roll_curvature", NumCol [0; 0])].

(** Nine raw samples at rest. *)
Definition nine_samples : DataFrame :=
  mkFrame 9
    [("s1_accel_x", NumCol (repeat 0 9)); ("s1_accel_y", NumCol (repeat 0 9));
     ("s1_accel_z", NumCol (repeat 0 9));
     ("s1_gyro_x", NumCol (repeat 0 9)); ("s1_gyro_y", NumCol (repeat 0 9));
     ("s1_gyro_z", NumCol (repeat 0 9));
     ("s2_accel_x", NumCol (repeat 0 9)); ("s2_accel_y", NumCol (repeat 0 9));
     ("s2_accel_z", NumCol (repeat 0 9));
     ("s2_gyro_x", NumCol (repeat 0 9)); ("s2_gyro_y", NumCol (repeat 0 9));
     ("s2_gyro_z", NumCol (repeat 0 9))].

(** Eleven samples, ten at rest and one spike. *)
Definition spike : list R := [11; 0; 0; 0; 0; 0; 0; 0; 0; 0; 0].

End Props.
Import Props.

(* ================================================================= *)
(** ** The rest of the class: alerts, the learned classifier, the pipeline *)

(** scikit-learn, as [predict_posture_ml] uses it: a fitted scaler and a
    fitted model, whose numbers are taken from an interface.  Each call
    returns what the library computes or the refusal it raises. *)
Class Sklearn : Type := {
  Model : Type;
  Scaler : Type;
  transform : Scaler -> list (list R) -> result (list (list R));
  predict : Model -> list (list R) -> result (list string);
  predict_proba_max : Model -> list (list R) -> result (list R)
}.

Module Pipeline.

(* ----------------------------------------------------------------- *)
(** *** generate_realtime_alert *)

(** The dict of an alert. *)
Record Alert : Type := {
  level : string;
  message : string;
  action : string;
  type : string
}.

(** One entry of a column. *)
Inductive cell : Type :=
| NumCell (x : R)
| StrCell (s : string).

(** [df[c]], whatever the column holds. *)
Definition getitem (df : ref) (c : string) : M column :=
  f <- read df ;;
  match get_col c f with
  | None => raise (KeyError c)
  | Some col => ret col
  end.

(** [series.iloc[-1]]: the last entry, an [IndexError] on an empty
    series. *)
Definition iloc_last (col : column) : M cell :=
  match col with
  | NumCol xs =>
      match nth_error xs (length xs - 1) with
      | Some x => ret (NumCell x)
      | None => raise IndexError
      end
  | StrCol xs =>
      match nth_error xs (length xs - 1) with
      | Some x => ret (StrCell x)
      | None => raise IndexError
      end
  end.

(** [value >= k], which Python refuses for a string against a number. *)
Definition ge_num (value : cell) (k : R) : M bool :=
  match value with
  | NumCell x => ret (if Rge_dec x k then true else false)
  | StrCell _ =>
      raise (TypeError "'>=' not supported between instances of 'str' and 'int'")
  end.

(** [s.replace('_', ' ')] *)
Definition underscore : Ascii.ascii := Ascii.ascii_of_nat 95.
Definition space : Ascii.ascii := Ascii.ascii_of_nat 32.

Fixpoint replace_underscores (s : string) : string :=
  match s with
  | EmptyString => EmptyString
  | String c rest =>
      String (if Ascii.eqb c underscore then space else c)
             (replace_underscores rest)
  end.

(** [str.title()] on ASCII text: a letter that follows a letter is
    lowered, any other letter is raised. *)
Definition is_lower (c : Ascii.ascii) : bool :=
  (97 <=? Ascii.nat_of_ascii c)%nat && (Ascii.nat_of_ascii c <=? 122)%nat.

Definition is_upper (c : Ascii.ascii) : bool :=
  (65 <=? Ascii.nat_of_ascii c)%nat && (Ascii.nat_of_ascii c <=? 90)%nat.

Definition to_upper (c : Ascii.ascii) : Ascii.ascii :=
  if is_lower c then Ascii.ascii_of_nat (Ascii.nat_of_ascii c - 32) else c.

Definition to_lower (c : Ascii.ascii) : Ascii.ascii :=
  if is_upper c then Ascii.ascii_of_nat (Ascii.nat_of_ascii c + 32) else c.

Fixpoint title_from (previous_is_cased : bool) (s : string) : string :=
  match s with
  | EmptyString => EmptyString
  | String c rest =>
      let cased := is_lower c || is_upper c in
      String (if previous_is_cased then to_lower c else to_upper c)
             (title_from cased rest)
  end.

Definition title (s : string) : string := title_from false s.

(** [latest_posture.replace('_', ' ').title()].  On a number Python
    raises an [AttributeError], for which the model has no constructor of
    its own: it is reported as a [TypeError]. *)
Definition display_name (latest_posture : cell) : M string :=
  match latest_posture with
  | StrCell s => ret (title (replace_underscores s))
  | NumCell _ => raise (TypeError "'float' object has no attribute 'replace'")
  end.

(** The messages, without the pictograph each starts with in the source.
    [alert_threshold] is an argument the body never reads. *)
Definition generate_realtime_alert (self : t) (current_data : ref)
    (alert_threshold : R) : M (option Alert) :=
  has_severity <- has_column current_data "severity_score" ;;
  if negb has_severity then ret None
  else
    severities <- getitem current_data "severity_score" ;;
    latest_severity <- iloc_last severities ;;
    labels <- getitem current_data "posture_label" ;;
    latest_posture <- iloc_last labels ;;
    high <- ge_num latest_severity 3 ;;
    if high : bool then
      name <- display_name latest_posture ;;
      ret (Some {| level := "high";
                   message := String.append "Posture Alert: " name;
                   action := "Adjust posture immediately";
                   type := "vibration" |})
    else
      medium <- ge_num latest_severity 1 ;;
      if medium : bool then
        name <- display_name latest_posture ;;
        ret (Some {| level := "medium";
                     message := String.append "Posture Notice: " name;
                     action := "Consider adjusting position";
                     type := "notification" |})
      else ret None.

(* ----------------------------------------------------------------- *)
(** *** predict_posture_ml *)

Definition ml_feature_columns : list string :=
  ["s1_pitch"; "s1_roll"; "s2_pitch"; "s2_roll";
   "spine_pitch_curvature"; "spine_roll_curvature";
   "spine_curvature_magnitude";
   "s1_movement_variability"; "s2_movement_variability"; "spine_stability"].

(** [[col for col in feature_columns if col in df.columns]] *)
Definition available_features (df : ref) : M (list string) :=
  f <- read df ;;
  ret (filter (fun col => has_col col f) ml_feature_columns).

(** [df[cols].fillna(0)], column by column, as the numbers the library is
    handed; a column of strings is what the scaler refuses. *)
Fixpoint feature_matrix (df : ref) (cols : list string)
  : M (list (list R)) :=
  match cols with
  | [] => ret []
  | col :: rest =>
      values <- getitem df col ;;
      match values with
      | StrCol _ => raise (ValueError "could not convert string to float")
      | NumCol xs =>
          others <- feature_matrix df rest ;;
          ret (xs :: others)
      end
  end.

Section WithSklearn.
Context `{Sklearn}.

(** The fields of [self] that hold the learned classifier. *)
Record Learner : Type := {
  ml_model : option Model;
  scaler : Scaler
}.

Definition predict_posture_ml (self : t) (learner : Learner) (df : ref)
  : M ref :=
  match is_trained self, ml_model learner with
  | true, Some model =>
      available <- available_features df ;;
      if (length available <? 5)%nat then ret df
      else
        X <- feature_matrix df available ;;
        X_scaled <- lift (transform (scaler learner) X) ;;
        df_ml <- copy df ;;
        predictions <- lift (predict model X_scaled) ;;
        setitem df_ml "ml_prediction" (StrCol predictions) ;;
        confidences <- lift (predict_proba_max model X_scaled) ;;
        setitem df_ml "ml_confidence" (NumCol confidences) ;;
        ret df_ml
  | _, _ => ret df
  end.

(* ----------------------------------------------------------------- *)
(** *** process_complete_analysis *)

Context `{SciPy}.

(** The five levels in a row (the progress messages it prints are not
    represented). *)
Definition process_complete_analysis (self : t) (learner : Learner)
    (df : ref) : M (ref * PatternReport) :=
  df_clean <- preprocess_data self df ;;
  df_oriented <- extract_orientation self df_clean ;;
  df_features <- extract_advanced_features self df_oriented ;;
  df_classified <- classify_posture_realtime self df_features ;;
  pattern_results <- analyze_patterns self df_classified 5 ;;
  df_final <-
    (if is_trained self then predict_posture_ml self learner df_classified
     else ret df_classified) ;;
  ret (df_final, pattern_results).

End WithSklearn.

End Pipeline.
Import Pipeline.

(* ================================================================= *)
(** ** Vocabulary of the further properties *)

Module MoreProps.

(** The columns the orientation extractor adds. *)
Definition orientation_columns : list string :=
  ["s1_pitch"; "s1_roll"; "s2_pitch"; "s2_roll";
   "spine_pitch_curvature"; "spine_roll_curvature";
   "spine_curvature_magnitude"].

(** The columns the classifier adds. *)
Definition classification_columns : list string :=
  ["posture_label"; "severity_score"; "confidence"].

(** A computation that writes to no frame the store holds: all it does
    to the store is to add frames at its end. *)
Definition allocates_only {A} (m : M A) : Prop :=
  forall s, exists added, snd (m s) = s ++ added.

(** A computation that, in the frame behind [r], changes no column
    outside [cols] and keeps the row count. *)
Definition touches_columns {A} (r : ref) (cols : list string) (m : M A)
  : Prop :=
  forall s g,
    lookup s r = Some g ->
    exists g',
      lookup (snd (m s)) r = Some g' /\
      nrows g' = nrows g /\
      forall c, ~ In c cols -> get_col c g' = get_col c g.

(** The last [k] entries of a series. *)
Definition last_rows {A} (k : nat) (xs : list A) : list A :=
  skipn (length xs - k) xs.

(** The slope [np.polyfit] fits, where it fits one. *)
Definition slope_of (ys : list R) : R :=
  match Np.polyfit_slope ys with Ok v => v | Raise _ => 0 end.

(** The sum of the counts of [value_counts]. *)
Definition counted (l : list (string * nat)) : nat :=
  fold_right Nat.add 0%nat (map snd l).

(** The percentages [analyze_patterns] derives from the label counts. *)
Definition percentages (labels : list string) (total_samples : nat)
  : list (string * R) :=
  fold_left
    (fun acc pc =>
       assoc_set (fst pc) (INR (snd pc) / INR total_samples * 100) acc)
    (Series.value_counts labels) [].

(** The keys of a dict. *)
Definition keys {K V} (d : list (K * V)) : list K := map fst d.

(** The labels the classifier can write. *)
Definition posture_labels : list string :=
  ["good_posture";
   "severe_forward_head"; "mild_forward_head";
   "severe_hunched"; "mild_hunched";
   "severe_side_lean"; "mild_side_lean";
   "excessive_movement"; "static_posture";
   "multiple_issues"].

(** The spine stability the pipeline hands to the classifier: the rolling
    deviation of the curvature magnitude [m], or zeros when the feature
    window has fewer than ten samples. *)
Definition pipeline_stability (self : t) (n : nat) (m : list R) : list R :=
  if (10 <=? window_samples self n)%Z
  then rolling_std (Z.to_nat (window_samples self n)) m
  else repeat 0 n.

(** The three alerts of the recommendations, and the share of the window
    each goes by. *)
Definition forward_head_alert : string :=
  "Forward Head Posture Alert: Adjust monitor height to eye level".

Definition hunched_alert : string :=
  "Hunched Shoulders Detected: Focus on shoulder blade squeezes".

Definition side_lean_alert : string :=
  "Side Lean Detected: Check chair height and desk setup".

Definition share (posture_dist : list (string * R)) (severe mild : string)
  : R :=
  get posture_dist severe 0 + get posture_dist mild 0.

(** The advice on movement, on the overall score and on the curvature
    trend, which comes after the alerts. *)
Definition later_advice : list string :=
  ["Movement Alert: Take a 2-minute movement break every 30 minutes";
   "Set hourly reminders to change position";
   "Consider if discomfort is causing excessive movement";
   "Check ergonomic setup - chair and desk height";
   "Excellent work! Maintain current habits";
   "Good progress - minor adjustments needed";
   "Significant improvement needed - consider ergonomic assessment";
   "Great news! Your posture is improving over time";
   "Warning: Posture declining - review workspace setup"].

(** A report in which every sample leans forward. *)
Definition all_forward : PatternReport :=
  {| pattern_analysis := None;
     time_period := Some 1;
     total_samples := Some 60%nat;
     posture_distribution := Some [("mild_forward_head", 100)];
     trends := Some [("forward_head_trend", "stable")];
     recommendations := None |}.

(** An instance built with [sample_rate = 1]. *)
Definition one_hertz : t :=
  {| sample_rate := 1;
     window_size := 50;
     dt := 1 / IZR 1;
     filter_params := {| lowpass_cutoff := 3; order := 4 |};
     thresholds := {|
       forward_head_mild := 10;
       forward_head_severe := 20;
       hunched_shoulders_mild := 15;
       hunched_shoulders_severe := 25;
       side_lean_mild := 8;
       side_lean_severe := 15;
       movement_threshold := 3;
       stability_threshold := 2 |};
     feature_window := 30;
     is_trained := false |}.

(** A classified minute at one sample a second: the pitch rises by one
    degree a sample, everything else is at rest. *)
Definition drifting : DataFrame :=
  mkFrame 60
    [("posture_label", StrCol (repeat "good_posture" 60));
     ("s1_pitch", NumCol (map (fun x => 0 + 1 * x) (Np.indices 60)));
     ("spine_curvature_magnitude", NumCol (repeat 0 60));
     ("spine_stability", NumCol (repeat 0 60))].

(** Two samples with eight of the ten feature columns. *)
Definition featured : DataFrame :=
  mkFrame 2
    [("s1_pitch", NumCol [25; 0]); ("s1_roll", NumCol [0; 0]);
     ("s2_pitch", NumCol [25; 0]); ("s2_roll", NumCol [0; 0]);
     ("spine_pitch_curvature", NumCol [0; 0]);
     ("spine_roll_curvature", NumCol [0; 0]);
     ("spine_curvature_magnitude", NumCol [0; 0]);
     ("spine_stability", NumCol [5 / 2; 5 / 2])].

(** A stand-in for a fitted model, for running the program on an
    example: the scaler hands the columns through and the model answers
    every row with the label it holds, at probability 1. *)
Definition constant_model : Sklearn :=
  {| Model := string;
     Scaler := unit;
     transform := fun _ X => Ok X;
     predict := fun label X => Ok (repeat label (length (hd [] X)));
     predict_proba_max := fun _ X => Ok (repeat 1 (length (hd [] X))) |}.

Definition constant_learner : @Learner constant_model :=
  @Build_Learner constant_model (Some "good_posture") tt.

(** [ten_hertz] once a model has been fit. *)
Definition fitted : t :=
  {| sample_rate := sample_rate ten_hertz;
     window_size := window_size ten_hertz;
     dt := dt ten_hertz;
     filter_params := filter_params ten_hertz;
     thresholds := thresholds ten_hertz;
     feature_window := feature_window ten_hertz;
     is_trained := true |}.

End MoreProps.
Import MoreProps.

(* ================================================================= *)
(** * Properties *)

(* ----------------------------------------------------------------- *)
(** ** Construction *)

Lemma init_zero_raises (ws : Z) : init 0 ws = Raise ZeroDivisionError.
Proof. reflexivity. Qed.

Lemma init_overflow_raises (sr ws : Z) :
  (Py.float_overflow_bound <= Z.abs sr)%Z -> init sr ws = Raise OverflowError.
Proof.
  intros Hbig. unfold init, Py.int_overflows_float.
  destruct (Z.leb_spec Py.float_overflow_bound (Z.abs sr)); [reflexivity | lia].
Qed.

Lemma init_nonzero (sr ws : Z) :
  sr <> 0%Z -> (Z.abs sr < Py.float_overflow_bound)%Z ->
  exists self, init sr ws = Ok self /\ sample_rate self = sr
               /\ dt self = 1 / IZR sr.
Proof.
  intros Hsr Hfits. unfold init, Py.int_overflows_float.
  destruct (Z.leb_spec Py.float_overflow_bound (Z.abs sr)); [lia |].
  destruct (Z.eqb_spec sr 0) as [E | _]; [contradiction |].
  eexists; split; [reflexivity | split; reflexivity].
Qed.

Lemma init_fields (sr ws : Z) (self : t) :
  init sr ws = Ok self ->
  sr <> 0%Z /\ sample_rate self = sr /\ dt self = 1 / IZR sr
  /\ feature_window self = 30%Z
  /\ order (filter_params self) = 4%nat
  /\ lowpass_cutoff (filter_params self) = 3.
Proof.
  unfold init. destruct (Py.int_overflows_float sr); [discriminate |].
  destruct (Z.eqb_spec sr 0) as [E | NE]; [discriminate |].
  intros H; inversion H; subst; cbn. repeat split; auto.
Qed.

Lemma init_fits (sr ws : Z) (self : t) :
  init sr ws = Ok self -> (Z.abs sr < Py.float_overflow_bound)%Z.
Proof.
  unfold init, Py.int_overflows_float.
  destruct (Z.leb_spec Py.float_overflow_bound (Z.abs sr));
    [discriminate | auto].
Qed.

(** C8, as stated, fails: a negative sample rate is accepted. *)
Lemma init_accepts_negative_rate :
  (-1 <= 0)%Z /\ Py.is_ok (init (-1) 50) = true.
Proof. split; [lia | reflexivity]. Qed.

(** The other half of C8 fails as well: a positive rate beyond the range
    of a double is refused. *)
Lemma init_rejects_rate_beyond_double_range :
  (0 < 10 ^ 400)%Z /\ init (10 ^ 400) 50 = Raise OverflowError.
Proof. split; reflexivity. Qed.

(** C8 (amended): construction raises exactly when the division
    [1.0 / sample_rate] does, that is when [sample_rate] is zero
    ([ZeroDivisionError]) or, in absolute value, at least
    [2^1024 - 2^970] and so beyond the range of a double
    ([OverflowError]).  Every other rate, positive or negative, yields an
    instance that holds it, with the period [1 / sample_rate], which is
    negative for a negative rate. *)
Theorem init_raises_iff_zero_or_beyond_double_range (sr ws : Z) :
  (sr = 0%Z -> init sr ws = Raise ZeroDivisionError) /\
  ((Py.float_overflow_bound <= Z.abs sr)%Z ->
   init sr ws = Raise OverflowError) /\
  (sr <> 0%Z -> (Z.abs sr < Py.float_overflow_bound)%Z ->
   exists self,
     init sr ws = Ok self /\ sample_rate self = sr /\
     dt self = 1 / IZR sr /\ ((sr < 0)%Z -> dt self < 0)) /\
  (Py.is_ok (init sr ws) = false
   <-> sr = 0%Z \/ (Py.float_overflow_bound <= Z.abs sr)%Z).
Proof.
  split; [intros ->; apply init_zero_raises |].
  split; [apply init_overflow_raises |].
  split.
  - intros Hsr Hfits.
    destruct (init_nonzero sr ws Hsr Hfits) as (self & E & Hr & Hdt).
    exists self. repeat split; auto.
    intros Hneg. rewrite Hdt. unfold Rdiv. rewrite Rmult_1_l.
    apply Rinv_lt_0_compat. apply (IZR_lt sr 0). exact Hneg.
  - destruct (Z.leb_spec Py.float_overflow_bound (Z.abs sr)) as [Hbig | Hfits].
    + rewrite (init_overflow_raises sr ws Hbig). cbn [Py.is_ok].
      split; auto.
    + destruct (Z.eq_dec sr 0) as [-> | Hsr].
      * rewrite init_zero_raises. cbn [Py.is_ok]. split; auto.
      * destruct (init_nonzero sr ws Hsr Hfits) as (self & E & _).
        rewrite E. cbn [Py.is_ok]. split; [discriminate |].
        intros [E0 | Hbig]; [contradiction | lia].
Qed.

(* ----------------------------------------------------------------- *)
(** ** Sums, means and the 3-sigma step *)

Section Sums.

Lemma sum_app (l1 l2 : list R) :
  Series.sum (l1 ++ l2) = Series.sum l1 + Series.sum l2.
Proof.
  induction l1 as [| a l1 IH].
  - change (Series.sum l2 = 0 + Series.sum l2). lra.
  - change (a + Series.sum (l1 ++ l2) = a + Series.sum l1 + Series.sum l2).
    rewrite IH. lra.
Qed.

Lemma sum_cons (a : R) (l : list R) :
  Series.sum (a :: l) = a + Series.sum l.
Proof. reflexivity. Qed.

Lemma sum_shift (m : R) (l : list R) :
  Series.sum (map (fun x => x - m) l) = Series.sum l - INR (length l) * m.
Proof.
  induction l as [| a l IH].
  - cbn. lra.
  - cbn [map]. rewrite !sum_cons, IH.
    change (length (a :: l)) with (S (length l)). rewrite S_INR. lra.
Qed.

Lemma sum_sq_nonneg (l : list R) : 0 <= Series.sum (map Rsqr l).
Proof.
  induction l as [| a l IH]; cbn [map]; [cbn; lra |].
  rewrite sum_cons. pose proof (Rle_0_sqr a). lra.
Qed.

Lemma sum_sq_dist (a : R) (l : list R) :
  Series.sum (map (fun x => Rsqr (a - x)) l)
  = INR (length l) * (a * a) - 2 * a * Series.sum l + Series.sum (map Rsqr l).
Proof.
  induction l as [| b l IH].
  - cbn. lra.
  - cbn [map]. rewrite !sum_cons, IH.
    change (length (b :: l)) with (S (length l)). rewrite S_INR.
    unfold Rsqr. ring.
Qed.

Lemma sum_sq_dist_nonneg (a : R) (l : list R) :
  0 <= Series.sum (map (fun x => Rsqr (a - x)) l).
Proof.
  induction l as [| b l IH]; cbn [map]; [cbn; lra |].
  rewrite sum_cons. pose proof (Rle_0_sqr (a - b)). lra.
Qed.

(** Cauchy-Schwarz against the all-ones vector. *)
Lemma sum_squared_le (l : list R) :
  Series.sum l * Series.sum l <= INR (length l) * Series.sum (map Rsqr l).
Proof.
  induction l as [| a l IH].
  - cbn. lra.
  - cbn [map]. rewrite !sum_cons.
    change (length (a :: l)) with (S (length l)). rewrite S_INR.
    pose proof (sum_sq_dist_nonneg a l) as Hd. rewrite sum_sq_dist in Hd.
    unfold Rsqr in *.
    set (s := Series.sum l) in *.
    set (q := Series.sum (map (fun x => x * x) l)) in *.
    set (k := INR (length l)) in *.
    replace ((a + s) * (a + s)) with (a * a + 2 * a * s + s * s) by ring.
    replace ((k + 1) * (a * a + q)) with (k * (a * a) + k * q + a * a + q)
      by ring.
    lra.
Qed.

Lemma mean_some (xs : list R) (m : R) :
  Series.mean xs = Some m ->
  0 < INR (length xs) /\ m = Series.sum xs / INR (length xs).
Proof.
  destruct xs as [| a l]; [discriminate |].
  unfold Series.mean. intros E. split.
  - apply lt_0_INR. cbn [length]. lia.
  - congruence.
Qed.

End Sums.

Section Outliers.

Lemma mask_assign_map (f : R -> bool) (m : R) (xs : list R) :
  mask_assign (map f xs) m xs = map (fun x => if f x then m else x) xs.
Proof. induction xs as [| x xs IH]; cbn; [| rewrite IH]; reflexivity. Qed.

(** The step, value by value. *)
Lemma suppress_outliers_values (xs : list R) (m : R) :
  Series.mean xs = Some m ->
  suppress_outliers xs
  = map (fun x =>
           if NaN.gt (Some (Rabs (x - m))) (NaN.mul (Some 3) (Series.std xs))
           then m else x) xs.
Proof.
  intros Hm. unfold suppress_outliers, outlier_mask. rewrite Hm.
  apply (mask_assign_map
           (fun x => NaN.gt (NaN.abs (NaN.sub (Some x) (Some m)))
                       (NaN.mul (Some 3) (Series.std xs)))).
Qed.

Lemma suppress_outliers_length (xs : list R) :
  length (suppress_outliers xs) = length xs.
Proof.
  destruct (Series.mean xs) as [m |] eqn:Hm.
  - rewrite (suppress_outliers_values xs m Hm). apply length_map.
  - unfold suppress_outliers. rewrite Hm. reflexivity.
Qed.

Lemma map_id_on {A} (f : A -> A) (l : list A) :
  (forall x, In x l -> f x = x) -> map f l = l.
Proof.
  induction l as [| a l IH]; intros Hf; cbn; [reflexivity |].
  rewrite Hf by (left; reflexivity).
  rewrite IH; [reflexivity | intros x Hx; apply Hf; right; exact Hx].
Qed.

(** A series without outliers is a fixed point of the step. *)
Lemma suppress_outliers_fixed (xs : list R) :
  (forall x, In x xs -> ~ is_outlier xs x) -> suppress_outliers xs = xs.
Proof.
  intros Hno.
  destruct (Series.mean xs) as [m |] eqn:Hm.
  - rewrite (suppress_outliers_values xs m Hm).
    apply map_id_on. intros x Hx.
    specialize (Hno x Hx). unfold is_outlier in Hno. rewrite Hm in Hno.
    destruct (Series.std xs) as [sd |]; cbn; [| reflexivity].
    destruct (Rgt_dec (Rabs (x - m)) (3 * sd)); [contradiction | reflexivity].
  - unfold suppress_outliers. rewrite Hm. reflexivity.
Qed.

(** Samuelson's bound: no value lies farther from the mean than
    [(n - 1) / sqrt n] sample standard deviations. *)
Lemma deviation_bound (xs : list R) (m x : R) :
  Series.mean xs = Some m -> In x xs ->
  INR (length xs) * Rsqr (x - m)
  <= INR (length xs - 1) * Series.sum (map (fun y => Rsqr (y - m)) xs).
Proof.
  intros Hm Hin.
  assert (Hsum : Series.sum xs = INR (length xs) * m).
  { destruct (mean_some xs m Hm) as (Hpos & E). rewrite E. field. lra. }
  destruct (in_split x xs Hin) as (l1 & l2 & ->).
  set (rest := map (fun y => y - m) (l1 ++ l2)).
  assert (Hrest : Series.sum rest = - (x - m)).
  { subst rest. rewrite sum_shift.
    rewrite sum_app, sum_cons in Hsum. rewrite sum_app.
    rewrite !length_app in *. cbn [length] in Hsum.
    rewrite Nat.add_succ_r, S_INR in Hsum. lra. }
  assert (Hsq : Series.sum (map (fun y => Rsqr (y - m)) (l1 ++ x :: l2))
                = Rsqr (x - m) + Series.sum (map Rsqr rest)).
  { subst rest. rewrite map_map, !map_app, !sum_app. cbn [map].
    rewrite sum_cons. lra. }
  assert (Hlen : length (l1 ++ x :: l2) = S (length rest)).
  { subst rest. rewrite length_map, !length_app. cbn [length]. lia. }
  rewrite Hsq, Hlen. replace (S (length rest) - 1)%nat with (length rest) by lia.
  rewrite S_INR.
  pose proof (sum_squared_le rest) as Hcs. rewrite Hrest in Hcs.
  pose proof (sum_sq_nonneg rest) as Hq.
  unfold Rsqr in *.
  set (d := x - m) in *. set (q := Series.sum (map (fun y => y * y) rest)) in *.
  set (k := INR (length rest)) in *.
  replace (- d * - d) with (d * d) in Hcs by ring.
  replace ((k + 1) * (d * d)) with (k * (d * d) + d * d) by ring.
  replace (k * (d * d + q)) with (k * (d * d) + k * q) by ring.
  lra.
Qed.

Lemma small_series_has_no_outlier (xs : list R) (x : R) :
  (length xs <= 10)%nat -> In x xs -> ~ is_outlier xs x.
Proof.
  intros Hlen Hin Hout. unfold is_outlier in Hout.
  destruct (Series.mean xs) as [m |] eqn:Hm; [| exact Hout].
  unfold Series.std in Hout. rewrite Hm in Hout.
  destruct (Nat.ltb_spec (length xs) 2) as [Hlt | Hge]; [exact Hout |].
  pose proof (deviation_bound xs m x Hm Hin) as Hb.
  set (S2 := Series.sum (map (fun y => Rsqr (y - m)) xs)) in *.
  assert (HS : 0 <= S2).
  { subst S2. rewrite <- (map_map (fun y => y - m) Rsqr). apply sum_sq_nonneg. }
  set (k := INR (length xs - 1)) in *.
  assert (Hk1 : 1 <= k).
  { subst k. change 1 with (INR 1). apply le_INR. lia. }
  assert (Hk9 : k <= 9).
  { subst k. replace 9 with (INR 9) by (cbn; lra). apply le_INR. lia. }
  assert (Hn : INR (length xs) = k + 1).
  { subst k. rewrite <- S_INR. f_equal. lia. }
  rewrite Hn in Hb.
  assert (Hv : 0 <= S2 / k).
  { apply Rmult_le_pos; [exact HS |].
    apply Rlt_le, Rinv_0_lt_compat. lra. }
  pose proof (sqrt_pos (S2 / k)) as Hsp.
  assert (Hsq : 9 * (S2 / k) < Rsqr (x - m)).
  { rewrite (Rsqr_abs (x - m)).
    replace (9 * (S2 / k)) with (Rsqr (3 * sqrt (S2 / k))).
    - apply Rsqr_incrst_1; [exact Hout | lra | apply Rabs_pos].
    - unfold Rsqr.
      replace (3 * sqrt (S2 / k) * (3 * sqrt (S2 / k)))
        with (9 * (sqrt (S2 / k) * sqrt (S2 / k))) by ring.
      rewrite sqrt_sqrt by exact Hv. reflexivity. }
  set (d2 := Rsqr (x - m)) in *.
  assert (Hd2 : 0 <= d2) by (subst d2; apply Rle_0_sqr).
  assert (H9 : 9 * S2 < k * d2).
  { assert (E : 9 * S2 = k * (9 * (S2 / k))) by (field; lra).
    rewrite E. apply Rmult_lt_compat_l; lra. }
  (* (k + 1) d2 <= k S2 and 9 S2 < k d2, with 1 <= k <= 9 *)
  assert (H1 : 9 * ((k + 1) * d2) <= 9 * (k * S2)) by lra.
  assert (H2 : k * (9 * S2) < k * (k * d2))
    by (apply Rmult_lt_compat_l; lra).
  assert (H3 : k * (k * d2) <= 9 * (k * d2)).
  { replace (k * (k * d2)) with (k * d2 * k) by ring.
    replace (9 * (k * d2)) with (k * d2 * 9) by ring.
    apply Rmult_le_compat_l; [| exact Hk9].
    apply Rmult_le_pos; lra. }
  assert (H4 : 0 <= 9 * d2) by lra.
  lra.
Qed.

End Outliers.

Section OutlierExample.

Lemma gt_3std_true (m v x : R) :
  0 <= v -> 9 * v < Rsqr (x - m) ->
  NaN.gt (Some (Rabs (x - m))) (NaN.mul (Some 3) (Some (sqrt v))) = true.
Proof.
  intros Hv Hlt. cbn. destruct (Rgt_dec (Rabs (x - m)) (3 * sqrt v)) as [| Hn];
    [reflexivity | exfalso; apply Hn].
  pose proof (sqrt_pos v).
  apply Rsqr_incrst_0; [| lra | apply Rabs_pos].
  rewrite <- Rsqr_abs. unfold Rsqr at 1.
  replace (3 * sqrt v * (3 * sqrt v)) with (9 * (sqrt v * sqrt v)) by ring.
  rewrite sqrt_sqrt by exact Hv. exact Hlt.
Qed.

Lemma gt_3std_false (m v x : R) :
  0 <= v -> Rsqr (x - m) <= 9 * v ->
  NaN.gt (Some (Rabs (x - m))) (NaN.mul (Some 3) (Some (sqrt v))) = false.
Proof.
  intros Hv Hle. cbn. destruct (Rgt_dec (Rabs (x - m)) (3 * sqrt v)) as [Hgt |];
    [exfalso | reflexivity].
  pose proof (sqrt_pos v).
  assert (Hsq : Rsqr (3 * sqrt v) < Rsqr (Rabs (x - m))).
  { apply Rsqr_incrst_1; [exact Hgt | lra | apply Rabs_pos]. }
  rewrite <- Rsqr_abs in Hsq. unfold Rsqr at 1 in Hsq.
  replace (3 * sqrt v * (3 * sqrt v)) with (9 * (sqrt v * sqrt v)) in Hsq
    by ring.
  rewrite sqrt_sqrt in Hsq by exact Hv. lra.
Qed.

Lemma spike_first_pass :
  suppress_outliers spike = [1; 0; 0; 0; 0; 0; 0; 0; 0; 0; 0].
Proof.
  assert (Hm : Series.mean spike = Some 1).
  { unfold Series.mean, spike, Series.sum. cbn. f_equal. lra. }
  assert (Hs : Series.std spike = Some (sqrt 11)).
  { unfold Series.std. rewrite Hm. unfold spike, Series.sum, Rsqr. cbn.
    do 2 f_equal. lra. }
  rewrite (suppress_outliers_values spike 1 Hm), Hs. unfold spike. cbn [map].
  rewrite gt_3std_true by (unfold Rsqr; lra).
  rewrite !gt_3std_false by (unfold Rsqr; lra).
  reflexivity.
Qed.

Lemma spike_second_pass :
  suppress_outliers [1; 0; 0; 0; 0; 0; 0; 0; 0; 0; 0]
  = [1 / 11; 0; 0; 0; 0; 0; 0; 0; 0; 0; 0].
Proof.
  set (xs := [1; 0; 0; 0; 0; 0; 0; 0; 0; 0; 0]).
  assert (Hm : Series.mean xs = Some (1 / 11)).
  { unfold Series.mean, xs, Series.sum. cbn. f_equal. lra. }
  assert (Hs : Series.std xs = Some (sqrt (1 / 11))).
  { unfold Series.std. rewrite Hm. unfold xs, Series.sum, Rsqr. cbn.
    do 2 f_equal. lra. }
  rewrite (suppress_outliers_values xs (1 / 11) Hm), Hs. unfold xs. cbn [map].
  rewrite gt_3std_true by (unfold Rsqr; lra).
  rewrite !gt_3std_false by (unfold Rsqr; lra).
  reflexivity.
Qed.

End OutlierExample.

(** C3, as stated, fails: on eleven samples with one spike the first pass
    moves the spike to the mean, which the second pass again finds farther
    than 3 std from the new mean and moves once more. *)
Lemma suppress_outliers_not_idempotent :
  suppress_outliers (suppress_outliers spike) <> suppress_outliers spike.
Proof.
  rewrite spike_first_pass, spike_second_pass.
  intros E. injection E as E. lra.
Qed.

(** C3 (amended): the 3-sigma step keeps the length of the series, and it
    is idempotent on every series in which no value is farther than 3 std
    from the mean, in particular on every series of at most 10 samples:
    there it returns the series unchanged. *)
Theorem suppress_outliers_idempotent_without_outliers (xs : list R) :
  (length xs <= 10)%nat \/ (forall x, In x xs -> ~ is_outlier xs x) ->
  length (suppress_outliers xs) = length xs /\
  suppress_outliers xs = xs /\
  suppress_outliers (suppress_outliers xs) = suppress_outliers xs.
Proof.
  intros Hcase.
  assert (Hfix : suppress_outliers xs = xs).
  { apply suppress_outliers_fixed. destruct Hcase as [Hlen | Hno].
    - intros x Hx. apply small_series_has_no_outlier; assumption.
    - exact Hno. }
  split; [apply suppress_outliers_length |].
  split; [exact Hfix |]. rewrite Hfix. exact Hfix.
Qed.

Lemma suppress_outliers_idempotent_without_outliers_witness :
  (length [1; 2; 3]%R <= 10)%nat /\
  suppress_outliers (suppress_outliers [1; 2; 3]) = suppress_outliers [1; 2; 3].
Proof.
  split; [cbn; lia |].
  apply (suppress_outliers_idempotent_without_outliers [1; 2; 3]).
  left. cbn. lia.
Defined.

(* ----------------------------------------------------------------- *)
(** ** Frames and the store *)

Section FrameLemmas.

Lemma assoc_get_set {V} (k k' : string) (v : V) (l : list (string * V)) :
  assoc_get k (assoc_set k' v l)
  = if String.eqb k k' then Some v else assoc_get k l.
Proof.
  induction l as [| [k0 v0] l IH]; cbn.
  - destruct (String.eqb k k'); reflexivity.
  - destruct (String.eqb_spec k' k0) as [-> | Hne]; cbn.
    + destruct (String.eqb k k0); reflexivity.
    + rewrite IH. destruct (String.eqb_spec k k0) as [-> | Hne'].
      * destruct (String.eqb_spec k0 k') as [E | _]; [| reflexivity].
        symmetry in E. contradiction.
      * reflexivity.
Qed.

Lemma get_set (c c' : string) (v : column) (f : DataFrame) :
  get_col c (set_col c' v f)
  = if String.eqb c c' then Some v else get_col c f.
Proof. apply assoc_get_set. Qed.

Lemma get_set_same (c : string) (v : column) (f : DataFrame) :
  get_col c (set_col c v f) = Some v.
Proof. rewrite get_set, String.eqb_refl. reflexivity. Qed.

Lemma get_set_other (c c' : string) (v : column) (f : DataFrame) :
  c <> c' -> get_col c (set_col c' v f) = get_col c f.
Proof.
  intros Hne. rewrite get_set.
  destruct (String.eqb_spec c c'); [contradiction | reflexivity].
Qed.

Lemma wf_get (f : DataFrame) (c : string) (col : column) :
  wf f -> get_col c f = Some col -> col_len col = nrows f.
Proof.
  unfold wf, get_col. destruct f as [n cols]. cbn.
  induction cols as [| [k v] cols IH]; cbn; [discriminate |].
  intros Hwf Hget.
  pose proof (Forall_inv Hwf) as Hhd. pose proof (Forall_inv_tail Hwf) as Htl.
  destruct (String.eqb c k).
  - inversion Hget; subst. exact Hhd.
  - apply IH; assumption.
Qed.

Lemma wf_numeric (f : DataFrame) (c : string) (xs : list R) :
  wf f -> get_col c f = Some (NumCol xs) -> length xs = nrows f.
Proof. intros Hwf Hget. apply (wf_get f c (NumCol xs) Hwf Hget). Qed.

Lemma set_nth_length {A} (i : nat) (v : A) (l l' : list A) :
  set_nth i v l = Some l' -> length l' = length l.
Proof.
  revert i l'. induction l as [| a l IH]; intros [| i] l'; cbn;
    try discriminate.
  - intros E; inversion E; reflexivity.
  - destruct (set_nth i v l) as [t |] eqn:Et; [| discriminate].
    intros E; inversion E; subst. cbn. f_equal. apply (IH i). exact Et.
Qed.

Lemma set_nth_some {A} (i : nat) (v : A) (l : list A) :
  (i < length l)%nat -> exists l', set_nth i v l = Some l'.
Proof.
  revert i. induction l as [| a l IH]; intros [| i] Hi; cbn in *;
    try lia.
  - eexists; reflexivity.
  - destruct (IH i) as (t & Et); [lia |]. rewrite Et. eexists; reflexivity.
Qed.

Lemma set_nth_same {A} (i : nat) (v : A) (l l' : list A) :
  set_nth i v l = Some l' -> nth_error l' i = Some v.
Proof.
  revert i l'. induction l as [| a l IH]; intros [| i] l'; cbn;
    try discriminate.
  - intros E; inversion E; reflexivity.
  - destruct (set_nth i v l) as [t |] eqn:Et; [| discriminate].
    intros E; inversion E; subst. cbn. apply (IH i). exact Et.
Qed.

Lemma set_nth_other {A} (i j : nat) (v : A) (l l' : list A) :
  set_nth i v l = Some l' -> j <> i -> nth_error l' j = nth_error l j.
Proof.
  revert i j l'. induction l as [| a l IH]; intros [| i] j l'; cbn;
    try discriminate.
  - intros E Hj; inversion E; subst. destruct j; [contradiction | reflexivity].
  - destruct (set_nth i v l) as [t |] eqn:Et; [| discriminate].
    intros E Hj; inversion E; subst. destruct j; cbn; [reflexivity |].
    apply (IH i); [exact Et | lia].
Qed.

End FrameLemmas.

Section StoreLemmas.

Lemma lookup_app_new (s : store) (f : DataFrame) :
  lookup (s ++ [f]) (length s) = Some f.
Proof.
  unfold lookup. rewrite nth_error_app2 by lia.
  rewrite Nat.sub_diag. reflexivity.
Qed.

Lemma lookup_app_old (s l : store) (r : ref) (f : DataFrame) :
  lookup s r = Some f -> lookup (s ++ l) r = Some f.
Proof.
  unfold lookup. intros H. rewrite nth_error_app1; [exact H |].
  apply nth_error_Some. congruence.
Qed.

Lemma lookup_some_lt (s : store) (r : ref) (f : DataFrame) :
  lookup s r = Some f -> (r < length s)%nat.
Proof. unfold lookup. intros H. apply nth_error_Some. congruence. Qed.

Lemma update_app_new (s : store) (f g : DataFrame) :
  update (length s) g (s ++ [f]) = s ++ [g].
Proof. induction s as [| a s IH]; cbn; [| rewrite IH]; reflexivity. Qed.

Lemma length_update (r : ref) (g : DataFrame) (s : store) :
  length (update r g s) = length s.
Proof.
  revert r. induction s as [| a s IH]; intros [| r]; cbn; auto.
Qed.

Lemma lookup_update_other (r r' : ref) (g : DataFrame) (s : store) :
  r' <> r -> lookup (update r g s) r' = lookup s r'.
Proof.
  unfold lookup. revert r r'.
  induction s as [| a s IH]; intros [| r] [| r'] Hne; cbn; auto;
    try contradiction.
Qed.

End StoreLemmas.

(* ----------------------------------------------------------------- *)
(** ** Running the frame operations *)

Section Running.

Lemma bind_ok {A B} (m : M A) (k : A -> M B) (s s' : store) (a : A) :
  m s = (Ok a, s') -> bind m k s = k a s'.
Proof. intros E. unfold bind. rewrite E. reflexivity. Qed.

Lemma bind_raise {A B} (m : M A) (k : A -> M B) (s s' : store) (e : exn) :
  m s = (Raise e, s') -> bind m k s = (Raise e, s').
Proof. intros E. unfold bind. rewrite E. reflexivity. Qed.

Lemma read_run (r : ref) (s : store) (f : DataFrame) :
  lookup s r = Some f -> read r s = (Ok f, s).
Proof. intros E. unfold read. rewrite E. reflexivity. Qed.

Lemma copy_run (df : ref) (s : store) (f : DataFrame) :
  lookup s df = Some f -> copy df s = (Ok (length s), s ++ [f]).
Proof.
  intros E. unfold copy. rewrite (bind_ok _ _ _ _ _ (read_run _ _ _ E)).
  reflexivity.
Qed.

Lemma copy_dangling (df : ref) (s : store) :
  lookup s df = None -> copy df s = (Raise (TypeError "no such frame"), s).
Proof. intros E. unfold copy, bind, read. rewrite E. reflexivity. Qed.

Lemma len_run (r : ref) (s : store) (f : DataFrame) :
  lookup s r = Some f -> len r s = (Ok (nrows f), s).
Proof.
  intros E. unfold len. rewrite (bind_ok _ _ _ _ _ (read_run _ _ _ E)).
  reflexivity.
Qed.

Lemma has_column_run (r : ref) (c : string) (s : store) (f : DataFrame) :
  lookup s r = Some f -> has_column r c s = (Ok (has_col c f), s).
Proof.
  intros E. unfold has_column.
  rewrite (bind_ok _ _ _ _ _ (read_run _ _ _ E)). reflexivity.
Qed.

Lemma getitem_num_run (r : ref) (c : string) (s : store) (f : DataFrame)
    (xs : list R) :
  lookup s r = Some f -> get_col c f = Some (NumCol xs) ->
  getitem_num r c s = (Ok xs, s).
Proof.
  intros E Hc. unfold getitem_num.
  rewrite (bind_ok _ _ _ _ _ (read_run _ _ _ E)), Hc. reflexivity.
Qed.

Lemma getitem_num_missing (r : ref) (c : string) (s : store) (f : DataFrame) :
  lookup s r = Some f -> get_col c f = None ->
  getitem_num r c s = (Raise (KeyError c), s).
Proof.
  intros E Hc. unfold getitem_num.
  rewrite (bind_ok _ _ _ _ _ (read_run _ _ _ E)), Hc. reflexivity.
Qed.

Lemma setitem_run (r : ref) (c : string) (v : column) (s : store)
    (f : DataFrame) :
  lookup s r = Some f -> col_len v = nrows f ->
  setitem r c v s = (Ok tt, update r (set_col c v f) s).
Proof.
  intros E Hlen. unfold setitem.
  rewrite (bind_ok _ _ _ _ _ (read_run _ _ _ E)), Hlen, Nat.eqb_refl.
  reflexivity.
Qed.

Lemma setitem_num_run (r : ref) (c : string) (x : R) (s : store)
    (f : DataFrame) :
  lookup s r = Some f ->
  setitem_num r c x s
  = (Ok tt, update r (set_col c (NumCol (repeat x (nrows f))) f) s).
Proof.
  intros E. unfold setitem_num.
  rewrite (bind_ok _ _ _ _ _ (read_run _ _ _ E)). reflexivity.
Qed.

Lemma setitem_str_run (r : ref) (c : string) (x : string) (s : store)
    (f : DataFrame) :
  lookup s r = Some f ->
  setitem_str r c x s
  = (Ok tt, update r (set_col c (StrCol (repeat x (nrows f))) f) s).
Proof.
  intros E. unfold setitem_str.
  rewrite (bind_ok _ _ _ _ _ (read_run _ _ _ E)). reflexivity.
Qed.

Lemma iloc_num_run (r : ref) (i : nat) (c : string) (s : store)
    (f : DataFrame) (x : R) :
  lookup s r = Some f -> (i < nrows f)%nat -> num_at f c i = Some x ->
  iloc_num r i c s = (Ok x, s).
Proof.
  intros E Hi Hx. unfold iloc_num.
  rewrite (bind_ok _ _ _ _ _ (read_run _ _ _ E)).
  destruct (Nat.ltb_spec i (nrows f)) as [_ | Hge]; [| lia].
  unfold num_at in Hx. destruct (get_col c f) as [[xs | xs] |];
    try discriminate.
  rewrite Hx. reflexivity.
Qed.

Lemma iloc_set_num_run (r : ref) (i : nat) (c : string) (x : R) (s : store)
    (f : DataFrame) (xs xs' : list R) :
  lookup s r = Some f -> get_col c f = Some (NumCol xs) ->
  set_nth i x xs = Some xs' ->
  iloc_set_num r i c x s = (Ok tt, update r (set_col c (NumCol xs') f) s).
Proof.
  intros E Hc Hs. unfold iloc_set_num.
  rewrite (bind_ok _ _ _ _ _ (read_run _ _ _ E)), Hc, Hs. reflexivity.
Qed.

Lemma iloc_set_str_run (r : ref) (i : nat) (c : string) (x : string)
    (s : store) (f : DataFrame) (xs xs' : list string) :
  lookup s r = Some f -> get_col c f = Some (StrCol xs) ->
  set_nth i x xs = Some xs' ->
  iloc_set_str r i c x s = (Ok tt, update r (set_col c (StrCol xs') f) s).
Proof.
  intros E Hc Hs. unfold iloc_set_str.
  rewrite (bind_ok _ _ _ _ _ (read_run _ _ _ E)), Hc, Hs. reflexivity.
Qed.

End Running.

(* ----------------------------------------------------------------- *)
(** ** What a computation writes *)

Section Footprint.

Lemma writes_only_ret {A} (r : ref) (a : A) : writes_only r (ret a).
Proof. intros s. cbn. auto. Qed.

Lemma writes_only_raise {A} (r : ref) (e : exn) : writes_only r (@raise A e).
Proof. intros s. cbn. auto. Qed.

Lemma writes_only_lift {A} (r : ref) (x : result A) : writes_only r (lift x).
Proof. destruct x; [apply writes_only_ret | apply writes_only_raise]. Qed.

Lemma writes_only_read (r r0 : ref) : writes_only r (read r0).
Proof. intros s. unfold read. destruct (lookup s r0); cbn; auto. Qed.

Lemma writes_only_write (r : ref) (g : DataFrame) : writes_only r (write r g).
Proof.
  intros s. unfold write. cbn. split.
  - apply length_update.
  - intros r' Hne. apply lookup_update_other. exact Hne.
Qed.

Lemma writes_only_bind {A B} (r : ref) (m : M A) (k : A -> M B) :
  writes_only r m -> (forall a, writes_only r (k a)) ->
  writes_only r (bind m k).
Proof.
  intros Hm Hk s. unfold bind. specialize (Hm s).
  destruct (m s) as [[a | e] s1]; cbn in *.
  - specialize (Hk a s1). destruct Hm as [Hl Hm], Hk as [Hl' Hk].
    split; [congruence |]. intros r' Hne. rewrite Hk, Hm; auto.
  - exact Hm.
Qed.

Lemma writes_only_for_each {A} (r : ref) (xs : list A) (body : A -> M unit) :
  (forall x, writes_only r (body x)) -> writes_only r (for_each xs body).
Proof.
  intros Hb. induction xs as [| x xs IH]; cbn.
  - apply writes_only_ret.
  - apply writes_only_bind; [apply Hb | intros _; exact IH].
Qed.

Lemma returns_ret {A} (a : A) : returns a (ret a).
Proof. intros s a' E. cbn in E. congruence. Qed.

Lemma returns_bind {A B} (b : B) (m : M A) (k : A -> M B) :
  (forall a, returns b (k a)) -> returns b (bind m k).
Proof.
  intros Hk s b' E. unfold bind in E.
  destruct (m s) as [[a | e] s1]; cbn in E; [| discriminate].
  apply (Hk a s1). exact E.
Qed.

End Footprint.

Ltac footprint :=
  repeat first
    [ apply writes_only_ret
    | apply writes_only_raise
    | apply writes_only_lift
    | apply writes_only_read
    | apply writes_only_write
    | apply writes_only_for_each; intros ?
    | apply writes_only_bind; [| intros ?]
    | match goal with
      | |- writes_only _ (if ?b then _ else _) => destruct b
      | |- writes_only _ (match ?x with _ => _ end) => destruct x
      end ].

Section FootprintOfPandas.

Variables r df : ref.

Lemma writes_only_len : writes_only r (len df).
Proof. unfold len. footprint. Qed.

Lemma writes_only_has_column (c : string) : writes_only r (has_column df c).
Proof. unfold has_column. footprint. Qed.

Lemma writes_only_getitem_num (c : string) : writes_only r (getitem_num df c).
Proof. unfold getitem_num. footprint. Qed.

Lemma writes_only_iloc_num (i : nat) (c : string) :
  writes_only r (iloc_num df i c).
Proof. unfold iloc_num. footprint. Qed.

Lemma writes_only_setitem (c : string) (v : column) :
  writes_only r (setitem r c v).
Proof. unfold setitem. footprint. Qed.

Lemma writes_only_setitem_num (c : string) (x : R) :
  writes_only r (setitem_num r c x).
Proof. unfold setitem_num. footprint. Qed.

Lemma writes_only_setitem_str (c : string) (x : string) :
  writes_only r (setitem_str r c x).
Proof. unfold setitem_str. footprint. Qed.

Lemma writes_only_loc_assign (mask : list bool) (c : string) (v : NaN.float) :
  writes_only r (loc_assign r mask c v).
Proof. unfold loc_assign. footprint. Qed.

Lemma writes_only_iloc_set_num (i : nat) (c : string) (x : R) :
  writes_only r (iloc_set_num r i c x).
Proof. unfold iloc_set_num. footprint. Qed.

Lemma writes_only_iloc_set_str (i : nat) (c : string) (x : string) :
  writes_only r (iloc_set_str r i c x).
Proof. unfold iloc_set_str. footprint. Qed.

End FootprintOfPandas.

Ltac stage_footprint :=
  cbv zeta;
  repeat first
    [ apply writes_only_len
    | apply writes_only_has_column
    | apply writes_only_getitem_num
    | apply writes_only_iloc_num
    | apply writes_only_setitem
    | apply writes_only_setitem_num
    | apply writes_only_setitem_str
    | apply writes_only_loc_assign
    | apply writes_only_iloc_set_num
    | apply writes_only_iloc_set_str
    | apply writes_only_ret
    | apply writes_only_raise
    | apply writes_only_lift
    | apply writes_only_for_each; intros ?
    | apply writes_only_bind; [| intros ?]
    | match goal with
      | |- writes_only _ (if ?b then _ else _) => destruct b
      | |- writes_only _ (match ?x with _ => _ end) => destruct x
      end ].

Ltac stage_returns :=
  cbv zeta;
  repeat first
    [ apply returns_ret
    | apply returns_bind; intros ? ].

Section Stages.

Context `{SciPy}.

(** A stage that copies its input and then writes to the copy only leaves
    every frame of the caller as it was, whether it returns or raises. *)
Lemma copy_then_write_keeps {A} (df : ref) (body : ref -> M A) (s : store) :
  (forall d, writes_only d (body d)) ->
  frames_kept s (snd (bind (copy df) body s)).
Proof.
  intros Hbody r f Hr.
  destruct (lookup s df) as [g |] eqn:Hdf.
  - rewrite (bind_ok _ _ _ _ _ (copy_run df s g Hdf)).
    destruct (Hbody (length s) (s ++ [g])) as [_ Hkeep].
    rewrite Hkeep.
    + apply lookup_app_old. exact Hr.
    + apply lookup_some_lt in Hr. lia.
  - rewrite (bind_raise _ _ _ _ _ (copy_dangling df s Hdf)). exact Hr.
Qed.

(** What such a stage returns is the copy, a frame the caller did not
    have. *)
Lemma copy_then_return_is_new (df : ref) (body : ref -> M ref) (s : store)
    (r : ref) :
  (forall d, returns d (body d)) ->
  fst (bind (copy df) body s) = Ok r -> r = length s /\ lookup s r = None.
Proof.
  intros Hbody E.
  destruct (lookup s df) as [g |] eqn:Hdf.
  - rewrite (bind_ok _ _ _ _ _ (copy_run df s g Hdf)) in E.
    apply Hbody in E. subst r. split; [reflexivity |].
    unfold lookup. apply nth_error_None. lia.
  - rewrite (bind_raise _ _ _ _ _ (copy_dangling df s Hdf)) in E.
    discriminate.
Qed.

(** C9: every stage leaves the frames of its caller unmodified, the input
    among them: it copies the input, writes to the copy only, and what it
    returns is that copy, a frame the caller did not hold before.  This
    holds for every store and input, whether the stage returns or raises. *)
Theorem stages_leave_input_unmodified (self : t) (df : ref) (s : store) :
  (frames_kept s (snd (preprocess_data self df s)) /\
   frames_kept s (snd (extract_orientation self df s)) /\
   frames_kept s (snd (extract_advanced_features self df s)) /\
   frames_kept s (snd (classify_posture_realtime self df s))) /\
  (forall out,
     fst (preprocess_data self df s) = Ok out \/
     fst (extract_orientation self df s) = Ok out \/
     fst (extract_advanced_features self df s) = Ok out \/
     fst (classify_posture_realtime self df s) = Ok out ->
     out = length s /\ lookup s out = None).
Proof.
  split.
  - repeat split.
    + unfold preprocess_data. apply copy_then_write_keeps. intros d.
      unfold remove_outliers, lowpass, smooth_gyro. stage_footprint.
    + unfold extract_orientation. apply copy_then_write_keeps. intros d.
      stage_footprint.
    + unfold extract_advanced_features. apply copy_then_write_keeps.
      intros d. stage_footprint.
    + unfold classify_posture_realtime. apply copy_then_write_keeps.
      intros d. unfold classify_row. stage_footprint.
  - intros out [E | [E | [E | E]]]; revert E.
    + unfold preprocess_data. apply copy_then_return_is_new. intros d.
      stage_returns.
    + unfold extract_orientation. apply copy_then_return_is_new. intros d.
      stage_returns.
    + unfold extract_advanced_features. apply copy_then_return_is_new.
      intros d. stage_returns.
    + unfold classify_posture_realtime. apply copy_then_return_is_new.
      intros d. stage_returns.
Qed.

End Stages.

(* ----------------------------------------------------------------- *)
(** ** Element-wise operations *)

Section Elementwise.

Lemma length_map2 {A B C} (f : A -> B -> C) (xs : list A) (ys : list B)
    (n : nat) :
  length xs = n -> length ys = n -> length (Np.map2 f xs ys) = n.
Proof.
  intros Hx Hy. unfold Np.map2. rewrite length_map, length_combine. lia.
Qed.

Lemma nth_error_map2 {A B C} (f : A -> B -> C) (xs : list A) (ys : list B)
    (i : nat) (x : A) (y : B) :
  nth_error xs i = Some x -> nth_error ys i = Some y ->
  nth_error (Np.map2 f xs ys) i = Some (f x y).
Proof.
  revert ys i. induction xs as [| a xs IH]; intros [| b ys] [| i]; cbn;
    try discriminate.
  - intros E1 E2. inversion E1; inversion E2; subst. reflexivity.
  - intros E1 E2. apply (IH ys i); assumption.
Qed.

Lemma nth_error_map_some {A B} (f : A -> B) (xs : list A) (i : nat) (x : A) :
  nth_error xs i = Some x -> nth_error (map f xs) i = Some (f x).
Proof. intros E. rewrite nth_error_map, E. reflexivity. Qed.

Lemma length_pitch_of (x y z : list R) (n : nat) :
  length x = n -> length y = n -> length z = n ->
  length (pitch_of x y z) = n.
Proof.
  intros Hx Hy Hz. unfold pitch_of, Np.degrees, Np.arctan2, Np.neg, Np.sqrt,
    Np.add, Np.square.
  rewrite length_map. apply length_map2.
  - rewrite length_map. exact Hx.
  - rewrite length_map. apply length_map2; rewrite length_map; assumption.
Qed.

Lemma length_roll_of (y z : list R) (n : nat) :
  length y = n -> length z = n -> length (roll_of y z) = n.
Proof.
  intros Hy Hz. unfold roll_of, Np.degrees, Np.arctan2.
  rewrite length_map. apply length_map2; assumption.
Qed.

Lemma length_magnitude (p r : list R) (n : nat) :
  length p = n -> length r = n ->
  length (Np.sqrt (Np.add (Np.square p) (Np.square r))) = n.
Proof.
  intros Hp Hr. unfold Np.sqrt, Np.add, Np.square.
  rewrite length_map. apply length_map2; rewrite length_map; assumption.
Qed.

Lemma nth_pitch_of (x y z : list R) (i : nat) (a b c : R) :
  nth_error x i = Some a -> nth_error y i = Some b -> nth_error z i = Some c ->
  nth_error (pitch_of x y z) i = Some (pitch_deg a b c).
Proof.
  intros Ha Hb Hc. unfold pitch_of, Np.degrees, Np.arctan2, Np.neg, Np.sqrt,
    Np.add, Np.square, pitch_deg.
  apply (nth_error_map_some (fun v => v * 180 / PI)).
  apply (nth_error_map2 Np.atan2).
  - apply nth_error_map_some. exact Ha.
  - apply (nth_error_map_some R_sqrt.sqrt).
    apply (nth_error_map2 Rplus); apply nth_error_map_some; assumption.
Qed.

Lemma nth_roll_of (y z : list R) (i : nat) (b c : R) :
  nth_error y i = Some b -> nth_error z i = Some c ->
  nth_error (roll_of y z) i = Some (roll_deg b c).
Proof.
  intros Hb Hc. unfold roll_of, Np.degrees, Np.arctan2, roll_deg.
  apply (nth_error_map_some (fun v => v * 180 / PI)).
  apply (nth_error_map2 Np.atan2); assumption.
Qed.

Lemma nth_magnitude (p r : list R) (i : nat) (a b : R) :
  nth_error p i = Some a -> nth_error r i = Some b ->
  nth_error (Np.sqrt (Np.add (Np.square p) (Np.square r))) i
  = Some (sqrt (Rsqr a + Rsqr b)).
Proof.
  intros Ha Hb. unfold Np.sqrt, Np.add, Np.square.
  apply (nth_error_map_some R_sqrt.sqrt).
  apply (nth_error_map2 Rplus); apply nth_error_map_some; assumption.
Qed.

(** The reference cases of the angle formulas. *)
Lemma pitch_deg_gravity (g : R) : 0 < g -> pitch_deg 0 0 g = 0.
Proof.
  intros Hg. unfold pitch_deg, Np.atan2.
  replace (Rsqr 0 + Rsqr g) with (Rsqr g) by (unfold Rsqr; ring).
  rewrite sqrt_Rsqr by lra.
  destruct (Rlt_dec 0 g) as [_ | Hn]; [| contradiction].
  replace (- 0 / g) with 0 by (field; lra).
  rewrite atan_0. unfold Rdiv. ring.
Qed.

Lemma roll_deg_gravity (g : R) : 0 < g -> roll_deg 0 g = 0.
Proof.
  intros Hg. unfold roll_deg, Np.atan2.
  destruct (Rlt_dec 0 g) as [_ | Hn]; [| contradiction].
  replace (0 / g) with 0 by (field; lra).
  rewrite atan_0. unfold Rdiv. ring.
Qed.

End Elementwise.

(* ----------------------------------------------------------------- *)
(** ** Running a stage on its copy *)

(** The copy is the last frame of the store; these tactics run one
    operation on it and keep the store in the shape [s ++ [g]]. *)

Ltac eval_names := cbn [String.eqb Ascii.eqb Bool.eqb andb].

Ltac solve_get :=
  rewrite ?get_set; eval_names; first [eassumption | reflexivity].

Ltac run_get :=
  erewrite bind_ok
    by (eapply getitem_num_run; [apply lookup_app_new | solve_get]).

Ltac run_set tac :=
  erewrite bind_ok
    by (eapply setitem_run; [apply lookup_app_new | cbn [col_len nrows set_col]; tac]);
  rewrite update_app_new.

Section Orientation.

Variables (self : t) (s : store) (df : ref) (f : DataFrame).
Variables x1 y1 z1 x2 y2 z2 : list R.

Hypothesis Hdf : lookup s df = Some f.
Hypothesis Hwf : wf f.
Hypothesis Hx1 : get_col "s1_accel_x" f = Some (NumCol x1).
Hypothesis Hy1 : get_col "s1_accel_y" f = Some (NumCol y1).
Hypothesis Hz1 : get_col "s1_accel_z" f = Some (NumCol z1).
Hypothesis Hx2 : get_col "s2_accel_x" f = Some (NumCol x2).
Hypothesis Hy2 : get_col "s2_accel_y" f = Some (NumCol y2).
Hypothesis Hz2 : get_col "s2_accel_z" f = Some (NumCol z2).

Let p1 := pitch_of x1 y1 z1.
Let r1 := roll_of y1 z1.
Let p2 := pitch_of x2 y2 z2.
Let r2 := roll_of y2 z2.
Let cp := Np.sub p1 p2.
Let cr := Np.sub r1 r2.
Let cm := Np.sqrt (Np.add (Np.square cp) (Np.square cr)).

Lemma extract_orientation_run :
  exists g,
    extract_orientation self df s = (Ok (length s), s ++ [g]) /\
    nrows g = nrows f /\
    get_col "s1_pitch" g = Some (NumCol p1) /\
    get_col "s1_roll" g = Some (NumCol r1) /\
    get_col "s2_pitch" g = Some (NumCol p2) /\
    get_col "s2_roll" g = Some (NumCol r2) /\
    get_col "spine_pitch_curvature" g = Some (NumCol cp) /\
    get_col "spine_roll_curvature" g = Some (NumCol cr) /\
    get_col "spine_curvature_magnitude" g = Some (NumCol cm).
Proof.
  pose proof (wf_numeric f _ _ Hwf Hx1) as Lx1.
  pose proof (wf_numeric f _ _ Hwf Hy1) as Ly1.
  pose proof (wf_numeric f _ _ Hwf Hz1) as Lz1.
  pose proof (wf_numeric f _ _ Hwf Hx2) as Lx2.
  pose proof (wf_numeric f _ _ Hwf Hy2) as Ly2.
  pose proof (wf_numeric f _ _ Hwf Hz2) as Lz2.
  assert (Lp1 : length p1 = nrows f) by (apply length_pitch_of; assumption).
  assert (Lr1 : length r1 = nrows f) by (apply length_roll_of; assumption).
  assert (Lp2 : length p2 = nrows f) by (apply length_pitch_of; assumption).
  assert (Lr2 : length r2 = nrows f) by (apply length_roll_of; assumption).
  assert (Lcp : length cp = nrows f) by (apply length_map2; assumption).
  assert (Lcr : length cr = nrows f) by (apply length_map2; assumption).
  assert (Lcm : length cm = nrows f) by (apply length_magnitude; assumption).
  eexists. split.
  - unfold extract_orientation.
    rewrite (bind_ok _ _ _ _ _ (copy_run df s f Hdf)).
    run_get. run_get. run_get. run_set ltac:(exact Lp1).
    run_get. run_get. run_set ltac:(exact Lr1).
    run_get. run_get. run_get. run_set ltac:(exact Lp2).
    run_get. run_get. run_set ltac:(exact Lr2).
    run_get. run_get. run_set ltac:(exact Lcp).
    run_get. run_get. run_set ltac:(exact Lcr).
    run_get. run_get. run_set ltac:(exact Lcm).
    reflexivity.
  - split; [reflexivity |]. repeat split; solve_get.
Qed.

End Orientation.

Lemma num_at_col (g : DataFrame) (c : string) (xs : list R) (i : nat) (x : R) :
  get_col c g = Some (NumCol xs) -> nth_error xs i = Some x ->
  num_at g c i = Some x.
Proof. intros Hc Hx. unfold num_at. rewrite Hc. exact Hx. Qed.

(** C4: on every sample the orientation extractor stores, per sensor,
    pitch = atan2(-accel_x, sqrt(accel_y^2 + accel_z^2)) and
    roll = atan2(accel_y, accel_z) in degrees, and the differences of the
    two sensors with their magnitude; an accelerometer vector (0, 0, g)
    with g > 0 gives pitch 0 and roll 0, and equal orientation of the two
    sensors gives the three curvature values 0. *)
Theorem extract_orientation_angles (self : t) (s : store) (df : ref)
    (f : DataFrame) (x1 y1 z1 x2 y2 z2 : list R) :
  lookup s df = Some f -> wf f ->
  get_col "s1_accel_x" f = Some (NumCol x1) ->
  get_col "s1_accel_y" f = Some (NumCol y1) ->
  get_col "s1_accel_z" f = Some (NumCol z1) ->
  get_col "s2_accel_x" f = Some (NumCol x2) ->
  get_col "s2_accel_y" f = Some (NumCol y2) ->
  get_col "s2_accel_z" f = Some (NumCol z2) ->
  exists g,
    extract_orientation self df s = (Ok (length s), s ++ [g]) /\
    nrows g = nrows f /\
    forall i ax1 ay1 az1 ax2 ay2 az2,
      nth_error x1 i = Some ax1 -> nth_error y1 i = Some ay1 ->
      nth_error z1 i = Some az1 -> nth_error x2 i = Some ax2 ->
      nth_error y2 i = Some ay2 -> nth_error z2 i = Some az2 ->
      let pitch1 := pitch_deg ax1 ay1 az1 in
      let roll1 := roll_deg ay1 az1 in
      let pitch2 := pitch_deg ax2 ay2 az2 in
      let roll2 := roll_deg ay2 az2 in
      (num_at g "s1_pitch" i = Some pitch1 /\
       num_at g "s1_roll" i = Some roll1 /\
       num_at g "s2_pitch" i = Some pitch2 /\
       num_at g "s2_roll" i = Some roll2 /\
       num_at g "spine_pitch_curvature" i = Some (pitch1 - pitch2) /\
       num_at g "spine_roll_curvature" i = Some (roll1 - roll2) /\
       num_at g "spine_curvature_magnitude" i
       = Some (sqrt (Rsqr (pitch1 - pitch2) + Rsqr (roll1 - roll2)))) /\
      (ax1 = 0 -> ay1 = 0 -> 0 < az1 ->
       num_at g "s1_pitch" i = Some 0 /\ num_at g "s1_roll" i = Some 0) /\
      (ax2 = 0 -> ay2 = 0 -> 0 < az2 ->
       num_at g "s2_pitch" i = Some 0 /\ num_at g "s2_roll" i = Some 0) /\
      (pitch1 = pitch2 -> roll1 = roll2 ->
       num_at g "spine_pitch_curvature" i = Some 0 /\
       num_at g "spine_roll_curvature" i = Some 0 /\
       num_at g "spine_curvature_magnitude" i = Some 0).
Proof.
  intros Hdf Hwf Hx1 Hy1 Hz1 Hx2 Hy2 Hz2.
  destruct (extract_orientation_run self s df f x1 y1 z1 x2 y2 z2
              Hdf Hwf Hx1 Hy1 Hz1 Hx2 Hy2 Hz2)
    as (g & Hrun & Hn & Gp1 & Gr1 & Gp2 & Gr2 & Gcp & Gcr & Gcm).
  exists g. split; [exact Hrun |]. split; [exact Hn |].
  intros i ax1 ay1 az1 ax2 ay2 az2 Ex1 Ey1 Ez1 Ex2 Ey2 Ez2
         pitch1 roll1 pitch2 roll2.
  pose proof (nth_pitch_of _ _ _ _ _ _ _ Ex1 Ey1 Ez1) as Np1.
  pose proof (nth_roll_of _ _ _ _ _ Ey1 Ez1) as Nr1.
  pose proof (nth_pitch_of _ _ _ _ _ _ _ Ex2 Ey2 Ez2) as Np2.
  pose proof (nth_roll_of _ _ _ _ _ Ey2 Ez2) as Nr2.
  pose proof (nth_error_map2 Rminus _ _ _ _ _ Np1 Np2) as Ncp.
  pose proof (nth_error_map2 Rminus _ _ _ _ _ Nr1 Nr2) as Ncr.
  pose proof (nth_magnitude _ _ _ _ _ Ncp Ncr) as Ncm.
  assert (Hall :
    num_at g "s1_pitch" i = Some pitch1 /\
    num_at g "s1_roll" i = Some roll1 /\
    num_at g "s2_pitch" i = Some pitch2 /\
    num_at g "s2_roll" i = Some roll2 /\
    num_at g "spine_pitch_curvature" i = Some (pitch1 - pitch2) /\
    num_at g "spine_roll_curvature" i = Some (roll1 - roll2) /\
    num_at g "spine_curvature_magnitude" i
    = Some (sqrt (Rsqr (pitch1 - pitch2) + Rsqr (roll1 - roll2)))).
  { repeat split; eapply num_at_col; eassumption. }
  destruct Hall as (A1 & A2 & A3 & A4 & A5 & A6 & A7).
  split; [repeat split; assumption |].
  split; [| split].
  - intros -> -> Hg. rewrite A1, A2. subst pitch1 roll1.
    rewrite pitch_deg_gravity, roll_deg_gravity by exact Hg. auto.
  - intros -> -> Hg. rewrite A3, A4. subst pitch2 roll2.
    rewrite pitch_deg_gravity, roll_deg_gravity by exact Hg. auto.
  - intros Ep Er. rewrite A5, A6, A7, Ep, Er.
    replace (pitch2 - pitch2) with 0 by ring.
    replace (roll2 - roll2) with 0 by ring.
    rewrite Rsqr_0, Rplus_0_r, sqrt_0. auto.
Qed.

(* ----------------------------------------------------------------- *)
(** ** The feature extractor *)

Ltac run_get_input Hdf :=
  erewrite bind_ok
    by (eapply getitem_num_run;
        [apply lookup_app_old; exact Hdf | eassumption]).

Section Features.

Lemma length_diff_from (prev : R) (xs : list R) :
  length (Series.diff_from prev xs) = length xs.
Proof.
  revert prev. induction xs as [| x xs IH]; intros prev; cbn; auto.
Qed.

Lemma length_diff (xs : list R) : length (Series.diff xs) = length xs.
Proof. destruct xs; cbn; [| rewrite length_diff_from]; reflexivity. Qed.

Lemma length_rolling (w minp : nat) (stat : list R -> NaN.float)
    (xs : list NaN.float) :
  length (Series.rolling w minp stat xs) = length xs.
Proof. unfold Series.rolling. rewrite length_map, length_seq. reflexivity. Qed.

Lemma length_fillna0 (xs : list NaN.float) :
  length (NaN.fillna0 xs) = length xs.
Proof. apply length_map. Qed.

Lemma length_rolling_std (w : nat) (xs : list R) :
  length (rolling_std w xs) = length xs.
Proof.
  unfold rolling_std, Series.finite.
  rewrite length_fillna0, length_rolling, length_map. reflexivity.
Qed.

Lemma length_velocity (xs : list R) : length (velocity xs) = length xs.
Proof.
  unfold velocity. rewrite length_fillna0, length_rolling, length_diff.
  reflexivity.
Qed.

Lemma length_acceleration (xs : list R) : length (acceleration xs) = length xs.
Proof. unfold acceleration. rewrite length_fillna0, length_diff. reflexivity. Qed.

Lemma length_cumsum_from (acc : R) (xs : list R) :
  length (Np.cumsum_from acc xs) = length xs.
Proof.
  revert acc. induction xs as [| x xs IH]; intros acc; cbn; auto.
Qed.

Lemma length_cumulative_rotation (self : t) (gx gy gz : list R) (n : nat) :
  length gx = n -> length gy = n -> length gz = n ->
  length (cumulative_rotation self gx gy gz) = n.
Proof.
  intros Hx Hy Hz. unfold cumulative_rotation, Np.scale, Np.cumsum, Np.add,
    Np.abs.
  rewrite length_map, length_cumsum_from.
  apply length_map2; [apply length_map2 |]; rewrite length_map; assumption.
Qed.

Variables (self : t) (s : store) (df : ref) (f : DataFrame).
Hypothesis Hdf : lookup s df = Some f.

(** Too few samples: every feature column is filled with zeros. *)
Lemma extract_advanced_features_short :
  (window_samples self (nrows f) < 10)%Z ->
  exists g,
    extract_advanced_features self df s = (Ok (length s), s ++ [g]) /\
    nrows g = nrows f /\
    forall col, In col feature_columns ->
      get_col col g = Some (NumCol (repeat 0 (nrows f))).
Proof.
  intros Hw. eexists. split; [| split].
  - unfold extract_advanced_features.
    rewrite (bind_ok _ _ _ _ _ (copy_run df s f Hdf)).
    erewrite bind_ok by (apply len_run; apply lookup_app_old; exact Hdf).
    destruct (Z.leb_spec 10 (window_samples self (nrows f))) as [Hge | _];
      [lia |].
    unfold feature_columns. cbn [for_each].
    erewrite bind_ok.
    2:{ do 9 (erewrite bind_ok
                by (apply setitem_num_run; apply lookup_app_new);
              rewrite update_app_new).
        reflexivity. }
    reflexivity.
  - reflexivity.
  - intros col Hin. cbn [nrows set_col].
    cbn in Hin.
    repeat (destruct Hin as [<- | Hin]; [solve_get |]).
    contradiction.
Qed.

Variables p1 p2 m gx1 gy1 gz1 gx2 gy2 gz2 : list R.
Hypothesis Hwf : wf f.
Hypothesis Hp1 : get_col "s1_pitch" f = Some (NumCol p1).
Hypothesis Hp2 : get_col "s2_pitch" f = Some (NumCol p2).
Hypothesis Hm : get_col "spine_curvature_magnitude" f = Some (NumCol m).
Hypothesis Hgx1 : get_col "s1_gyro_x" f = Some (NumCol gx1).
Hypothesis Hgy1 : get_col "s1_gyro_y" f = Some (NumCol gy1).
Hypothesis Hgz1 : get_col "s1_gyro_z" f = Some (NumCol gz1).
Hypothesis Hgx2 : get_col "s2_gyro_x" f = Some (NumCol gx2).
Hypothesis Hgy2 : get_col "s2_gyro_y" f = Some (NumCol gy2).
Hypothesis Hgz2 : get_col "s2_gyro_z" f = Some (NumCol gz2).

(** Enough samples: each feature column holds its rolling signal. *)
Lemma extract_advanced_features_run :
  (10 <= window_samples self (nrows f))%Z ->
  let w := Z.to_nat (window_samples self (nrows f)) in
  exists g,
    extract_advanced_features self df s = (Ok (length s), s ++ [g]) /\
    nrows g = nrows f /\
    get_col "s1_movement_variability" g = Some (NumCol (rolling_std w p1)) /\
    get_col "s2_movement_variability" g = Some (NumCol (rolling_std w p2)) /\
    get_col "spine_stability" g = Some (NumCol (rolling_std w m)) /\
    get_col "s1_pitch_velocity" g = Some (NumCol (velocity p1)) /\
    get_col "s2_pitch_velocity" g = Some (NumCol (velocity p2)) /\
    get_col "s1_pitch_acceleration" g
    = Some (NumCol (acceleration (velocity p1))) /\
    get_col "s2_pitch_acceleration" g
    = Some (NumCol (acceleration (velocity p2))) /\
    get_col "s1_cumulative_rotation" g
    = Some (NumCol (cumulative_rotation self gx1 gy1 gz1)) /\
    get_col "s2_cumulative_rotation" g
    = Some (NumCol (cumulative_rotation self gx2 gy2 gz2)).
Proof.
  intros Hw w.
  pose proof (wf_numeric f _ _ Hwf Hp1) as Lp1.
  pose proof (wf_numeric f _ _ Hwf Hp2) as Lp2.
  pose proof (wf_numeric f _ _ Hwf Hm) as Lm.
  pose proof (wf_numeric f _ _ Hwf Hgx1) as Lgx1.
  pose proof (wf_numeric f _ _ Hwf Hgy1) as Lgy1.
  pose proof (wf_numeric f _ _ Hwf Hgz1) as Lgz1.
  pose proof (wf_numeric f _ _ Hwf Hgx2) as Lgx2.
  pose proof (wf_numeric f _ _ Hwf Hgy2) as Lgy2.
  pose proof (wf_numeric f _ _ Hwf Hgz2) as Lgz2.
  eexists. split.
  - unfold extract_advanced_features.
    rewrite (bind_ok _ _ _ _ _ (copy_run df s f Hdf)).
    erewrite bind_ok by (apply len_run; apply lookup_app_old; exact Hdf).
    destruct (Z.leb_spec 10 (window_samples self (nrows f))) as [_ | Hlt];
      [| lia].
    erewrite bind_ok.
    2:{ run_get_input Hdf.
        run_set ltac:(rewrite length_rolling_std; exact Lp1).
        run_get_input Hdf.
        run_set ltac:(rewrite length_rolling_std; exact Lp2).
        run_get_input Hdf.
        run_set ltac:(rewrite length_rolling_std; exact Lm).
        run_get_input Hdf.
        run_set ltac:(rewrite length_velocity; exact Lp1).
        run_get_input Hdf.
        run_set ltac:(rewrite length_velocity; exact Lp2).
        run_get.
        run_set ltac:(rewrite length_acceleration, length_velocity; exact Lp1).
        run_get.
        run_set ltac:(rewrite length_acceleration, length_velocity; exact Lp2).
        run_get_input Hdf. run_get_input Hdf. run_get_input Hdf.
        run_set ltac:(apply length_cumulative_rotation; assumption).
        run_get_input Hdf. run_get_input Hdf. run_get_input Hdf.
        eapply setitem_run; [apply lookup_app_new |].
        cbn [col_len nrows set_col].
        apply length_cumulative_rotation; assumption. }
    rewrite update_app_new. reflexivity.
  - split; [reflexivity |]. repeat split; solve_get.
Qed.

End Features.

Section Rolling.

Lemma nth_error_rolling (w minp : nat) (stat : list R -> NaN.float)
    (xs : list NaN.float) (i : nat) :
  (i < length xs)%nat ->
  nth_error (Series.rolling w minp stat xs) i
  = Some (let obs := Series.valid (Series.window_at w i xs) in
          if (length obs <? minp)%nat then None else stat obs).
Proof.
  intros Hi. unfold Series.rolling.
  rewrite nth_error_map, nth_error_seq.
  destruct (Nat.ltb_spec i (length xs)) as [_ | Hge]; [| lia].
  reflexivity.
Qed.

Lemma length_valid_le (win : list NaN.float) :
  (length (Series.valid win) <= length win)%nat.
Proof.
  unfold Series.valid.
  induction win as [| [v |] win IH]; cbn [flat_map app length]; lia.
Qed.

Lemma length_window_at_le {A} (w i : nat) (xs : list A) :
  (length (Series.window_at w i xs) <= i + 1)%nat.
Proof.
  unfold Series.window_at. rewrite length_skipn, length_firstn. lia.
Qed.

Lemma nth_error_fillna0 (xs : list NaN.float) (i : nat) (x : NaN.float) :
  nth_error xs i = Some x ->
  nth_error (NaN.fillna0 xs) i
  = Some (match x with Some v => v | None => 0 end).
Proof.
  intros E. unfold NaN.fillna0.
  exact (nth_error_map_some
           (fun x => match x with Some v => v | None => 0 end) xs i x E).
Qed.

(** A rolling std with [min_periods = 5] is filled with 0 on the first
    four rows, whatever the window. *)
Lemma rolling_std_starved (w : nat) (xs : list R) (i : nat) :
  (i < length xs)%nat -> (i < 4)%nat ->
  nth_error (rolling_std w xs) i = Some 0.
Proof.
  intros Hi H4. unfold rolling_std.
  erewrite nth_error_fillna0.
  2:{ apply nth_error_rolling. unfold Series.finite. rewrite length_map.
      exact Hi. }
  cbv zeta.
  pose proof (length_valid_le (Series.window_at w i (Series.finite xs))).
  pose proof (length_window_at_le w i (Series.finite xs)).
  destruct (Nat.ltb_spec
              (length (Series.valid (Series.window_at w i (Series.finite xs))))
              5) as [_ | Hge]; [reflexivity | lia].
Qed.

Lemma valid_window_of_diff (xs : list R) (i : nat) :
  (i < 5)%nat ->
  (length (Series.valid (Series.window_at 5 i (Series.diff xs))) <= i)%nat.
Proof.
  intros Hi. unfold Series.window_at.
  replace (i + 1 - 5)%nat with 0%nat by lia. cbn [skipn].
  replace (i + 1)%nat with (S i) by lia.
  destruct xs as [| x xs]; cbn; [lia |].
  etransitivity; [apply length_valid_le |].
  rewrite length_firstn. lia.
Qed.

(** The velocity, with [min_periods = 2] over the differences, is filled
    with 0 on the first two rows. *)
Lemma velocity_starved (xs : list R) (i : nat) :
  (i < length xs)%nat -> (i < 2)%nat -> nth_error (velocity xs) i = Some 0.
Proof.
  intros Hi H2. unfold velocity.
  erewrite nth_error_fillna0.
  2:{ apply nth_error_rolling. rewrite length_diff. exact Hi. }
  cbv zeta.
  pose proof (valid_window_of_diff xs i ltac:(lia)).
  destruct (Nat.ltb_spec
              (length (Series.valid (Series.window_at 5 i (Series.diff xs))))
              2) as [_ | Hge]; [reflexivity | lia].
Qed.

Lemma acceleration_starved (vs : list R) (i : nat) :
  (i < length vs)%nat -> (i < 2)%nat ->
  nth_error vs 0 = Some 0 ->
  ((1 < length vs)%nat -> nth_error vs 1 = Some 0) ->
  nth_error (acceleration vs) i = Some 0.
Proof.
  intros Hi H2 H0 H1. unfold acceleration.
  destruct vs as [| v0 vs]; [cbn in Hi; lia |].
  cbn in H0. inversion H0; subst v0.
  destruct i as [| [| i]]; [reflexivity | | lia].
  destruct vs as [| v1 vs]; [cbn in Hi; lia |].
  specialize (H1 ltac:(cbn; lia)). cbn in H1. inversion H1; subst v1.
  cbn. f_equal. lra.
Qed.

Lemma acceleration_of_velocity_starved (xs : list R) (i : nat) :
  (i < length xs)%nat -> (i < 2)%nat ->
  nth_error (acceleration (velocity xs)) i = Some 0.
Proof.
  intros Hi H2. apply acceleration_starved.
  - rewrite length_velocity. exact Hi.
  - exact H2.
  - apply velocity_starved; lia.
  - rewrite length_velocity. intros H1. apply velocity_starved; lia.
Qed.

Lemma window_samples_short (self : t) (n : nat) :
  (n < 10)%nat -> (window_samples self n < 10)%Z.
Proof. intros Hn. unfold window_samples. lia. Qed.

End Rolling.

Section FeatureProperties.

Lemma wf_ramp : wf ramp.
Proof. unfold wf, ramp, rest. cbn. repeat constructor. Qed.

Lemma ramp_velocity_at_2 :
  nth_error (velocity ramp_pitch) 2 = Some 1.
Proof.
  unfold velocity, ramp_pitch.
  erewrite nth_error_fillna0
    by (apply nth_error_rolling; cbn; lia).
  cbn. f_equal. lra.
Qed.

End FeatureProperties.

(** C5, as stated, fails: the pitch velocity is a rolling mean with
    [min_periods = 2], so at index 2 of a 10-sample ramp, where the window
    holds three rows, it is already 1. *)
Lemma velocity_not_zero_in_short_window :
  exists g,
    extract_advanced_features ten_hertz 0%nat [ramp] = (Ok 1%nat, [ramp] ++ [g]) /\
    (length (Series.window_at 5 2 (Series.diff ramp_pitch)) < 5)%nat /\
    num_at g "s1_pitch_velocity" 2 = Some 1 /\ 1 <> 0.
Proof.
  destruct (extract_advanced_features_run ten_hertz [ramp] 0%nat ramp
              eq_refl _ _ _ _ _ _ _ _ _ wf_ramp
              eq_refl eq_refl eq_refl eq_refl eq_refl eq_refl eq_refl eq_refl
              eq_refl)
    as (g & Hrun & _ & _ & _ & _ & Hv & _).
  { cbn. lia. }
  exists g. split; [exact Hrun |].
  split; [cbn; lia |].
  split; [| lra].
  eapply num_at_col; [exact Hv | apply ramp_velocity_at_2].
Qed.

(** C5 (amended): whenever the series has fewer than 10 samples every
    feature column is zero on every row; otherwise the three rolling-std
    features (min_periods 5) are zero on every row whose window holds
    fewer than 5 samples, which are the rows 0 to 3, while the pitch
    velocities (min_periods 2 over the differences) and the pitch
    accelerations are zero on the rows 0 and 1. *)
Theorem features_zero_where_samples_lack (self : t) (s : store) (df : ref)
    (f : DataFrame) :
  lookup s df = Some f ->
  ((nrows f < 10)%nat ->
   exists g,
     extract_advanced_features self df s = (Ok (length s), s ++ [g]) /\
     forall col i, In col feature_columns -> (i < nrows f)%nat ->
       num_at g col i = Some 0) /\
  (forall p1 p2 m gx1 gy1 gz1 gx2 gy2 gz2,
     wf f ->
     get_col "s1_pitch" f = Some (NumCol p1) ->
     get_col "s2_pitch" f = Some (NumCol p2) ->
     get_col "spine_curvature_magnitude" f = Some (NumCol m) ->
     get_col "s1_gyro_x" f = Some (NumCol gx1) ->
     get_col "s1_gyro_y" f = Some (NumCol gy1) ->
     get_col "s1_gyro_z" f = Some (NumCol gz1) ->
     get_col "s2_gyro_x" f = Some (NumCol gx2) ->
     get_col "s2_gyro_y" f = Some (NumCol gy2) ->
     get_col "s2_gyro_z" f = Some (NumCol gz2) ->
     (10 <= window_samples self (nrows f))%Z ->
     exists g,
       extract_advanced_features self df s = (Ok (length s), s ++ [g]) /\
       forall i, (i < nrows f)%nat ->
         ((length (Series.window_at
                     (Z.to_nat (window_samples self (nrows f))) i p1) < 5)%nat ->
          (i < 4)%nat /\
          num_at g "s1_movement_variability" i = Some 0 /\
          num_at g "s2_movement_variability" i = Some 0 /\
          num_at g "spine_stability" i = Some 0) /\
         ((i < 2)%nat ->
          num_at g "s1_pitch_velocity" i = Some 0 /\
          num_at g "s2_pitch_velocity" i = Some 0 /\
          num_at g "s1_pitch_acceleration" i = Some 0 /\
          num_at g "s2_pitch_acceleration" i = Some 0)).
Proof.
  intros Hdf. split.
  - intros Hn.
    destruct (extract_advanced_features_short self s df f Hdf
                (window_samples_short self _ Hn)) as (g & Hrun & _ & Hcols).
    exists g. split; [exact Hrun |].
    intros col i Hin Hi. eapply num_at_col; [apply Hcols; exact Hin |].
    apply nth_error_repeat. exact Hi.
  - intros p1 p2 m gx1 gy1 gz1 gx2 gy2 gz2 Hwf Hp1 Hp2 Hm
           Hgx1 Hgy1 Hgz1 Hgx2 Hgy2 Hgz2 Hw.
    destruct (extract_advanced_features_run self s df f Hdf
                p1 p2 m gx1 gy1 gz1 gx2 gy2 gz2 Hwf Hp1 Hp2 Hm
                Hgx1 Hgy1 Hgz1 Hgx2 Hgy2 Hgz2 Hw)
      as (g & Hrun & _ & Gv1 & Gv2 & Gst & Gpv1 & Gpv2 & Ga1 & Ga2 & _).
    pose proof (wf_numeric f _ _ Hwf Hp1) as Lp1.
    pose proof (wf_numeric f _ _ Hwf Hp2) as Lp2.
    pose proof (wf_numeric f _ _ Hwf Hm) as Lm.
    exists g. split; [exact Hrun |].
    intros i Hi. split.
    + intros Hwin.
      assert (H4 : (i < 4)%nat).
      { unfold Series.window_at in Hwin.
        rewrite length_skipn, length_firstn in Hwin. lia. }
      split; [exact H4 |].
      repeat split; (eapply num_at_col; [eassumption |]);
        apply rolling_std_starved; lia.
    + intros H2.
      repeat split; (eapply num_at_col; [eassumption |]).
      * apply velocity_starved; lia.
      * apply velocity_starved; lia.
      * apply acceleration_of_velocity_starved; lia.
      * apply acceleration_of_velocity_starved; lia.
Qed.

Section CumulativeRotation.

Lemma cumsum_from_nondecreasing (xs : list R) (acc : R) :
  Forall (fun x => 0 <= x) xs -> nondecreasing (Np.cumsum_from acc xs).
Proof.
  revert acc. induction xs as [| x xs IH]; intros acc Hpos i a b Ha Hb.
  - destruct i; discriminate.
  - pose proof (Forall_inv_tail Hpos) as Htl.
    destruct i as [| i].
    + destruct xs as [| y xs]; [discriminate |].
      pose proof (Forall_inv Htl) as Hy. cbn in Ha, Hb.
      inversion Ha; inversion Hb; subst. lra.
    + cbn in Ha, Hb. apply (IH (acc + x) Htl i a b Ha Hb).
Qed.

Lemma scale_nondecreasing (xs : list R) (k : R) :
  0 <= k -> nondecreasing xs -> nondecreasing (Np.scale xs k).
Proof.
  intros Hk Hxs i a b Ha Hb. unfold Np.scale in *.
  rewrite nth_error_map in Ha, Hb.
  destruct (nth_error xs i) as [a' |] eqn:Ea; [| discriminate].
  destruct (nth_error xs (S i)) as [b' |] eqn:Eb; [| discriminate].
  cbn in Ha, Hb. inversion Ha; inversion Hb; subst.
  apply Rmult_le_compat_r; [exact Hk | apply (Hxs i); assumption].
Qed.

Lemma abs_nonneg (xs : list R) : Forall (fun x => 0 <= x) (Np.abs xs).
Proof.
  unfold Np.abs. apply Forall_map.
  apply Forall_forall. intros x _. apply Rabs_pos.
Qed.

Lemma add_nonneg (xs ys : list R) :
  Forall (fun x => 0 <= x) xs -> Forall (fun x => 0 <= x) ys ->
  Forall (fun x => 0 <= x) (Np.add xs ys).
Proof.
  intros Hx. revert ys. induction Hx as [| x xs Hx0 Hxs IH]; intros ys Hy.
  - constructor.
  - destruct Hy as [| y ys Hy0 Hys]; [constructor |].
    unfold Np.add, Np.map2. cbn. constructor; [lra |].
    apply IH. exact Hys.
Qed.

Lemma cumulative_rotation_nondecreasing (self : t) (gx gy gz : list R) :
  0 <= dt self -> nondecreasing (cumulative_rotation self gx gy gz).
Proof.
  intros Hdt. unfold cumulative_rotation, Np.cumsum.
  apply scale_nondecreasing; [exact Hdt |].
  apply cumsum_from_nondecreasing.
  apply add_nonneg; [apply add_nonneg |]; apply abs_nonneg.
Qed.

(** A window of at least 10 samples needs a positive sample rate, and
    with it a positive sample period. *)
Lemma window_gives_positive_dt (sr ws : Z) (self : t) (n : nat) :
  init sr ws = Ok self -> (10 <= window_samples self n)%Z -> 0 < dt self.
Proof.
  intros Hinit Hw.
  destruct (init_fields sr ws self Hinit) as (_ & Hsr & Hdt & Hfw & _).
  unfold window_samples in Hw. rewrite Hfw, Hsr in Hw.
  assert (Hpos : (0 < sr)%Z) by lia.
  rewrite Hdt. apply Rdiv_lt_0_compat; [lra |].
  apply IZR_lt. exact Hpos.
Qed.

End CumulativeRotation.

(** C6: with at least 10 samples in the rolling window, each sensor's
    cumulative_rotation column is the running sum of
    (|gyro_x| + |gyro_y| + |gyro_z|) times the sample period, and each of
    its entries is greater than or equal to the previous one. *)
Theorem cumulative_rotation_monotone (sr ws : Z) (self : t) (s : store)
    (df : ref) (f : DataFrame)
    (p1 p2 m gx1 gy1 gz1 gx2 gy2 gz2 : list R) :
  init sr ws = Ok self ->
  lookup s df = Some f -> wf f ->
  get_col "s1_pitch" f = Some (NumCol p1) ->
  get_col "s2_pitch" f = Some (NumCol p2) ->
  get_col "spine_curvature_magnitude" f = Some (NumCol m) ->
  get_col "s1_gyro_x" f = Some (NumCol gx1) ->
  get_col "s1_gyro_y" f = Some (NumCol gy1) ->
  get_col "s1_gyro_z" f = Some (NumCol gz1) ->
  get_col "s2_gyro_x" f = Some (NumCol gx2) ->
  get_col "s2_gyro_y" f = Some (NumCol gy2) ->
  get_col "s2_gyro_z" f = Some (NumCol gz2) ->
  (10 <= window_samples self (nrows f))%Z ->
  exists g c1 c2,
    extract_advanced_features self df s = (Ok (length s), s ++ [g]) /\
    get_col "s1_cumulative_rotation" g = Some (NumCol c1) /\
    get_col "s2_cumulative_rotation" g = Some (NumCol c2) /\
    c1 = Np.scale
           (Np.cumsum (Np.add (Np.add (Np.abs gx1) (Np.abs gy1)) (Np.abs gz1)))
           (1 / IZR sr) /\
    c2 = Np.scale
           (Np.cumsum (Np.add (Np.add (Np.abs gx2) (Np.abs gy2)) (Np.abs gz2)))
           (1 / IZR sr) /\
    length c1 = nrows f /\ length c2 = nrows f /\
    nondecreasing c1 /\ nondecreasing c2.
Proof.
  intros Hinit Hdf Hwf Hp1 Hp2 Hm Hgx1 Hgy1 Hgz1 Hgx2 Hgy2 Hgz2 Hw.
  destruct (extract_advanced_features_run self s df f Hdf
              p1 p2 m gx1 gy1 gz1 gx2 gy2 gz2 Hwf Hp1 Hp2 Hm
              Hgx1 Hgy1 Hgz1 Hgx2 Hgy2 Hgz2 Hw)
    as (g & Hrun & _ & _ & _ & _ & _ & _ & _ & _ & Gc1 & Gc2).
  pose proof (window_gives_positive_dt sr ws self _ Hinit Hw) as Hdt.
  destruct (init_fields sr ws self Hinit) as (_ & _ & Edt & _).
  exists g, (cumulative_rotation self gx1 gy1 gz1),
    (cumulative_rotation self gx2 gy2 gz2).
  split; [exact Hrun |]. split; [exact Gc1 |]. split; [exact Gc2 |].
  split; [unfold cumulative_rotation; rewrite Edt; reflexivity |].
  split; [unfold cumulative_rotation; rewrite Edt; reflexivity |].
  split.
  { apply length_cumulative_rotation; eapply wf_numeric; eassumption. }
  split.
  { apply length_cumulative_rotation; eapply wf_numeric; eassumption. }
  split; apply cumulative_rotation_nondecreasing; lra.
Qed.

(* ----------------------------------------------------------------- *)
(** ** The rule classifier *)

Section StoreUpdates.

Lemma lookup_update_same (r : ref) (g f : DataFrame) (s : store) :
  lookup s r = Some f -> lookup (update r g s) r = Some g.
Proof.
  unfold lookup. revert r. induction s as [| a s IH]; intros [| r]; cbn;
    try discriminate; auto.
Qed.

Lemma update_update (r : ref) (g g' : DataFrame) (s : store) :
  update r g' (update r g s) = update r g' s.
Proof.
  revert r. induction s as [| a s IH]; intros [| r]; cbn; auto.
  rewrite IH. reflexivity.
Qed.

Lemma update_same (r : ref) (g : DataFrame) (s : store) :
  lookup s r = Some g -> update r g s = s.
Proof.
  unfold lookup. revert r. induction s as [| a s IH]; intros [| r] Hr;
    cbn in *; try discriminate.
  - inversion Hr; reflexivity.
  - f_equal. apply IH. exact Hr.
Qed.

End StoreUpdates.

Section Verdicts.

Variable th : Thresholds.

Lemma total_delta_snoc (issues : list string) (issue : string) :
  total_delta (issues ++ [issue])
  = (total_delta issues + severity_delta issue)%Z.
Proof.
  unfold total_delta. induction issues as [| a l IH]; cbn [app map fold_right].
  - lia.
  - rewrite IH. lia.
Qed.

Lemma forward_head_accounted (v : R) (st : verdict) :
  accounted st -> accounted (forward_head th v st).
Proof.
  unfold accounted, forward_head. intros E.
  destruct (Rgt_dec v (forward_head_severe th));
    [| destruct (Rgt_dec v (forward_head_mild th))];
    cbn [fst snd]; rewrite ?total_delta_snoc, ?E; auto.
Qed.

Lemma hunched_accounted (v : R) (st : verdict) :
  accounted st -> accounted (hunched th v st).
Proof.
  unfold accounted, hunched. intros E.
  destruct (Rgt_dec v (hunched_shoulders_severe th));
    [| destruct (Rgt_dec v (hunched_shoulders_mild th))];
    cbn [fst snd]; rewrite ?total_delta_snoc, ?E; auto.
Qed.

Lemma side_lean_accounted (v : R) (st : verdict) :
  accounted st -> accounted (side_lean th v st).
Proof.
  unfold accounted, side_lean. intros E.
  destruct (Rgt_dec (Rabs v) (side_lean_severe th));
    [| destruct (Rgt_dec (Rabs v) (side_lean_mild th))];
    cbn [fst snd]; rewrite ?total_delta_snoc, ?E; auto.
Qed.

Lemma movement_accounted (v : R) (st : verdict) :
  accounted st -> accounted (movement th v st).
Proof.
  unfold accounted, movement. intros E.
  destruct (Rgt_dec v (movement_threshold th));
    [| destruct (Rlt_dec v (stability_threshold th))];
    cbn [fst snd]; rewrite ?total_delta_snoc, ?E; cbn; auto; lia.
Qed.

(** The severity the loop accumulates is the sum of the deltas of the
    issues it has listed. *)
Lemma row_verdict_accounted (pitch cp cr : R) (st : option R) :
  accounted (row_verdict th pitch cp cr st).
Proof.
  unfold row_verdict.
  assert (H0 : accounted (side_lean th cr
                 (hunched th cp (forward_head th pitch ([], 0%Z))))).
  { apply side_lean_accounted, hunched_accounted, forward_head_accounted.
    reflexivity. }
  destruct st; [apply movement_accounted |]; exact H0.
Qed.

End Verdicts.

Section ClassifierLoop.

Variables (self : t) (f : DataFrame).
Variables (p pc rc : list R) (stab : option (list R)).

Let th := thresholds self.
Let n := nrows f.

Hypothesis Lp : length p = n.
Hypothesis Lpc : length pc = n.
Hypothesis Lrc : length rc = n.
Hypothesis Lstab : forall ss, stab = Some ss -> length ss = n.

Lemma reading (xs : list R) (i : nat) :
  (i < length xs)%nat -> nth_error xs i = Some (nth i xs 0).
Proof. intros Hi. apply nth_error_nth'. exact Hi. Qed.

(** One turn of the loop. *)
Lemma classify_row_run (r : ref) (s : store) (g : DataFrame) (k : nat) :
  lookup s r = Some g -> (k < n)%nat ->
  classified_upto th f p pc rc stab k g ->
  exists g',
    classify_row self r k s = (Ok tt, update r g' s) /\
    classified_upto th f p pc rc stab (S k) g'.
Proof.
  intros Hr Hk (Hn & Gp & Gpc & Grc & Gst & ls & cs & vs &
                Gl & Gc & Gv & Ll & Lc & Lv & Hdone).
  fold n in Hn, Ll, Lc, Lv.
  assert (Hkg : (k < nrows g)%nat) by lia.
  set (v := verdict_at th p pc rc stab k).
  destruct (set_nth_some k (label_of (fst v)) ls ltac:(lia)) as (ls' & Els).
  destruct (set_nth_some k (confidence_of (fst v)) cs ltac:(lia))
    as (cs' & Ecs).
  destruct (set_nth_some k (IZR (Z.min (snd v) 10)) vs ltac:(lia))
    as (vs' & Evs).
  set (g1 := set_col "posture_label" (StrCol ls') g).
  set (g2 := set_col "confidence" (NumCol cs') g1).
  set (g3 := set_col "severity_score" (NumCol vs') g2).
  exists g3. split.
  - unfold classify_row. fold th.
    erewrite bind_ok
      by (eapply iloc_num_run; [exact Hr | exact Hkg |
          eapply num_at_col; [exact Gp | apply reading; lia]]).
    erewrite bind_ok
      by (eapply iloc_num_run; [exact Hr | exact Hkg |
          eapply num_at_col; [exact Gpc | apply reading; lia]]).
    erewrite bind_ok
      by (eapply iloc_num_run; [exact Hr | exact Hkg |
          eapply num_at_col; [exact Grc | apply reading; lia]]).
    erewrite bind_ok by (apply has_column_run; exact Hr).
    assert (Hst :
      (if has_col "spine_stability" g
       then v0 <- iloc_num r k "spine_stability" ;;
            ret (movement th v0
                   (side_lean th (nth k rc 0)
                      (hunched th (nth k pc 0)
                         (forward_head th (nth k p 0) ([], 0%Z)))))
       else ret (side_lean th (nth k rc 0)
                   (hunched th (nth k pc 0)
                      (forward_head th (nth k p 0) ([], 0%Z))))) s
      = (Ok v, s)).
    { unfold has_col. rewrite Gst. subst v. unfold verdict_at, row_verdict.
      destruct stab as [ss |]; cbn [option_map].
      - erewrite bind_ok
          by (eapply iloc_num_run; [exact Hr | exact Hkg |
              eapply num_at_col; [exact Gst |
                apply reading; rewrite (Lstab ss eq_refl); lia]]).
        reflexivity.
      - reflexivity. }
    erewrite bind_ok by exact Hst.
    assert (Hlabel :
      (match fst v with
       | [] =>
           iloc_set_str r k "posture_label" "good_posture" ;;
           iloc_set_num r k "confidence" (9 / 10)
       | [issue] =>
           iloc_set_str r k "posture_label" issue ;;
           iloc_set_num r k "confidence" (8 / 10)
       | _ =>
           iloc_set_str r k "posture_label" "multiple_issues" ;;
           iloc_set_num r k "confidence" (7 / 10)
       end) s = (Ok tt, update r g2 s)).
    { assert (Hgen :
        (iloc_set_str r k "posture_label" (label_of (fst v)) ;;
         iloc_set_num r k "confidence" (confidence_of (fst v))) s
        = (Ok tt, update r g2 s)).
      { erewrite bind_ok
          by (eapply iloc_set_str_run; [exact Hr | exact Gl | exact Els]).
        erewrite iloc_set_num_run;
          [| eapply lookup_update_same; exact Hr
           | subst g1; solve_get
           | exact Ecs].
        rewrite update_update. reflexivity. }
      destruct (fst v) as [| a [| b l]]; exact Hgen. }
    erewrite bind_ok by exact Hlabel.
    erewrite iloc_set_num_run;
      [| eapply lookup_update_same; exact Hr
       | subst g2 g1; solve_get
       | exact Evs].
    rewrite update_update. reflexivity.
  - subst g3 g2 g1. unfold classified_upto. cbn [nrows set_col].
    split; [exact Hn |].
    split; [solve_get |]. split; [solve_get |]. split; [solve_get |].
    split; [rewrite !get_set; eval_names; exact Gst |].
    exists ls', cs', vs'.
    split; [solve_get |]. split; [solve_get |]. split; [solve_get |].
    fold n.
    split; [rewrite (set_nth_length _ _ _ _ Els); exact Ll |].
    split; [rewrite (set_nth_length _ _ _ _ Ecs); exact Lc |].
    split; [rewrite (set_nth_length _ _ _ _ Evs); exact Lv |].
    intros i Hi. cbv zeta.
    destruct (Nat.eq_dec i k) as [-> | Hne].
    + fold v.
      rewrite (set_nth_same _ _ _ _ Els), (set_nth_same _ _ _ _ Ecs),
        (set_nth_same _ _ _ _ Evs). auto.
    + rewrite (set_nth_other _ _ _ _ _ Els Hne),
        (set_nth_other _ _ _ _ _ Ecs Hne), (set_nth_other _ _ _ _ _ Evs Hne).
      apply Hdone. lia.
Qed.

(** The rows from [k] on, one after the other. *)
Lemma classify_rows_run (j : nat) :
  forall (r : ref) (s : store) (g : DataFrame) (k : nat),
    lookup s r = Some g -> (k + j = n)%nat ->
    classified_upto th f p pc rc stab k g ->
    exists g',
      for_each (seq k j) (classify_row self r) s = (Ok tt, update r g' s) /\
      classified_upto th f p pc rc stab n g'.
Proof.
  induction j as [| j IH]; intros r s g k Hr Hkj Hinv.
  - exists g. replace n with k by lia. split; [| exact Hinv].
    cbn [seq for_each]. unfold ret. rewrite (update_same r g s Hr).
    reflexivity.
  - destruct (classify_row_run r s g k Hr ltac:(lia) Hinv)
      as (g1 & Hrow & Hinv1).
    destruct (IH r (update r g1 s) g1 (S k)
                (lookup_update_same r g1 g s Hr) ltac:(lia) Hinv1)
      as (g2 & Hrest & Hinv2).
    exists g2. split; [| exact Hinv2].
    cbn [seq for_each].
    rewrite (bind_ok _ _ _ _ _ Hrow), Hrest, update_update. reflexivity.
Qed.

End ClassifierLoop.

Section Classifier.

Variables (self : t) (s : store) (df : ref) (f : DataFrame).
Variables (p pc rc : list R) (stab : option (list R)).

Hypothesis Hdf : lookup s df = Some f.
Hypothesis Hwf : wf f.
Hypothesis Hp : get_col "s1_pitch" f = Some (NumCol p).
Hypothesis Hpc : get_col "spine_pitch_curvature" f = Some (NumCol pc).
Hypothesis Hrc : get_col "spine_roll_curvature" f = Some (NumCol rc).
Hypothesis Hstab : get_col "spine_stability" f = option_map NumCol stab.

Lemma classify_posture_realtime_run :
  exists g,
    classify_posture_realtime self df s = (Ok (length s), s ++ [g]) /\
    classified_upto (thresholds self) f p pc rc stab (nrows f) g.
Proof.
  pose proof (wf_numeric f _ _ Hwf Hp) as Lp.
  pose proof (wf_numeric f _ _ Hwf Hpc) as Lpc.
  pose proof (wf_numeric f _ _ Hwf Hrc) as Lrc.
  assert (Lstab : forall ss, stab = Some ss -> length ss = nrows f).
  { intros ss ->. cbn in Hstab. apply (wf_numeric f _ _ Hwf Hstab). }
  set (g0 := set_col "confidence" (NumCol (repeat 0 (nrows f)))
               (set_col "severity_score" (NumCol (repeat 0 (nrows f)))
                  (set_col "posture_label"
                     (StrCol (repeat "unknown" (nrows f))) f))).
  assert (Hinv : classified_upto (thresholds self) f p pc rc stab 0 g0).
  { subst g0. unfold classified_upto. cbn [nrows set_col].
    split; [reflexivity |].
    split; [solve_get |]. split; [solve_get |]. split; [solve_get |].
    split; [rewrite !get_set; eval_names; exact Hstab |].
    exists (repeat "unknown" (nrows f)), (repeat 0 (nrows f)),
      (repeat 0 (nrows f)).
    split; [solve_get |]. split; [solve_get |]. split; [solve_get |].
    rewrite !repeat_length. repeat split; try reflexivity.
    all: lia. }
  destruct (classify_rows_run self f p pc rc stab Lp Lpc Lrc Lstab
              (nrows f) (length s) (s ++ [g0]) g0 0%nat
              (lookup_app_new s g0) eq_refl Hinv)
    as (g & Hloop & Hdone).
  exists g. split; [| exact Hdone].
  unfold classify_posture_realtime.
  rewrite (bind_ok _ _ _ _ _ (copy_run df s f Hdf)).
  erewrite bind_ok by (apply setitem_str_run; apply lookup_app_new).
  rewrite update_app_new.
  erewrite bind_ok by (apply setitem_num_run; apply lookup_app_new).
  rewrite update_app_new.
  erewrite bind_ok by (apply setitem_num_run; apply lookup_app_new).
  rewrite update_app_new. cbn [nrows set_col]. fold g0.
  erewrite bind_ok by (apply len_run; apply lookup_app_new).
  replace (nrows g0) with (nrows f) by reflexivity.
  erewrite bind_ok by exact Hloop.
  rewrite update_app_new. reflexivity.
Qed.

End Classifier.

Section ClassifierRows.

Lemma str_at_col (g : DataFrame) (c : string) (xs : list string) (i : nat)
    (x : string) :
  get_col c g = Some (StrCol xs) -> nth_error xs i = Some x ->
  str_at g c i = Some x.
Proof. intros Hc Hx. unfold str_at. rewrite Hc. exact Hx. Qed.

Lemma nth_of_reading (xs : list R) (i : nat) (x : R) :
  nth_error xs i = Some x -> nth i xs 0 = x.
Proof. intros E. apply nth_error_nth. exact E. Qed.

(** What the classified frame holds on row [i]. *)
Lemma classified_row (th : Thresholds) (f g : DataFrame)
    (p pc rc : list R) (stab : option (list R)) (i : nat) :
  classified_upto th f p pc rc stab (nrows f) g -> (i < nrows f)%nat ->
  let v := verdict_at th p pc rc stab i in
  str_at g "posture_label" i = Some (label_of (fst v)) /\
  num_at g "confidence" i = Some (confidence_of (fst v)) /\
  num_at g "severity_score" i = Some (IZR (Z.min (total_delta (fst v)) 10)).
Proof.
  intros (_ & _ & _ & _ & _ & ls & cs & vs & Gl & Gc & Gv & _ & _ & _ & Hrows)
         Hi v.
  destruct (Hrows i Hi) as (El & Ec & Ev). fold v in El, Ec, Ev.
  split; [eapply str_at_col; eassumption |].
  split; [eapply num_at_col; eassumption |].
  eapply num_at_col; [exact Gv |].
  rewrite Ev. subst v. unfold verdict_at.
  rewrite (row_verdict_accounted th). reflexivity.
Qed.

End ClassifierRows.

Section RuleTable.

Variable th : Thresholds.

(** The issues the loop body lists are the ones the rule table triggers,
    criterion by criterion. *)
Lemma row_verdict_issues (pitch cp cr : R) (st : option R) :
  fst (row_verdict th pitch cp cr st) = triggered th pitch cp cr st.
Proof.
  unfold row_verdict, triggered, angle_issues, movement_issues, tier,
    forward_head, hunched, side_lean, movement.
  destruct (Rgt_dec pitch (forward_head_severe th));
    [| destruct (Rgt_dec pitch (forward_head_mild th))];
    (destruct (Rgt_dec cp (hunched_shoulders_severe th));
     [| destruct (Rgt_dec cp (hunched_shoulders_mild th))]);
    (destruct (Rgt_dec (Rabs cr) (side_lean_severe th));
     [| destruct (Rgt_dec (Rabs cr) (side_lean_mild th))]);
    (destruct st as [v |];
     [destruct (Rgt_dec v (movement_threshold th));
      [| destruct (Rlt_dec v (stability_threshold th))] |]);
    reflexivity.
Qed.

Lemma tier_names (v mild severe : R) (mild_issue severe_issue x : string) :
  In x (tier v mild severe mild_issue severe_issue) ->
  x = mild_issue \/ x = severe_issue.
Proof.
  unfold tier. destruct (Rgt_dec v severe); [| destruct (Rgt_dec v mild)];
    cbn; intuition.
Qed.

Lemma angle_issue_names (pitch cp cr : R) (x : string) :
  In x (angle_issues th pitch cp cr) ->
  In x ["mild_forward_head"; "severe_forward_head"; "mild_hunched";
        "severe_hunched"; "mild_side_lean"; "severe_side_lean"].
Proof.
  unfold angle_issues. rewrite !in_app_iff.
  intros [H | [H | H]]; apply tier_names in H; destruct H as [-> | ->];
    cbn; auto 10.
Qed.

Lemma label_of_cases (issues : list string) :
  (issues = [] /\ label_of issues = "good_posture") \/
  (exists x, issues = [x] /\ label_of issues = x) \/
  ((1 < length issues)%nat /\ label_of issues = "multiple_issues").
Proof.
  destruct issues as [| a [| b l]]; cbn.
  - left. auto.
  - right. left. exists a. auto.
  - right. right. split; [lia | reflexivity].
Qed.

(** Without the movement criterion no label names a movement issue. *)
Lemma angle_label_not_movement (pitch cp cr : R) :
  let issues := angle_issues th pitch cp cr in
  ~ In "excessive_movement" issues /\ ~ In "static_posture" issues /\
  label_of issues <> "excessive_movement" /\
  label_of issues <> "static_posture" /\
  label_of issues <> "unknown".
Proof.
  intros issues.
  assert (Hnames : forall x, In x issues ->
            x <> "excessive_movement" /\ x <> "static_posture"
            /\ x <> "unknown").
  { intros x Hx. apply angle_issue_names in Hx. cbn in Hx.
    repeat (destruct Hx as [<- | Hx];
            [repeat split; discriminate |]).
    contradiction. }
  split; [intros Hin; apply Hnames in Hin; tauto |].
  split; [intros Hin; apply Hnames in Hin; tauto |].
  destruct (label_of_cases issues) as [(_ & ->) | [(x & E & ->) | (_ & ->)]].
  - repeat split; discriminate.
  - apply Hnames. rewrite E. left. reflexivity.
  - repeat split; discriminate.
Qed.

End RuleTable.

(** C1: on every row the classifier stores as severity the sum of the
    deltas of the issues the rule table triggers (severe forward-head and
    severe hunched 3, severe side-lean 2, each mild tier 1, movement issues
    0), capped at 10, and takes label and confidence from the number of
    issues alone: none gives good_posture with 0.9, exactly one gives that
    issue's name with 0.8, more than one gives multiple_issues with 0.7. *)
Theorem classify_posture_realtime_rule (self : t) (s : store) (df : ref)
    (f : DataFrame) (p pc rc : list R) (stab : option (list R)) :
  lookup s df = Some f -> wf f ->
  get_col "s1_pitch" f = Some (NumCol p) ->
  get_col "spine_pitch_curvature" f = Some (NumCol pc) ->
  get_col "spine_roll_curvature" f = Some (NumCol rc) ->
  get_col "spine_stability" f = option_map NumCol stab ->
  exists g,
    classify_posture_realtime self df s = (Ok (length s), s ++ [g]) /\
    nrows g = nrows f /\
    forall i, (i < nrows f)%nat ->
      let pitch := nth i p 0 in
      let cp := nth i pc 0 in
      let cr := nth i rc 0 in
      let st := option_map (fun ss => nth i ss 0) stab in
      let issues := triggered (thresholds self) pitch cp cr st in
      (num_at f "s1_pitch" i = Some pitch /\
       num_at f "spine_pitch_curvature" i = Some cp /\
       num_at f "spine_roll_curvature" i = Some cr) /\
      num_at g "severity_score" i
      = Some (IZR (Z.min (total_delta issues) 10)) /\
      (issues = [] ->
       str_at g "posture_label" i = Some "good_posture" /\
       num_at g "confidence" i = Some (9 / 10)) /\
      (forall issue, issues = [issue] ->
       str_at g "posture_label" i = Some issue /\
       num_at g "confidence" i = Some (8 / 10)) /\
      ((1 < length issues)%nat ->
       str_at g "posture_label" i = Some "multiple_issues" /\
       num_at g "confidence" i = Some (7 / 10)).
Proof.
  intros Hdf Hwf Hp Hpc Hrc Hstab.
  destruct (classify_posture_realtime_run self s df f p pc rc stab
              Hdf Hwf Hp Hpc Hrc Hstab) as (g & Hrun & Hdone).
  exists g. split; [exact Hrun |].
  split; [exact (proj1 Hdone) |].
  intros i Hi pitch cp cr st issues.
  pose proof (wf_numeric f _ _ Hwf Hp) as Lp.
  pose proof (wf_numeric f _ _ Hwf Hpc) as Lpc.
  pose proof (wf_numeric f _ _ Hwf Hrc) as Lrc.
  split.
  { repeat split; (eapply num_at_col; [eassumption |]); apply reading; lia. }
  destruct (classified_row _ _ _ _ _ _ _ i Hdone Hi) as (El & Ec & Ev).
  unfold verdict_at in El, Ec, Ev. rewrite row_verdict_issues in El, Ec, Ev.
  fold pitch cp cr st issues in El, Ec, Ev.
  split; [exact Ev |].
  split; [| split].
  - intros E. rewrite E in El, Ec. auto.
  - intros issue E. rewrite E in El, Ec. auto.
  - intros Hlen. destruct issues as [| a [| b l]]; cbn in Hlen; try lia.
    auto.
Qed.

(** C10: on a frame with no spine_stability column the classifier does not
    fail; every row gets its label, severity and confidence from the three
    angle criteria alone, and neither excessive_movement nor
    static_posture appears. *)
Theorem classify_without_stability_column (self : t) (s : store) (df : ref)
    (f : DataFrame) (p pc rc : list R) :
  lookup s df = Some f -> wf f ->
  get_col "s1_pitch" f = Some (NumCol p) ->
  get_col "spine_pitch_curvature" f = Some (NumCol pc) ->
  get_col "spine_roll_curvature" f = Some (NumCol rc) ->
  get_col "spine_stability" f = None ->
  exists g,
    classify_posture_realtime self df s = (Ok (length s), s ++ [g]) /\
    nrows g = nrows f /\
    forall i, (i < nrows f)%nat ->
      let issues :=
        angle_issues (thresholds self) (nth i p 0) (nth i pc 0) (nth i rc 0) in
      str_at g "posture_label" i = Some (label_of issues) /\
      num_at g "confidence" i = Some (confidence_of issues) /\
      num_at g "severity_score" i
      = Some (IZR (Z.min (total_delta issues) 10)) /\
      ~ In "excessive_movement" issues /\
      ~ In "static_posture" issues /\
      label_of issues <> "excessive_movement" /\
      label_of issues <> "static_posture" /\
      label_of issues <> "unknown".
Proof.
  intros Hdf Hwf Hp Hpc Hrc Hstab.
  destruct (classify_posture_realtime_run self s df f p pc rc None
              Hdf Hwf Hp Hpc Hrc Hstab) as (g & Hrun & Hdone).
  exists g. split; [exact Hrun |].
  split; [exact (proj1 Hdone) |].
  intros i Hi issues.
  destruct (classified_row _ _ _ _ _ _ _ i Hdone Hi) as (El & Ec & Ev).
  unfold verdict_at in El, Ec, Ev. rewrite row_verdict_issues in El, Ec, Ev.
  unfold triggered, movement_issues in El, Ec, Ev. cbn [option_map] in El, Ec, Ev.
  rewrite app_nil_r in El, Ec, Ev. fold issues in El, Ec, Ev.
  split; [exact El |]. split; [exact Ec |]. split; [exact Ev |].
  apply angle_label_not_movement.
Qed.

(* ----------------------------------------------------------------- *)
(** ** The preprocessor *)

Section ColumnLoops.

Lemma assoc_set_same {V} (k : string) (v : V) (l : list (string * V)) :
  assoc_get k l = Some v -> assoc_set k v l = l.
Proof.
  induction l as [| [k0 v0] l IH]; cbn; [discriminate |].
  destruct (String.eqb_spec k k0) as [-> | Hne].
  - intros E; inversion E; reflexivity.
  - intros E. rewrite IH by exact E. reflexivity.
Qed.

Lemma set_col_same (c : string) (v : column) (g : DataFrame) :
  get_col c g = Some v -> set_col c v g = g.
Proof.
  intros E. unfold set_col. rewrite (assoc_set_same c v (columns g) E).
  destruct g; reflexivity.
Qed.

Lemma numeric_set_col (g : DataFrame) (c c0 : string) (ys : list R) :
  length ys = nrows g -> numeric g c ->
  numeric (set_col c0 (NumCol ys) g) c.
Proof.
  intros Hlen (xs & Hc & Lx). unfold numeric. rewrite get_set.
  cbn [nrows set_col].
  destruct (String.eqb c c0); [exists ys | exists xs]; auto.
Qed.

(** A loop of column steps runs through, keeps the row count and leaves
    every numeric column numeric. *)
Lemma column_loop_run (ok : nat -> Prop) (body : ref -> string -> M unit)
    (r : ref) (cols : list string) :
  column_step ok body ->
  forall s g,
    lookup s r = Some g -> ok (nrows g) ->
    (forall c, In c cols -> numeric g c) ->
    exists g',
      for_each cols (body r) s = (Ok tt, update r g' s) /\
      nrows g' = nrows g /\
      forall c, numeric g c -> numeric g' c.
Proof.
  intros Hstep. induction cols as [| c cols IH]; intros s g Hr Hok Hnum.
  - exists g. split; [| split; auto].
    cbn. unfold ret. rewrite (update_same r g s Hr). reflexivity.
  - destruct (Hnum c (or_introl eq_refl)) as (xs & Hc & Lx).
    destruct (Hstep r c s g xs Hr Hok Hc Lx) as (ys & Ly & Hrun).
    set (g1 := set_col c (NumCol ys) g) in *.
    assert (Hkeep : forall c', numeric g c' -> numeric g1 c').
    { intros c' Hc'. apply numeric_set_col; [lia | exact Hc']. }
    destruct (IH (update r g1 s) g1 (lookup_update_same r g1 g s Hr) Hok)
      as (g' & Hrest & Hn' & Hnum').
    { intros c' Hin. apply Hkeep, Hnum. right. exact Hin. }
    exists g'. split; [| split].
    + cbn [for_each]. rewrite (bind_ok _ _ _ _ _ Hrun), Hrest, update_update.
      reflexivity.
    + exact Hn'.
    + intros c' Hc'. apply Hnum', Hkeep, Hc'.
Qed.

Lemma loc_assign_run (r : ref) (mask : list bool) (c : string) (m : R)
    (s : store) (g : DataFrame) (xs : list R) :
  lookup s r = Some g -> get_col c g = Some (NumCol xs) ->
  loc_assign r mask c (Some m) s
  = (Ok tt, update r (set_col c (NumCol (mask_assign mask m xs)) g) s).
Proof.
  intros Hr Hc. unfold loc_assign.
  rewrite (bind_ok _ _ _ _ _ (read_run _ _ _ Hr)), Hc. reflexivity.
Qed.

Lemma loc_assign_nan (r : ref) (mask : list bool) (c : string)
    (s : store) (g : DataFrame) (xs : list R) :
  lookup s r = Some g -> get_col c g = Some (NumCol xs) ->
  loc_assign r mask c None s = (Ok tt, s).
Proof.
  intros Hr Hc. unfold loc_assign.
  rewrite (bind_ok _ _ _ _ _ (read_run _ _ _ Hr)), Hc. reflexivity.
Qed.

(** One channel of the 3-sigma step leaves [suppress_outliers] of the
    channel in its place. *)
Lemma remove_outliers_run (r : ref) (c : string) (s : store) (g : DataFrame)
    (xs : list R) :
  lookup s r = Some g -> get_col c g = Some (NumCol xs) ->
  remove_outliers r c s
  = (Ok tt, update r (set_col c (NumCol (suppress_outliers xs)) g) s).
Proof.
  intros Hr Hc. unfold remove_outliers.
  rewrite (bind_ok _ _ _ _ _ (getitem_num_run _ _ _ _ _ Hr Hc)).
  unfold suppress_outliers.
  destruct (Series.mean xs) as [m |] eqn:Hm.
  - apply loc_assign_run; assumption.
  - rewrite (loc_assign_nan r _ c s g xs Hr Hc).
    rewrite (set_col_same c (NumCol xs) g Hc), (update_same r g s Hr).
    reflexivity.
Qed.

Lemma remove_outliers_step : column_step (fun _ => True) remove_outliers.
Proof.
  intros r c s g xs Hr _ Hc Lx. exists (suppress_outliers xs).
  split; [apply suppress_outliers_length |].
  apply remove_outliers_run; assumption.
Qed.

End ColumnLoops.

Section Preprocessor.

Context `{SciPy}.

Lemma butter_run (N : nat) (Wn : R) :
  0 < Wn < 1 ->
  exists b a,
    Signal.butter N Wn = Ok (b, a) /\
    length b = (N + 1)%nat /\ length a = (N + 1)%nat.
Proof.
  intros [H0 H1]. unfold Signal.butter.
  destruct (Rlt_dec 0 Wn) as [_ | Hn]; [| contradiction].
  destruct (Rlt_dec Wn 1) as [_ | Hn]; [| contradiction].
  eexists _, _. split; [reflexivity |].
  rewrite !length_map, !length_seq. auto.
Qed.

Lemma filtfilt_short (b a x : list R) :
  (length x <= Signal.padlen b a)%nat ->
  Signal.filtfilt b a x
  = Raise (ValueError "The length of the input vector x must be greater than padlen").
Proof.
  intros Hle. unfold Signal.filtfilt.
  destruct (Nat.leb_spec (length x) (Signal.padlen b a)); [reflexivity | lia].
Qed.

Lemma filtfilt_long (b a x : list R) :
  (Signal.padlen b a < length x)%nat ->
  exists y, Signal.filtfilt b a x = Ok y /\ length y = length x.
Proof.
  intros Hlt. unfold Signal.filtfilt.
  destruct (Nat.leb_spec (length x) (Signal.padlen b a)); [lia |].
  eexists. split; [reflexivity |]. rewrite length_map, length_seq. reflexivity.
Qed.

Lemma savgol_run (x : list R) :
  (5 <= length x)%nat ->
  exists y, Signal.savgol_filter x 5 2 = Ok y /\ length y = length x.
Proof.
  intros Hlen. unfold Signal.savgol_filter. cbn [Nat.leb].
  destruct (Nat.ltb_spec (length x) 5); [lia |].
  eexists. split; [reflexivity |]. rewrite length_map, length_seq. reflexivity.
Qed.

(** The low-pass step on a series it skips or accepts. *)
Lemma lowpass_step (b a : list R) (self : t) :
  column_step
    (fun n => (n <= 2 * order (filter_params self))%nat
              \/ (Signal.padlen b a < n)%nat)
    (fun r => lowpass b a self r).
Proof.
  intros r c s g xs Hr Hok Hc Lx. unfold lowpass.
  rewrite (bind_ok _ _ _ _ _ (len_run r s g Hr)).
  destruct (Nat.ltb_spec (2 * order (filter_params self)) (nrows g))
    as [Hlong | Hshort].
  - destruct Hok as [Hle | Hpad]; [lia |].
    destruct (filtfilt_long b a xs) as (ys & Ef & Ly); [lia |].
    exists ys. split; [exact Ly |].
    rewrite (bind_ok _ _ _ _ _ (getitem_num_run _ _ _ _ _ Hr Hc)).
    rewrite Ef. cbn [lift].
    erewrite bind_ok by reflexivity.
    apply setitem_run; [exact Hr | cbn; lia].
  - exists xs. split; [reflexivity |].
    rewrite (set_col_same c (NumCol xs) g Hc), (update_same r g s Hr).
    reflexivity.
Qed.

(** The low-pass step on a series longer than twice the order and no
    longer than the padding: [filtfilt] refuses it. *)
Lemma lowpass_raises (b a : list R) (self : t) (r : ref) (c : string)
    (s : store) (g : DataFrame) (xs : list R) :
  lookup s r = Some g ->
  get_col c g = Some (NumCol xs) -> length xs = nrows g ->
  (2 * order (filter_params self) < nrows g <= Signal.padlen b a)%nat ->
  lowpass b a self r c s
  = (Raise (ValueError "The length of the input vector x must be greater than padlen"), s).
Proof.
  intros Hr Hc Lx [Hlo Hhi]. unfold lowpass.
  rewrite (bind_ok _ _ _ _ _ (len_run r s g Hr)).
  destruct (Nat.ltb_spec (2 * order (filter_params self)) (nrows g));
    [| lia].
  rewrite (bind_ok _ _ _ _ _ (getitem_num_run _ _ _ _ _ Hr Hc)).
  rewrite filtfilt_short by lia. reflexivity.
Qed.

Lemma smooth_gyro_step : column_step (fun n => (5 <= n)%nat) smooth_gyro.
Proof.
  intros r c s g xs Hr Hok Hc Lx. unfold smooth_gyro.
  rewrite (bind_ok _ _ _ _ _ (getitem_num_run _ _ _ _ _ Hr Hc)).
  rewrite (bind_ok _ _ _ _ _ (len_run r s g Hr)).
  replace (Nat.min 5 (nrows g)) with 5%nat by lia.
  destruct (savgol_run xs) as (ys & Ef & Ly); [lia |].
  exists ys. split; [exact Ly |].
  rewrite Ef. cbn [lift]. erewrite bind_ok by reflexivity.
  apply setitem_run; [exact Hr | cbn; lia].
Qed.

Lemma accel_in_filtered (c : string) :
  In c accel_columns -> In c filtered_columns.
Proof.
  cbn. intros Hin.
  repeat (destruct Hin as [<- | Hin]; [auto 15 |]). contradiction.
Qed.

Lemma gyro_in_filtered (c : string) :
  In c gyro_columns -> In c filtered_columns.
Proof.
  cbn. intros Hin.
  repeat (destruct Hin as [<- | Hin]; [auto 15 |]). contradiction.
Qed.

End Preprocessor.

Section PreprocessorRuns.

Context `{SciPy}.

Variables (sr ws : Z) (self : t) (s : store) (df : ref) (f : DataFrame).
Hypothesis Hinit : init sr ws = Ok self.
Hypothesis Hdf : lookup s df = Some f.

Lemma padlen_of_design (b a : list R) :
  length b = 5%nat -> length a = 5%nat -> Signal.padlen b a = 15%nat.
Proof. intros Hb Ha. unfold Signal.padlen. rewrite Hb, Ha. reflexivity. Qed.

(** Outside the gap between the guard of the program (more than twice the
    filter order) and the requirement of [filtfilt] (more than 15 samples),
    or when the cutoff is not below the Nyquist frequency, the
    preprocessor returns a copy with as many samples as its input. *)
Lemma preprocess_data_keeps_length :
  (forall c, In c filtered_columns -> numeric f c) ->
  (sr <= 6)%Z \/ (nrows f <= 8)%nat \/ (16 <= nrows f)%nat ->
  exists g,
    preprocess_data self df s = (Ok (length s), s ++ [g]) /\
    nrows g = nrows f /\
    forall c, In c filtered_columns -> numeric g c.
Proof.
  intros Hnum Hcase.
  destruct (init_fields sr ws self Hinit) as (_ & Hsr & _ & _ & Hord & Hcut).
  unfold preprocess_data.
  rewrite (bind_ok _ _ _ _ _ (copy_run df s f Hdf)).
  (* 1. outliers *)
  destruct (column_loop_run (fun _ => True) remove_outliers (length s)
              accel_columns remove_outliers_step (s ++ [f]) f
              (lookup_app_new s f) I)
    as (g1 & Hloop1 & Hn1 & Hnum1).
  { intros c Hc. apply Hnum, accel_in_filtered, Hc. }
  rewrite (bind_ok _ _ _ _ _ Hloop1), update_app_new. cbv zeta.
  (* 2. low-pass *)
  assert (Hfilter : exists g2,
    (if Rlt_dec (lowpass_cutoff (filter_params self))
                (IZR (sample_rate self) / 2)
     then
       ba <- lift (Signal.butter (order (filter_params self))
                     (lowpass_cutoff (filter_params self)
                      / (IZR (sample_rate self) / 2))) ;;
       for_each filtered_columns (lowpass (fst ba) (snd ba) self (length s))
     else ret tt) (s ++ [g1]) = (Ok tt, s ++ [g2]) /\
    nrows g2 = nrows f /\ forall c, numeric g1 c -> numeric g2 c).
  { rewrite Hcut, Hsr, Hord.
    destruct (Rlt_dec 3 (IZR sr / 2)) as [Hny | Hny].
    - assert (Hsr7 : (6 < sr)%Z) by (apply lt_IZR; lra).
      destruct (butter_run 4 (3 / (IZR sr / 2))) as (b & a & Eb & Lb & La).
      { split.
        - apply Rdiv_lt_0_compat; lra.
        - apply Rmult_lt_reg_r with (IZR sr / 2); [lra |].
          unfold Rdiv at 1. rewrite Rmult_assoc, Rinv_l by lra. lra. }
      rewrite Eb. cbn [lift]. erewrite bind_ok by reflexivity.
      cbn [fst snd].
      destruct (column_loop_run _ _ (length s) filtered_columns
                  (lowpass_step b a self) (s ++ [g1]) g1
                  (lookup_app_new s g1))
        as (g2 & Hloop2 & Hn2 & Hnum2).
      { rewrite Hord, (padlen_of_design b a Lb La). lia. }
      { intros c Hc. apply Hnum1, Hnum, Hc. }
      exists g2. rewrite Hloop2, update_app_new.
      split; [reflexivity |]. split; [lia | exact Hnum2].
    - exists g1. split; [reflexivity |]. split; [exact Hn1 | auto]. }
  destruct Hfilter as (g2 & Hrun2 & Hn2 & Hnum2).
  rewrite (bind_ok _ _ _ _ _ Hrun2).
  (* 3. gyroscope smoothing *)
  rewrite (bind_ok _ _ _ _ _ (len_run _ _ _ (lookup_app_new s g2))).
  destruct (Nat.leb_spec 5 (nrows g2)) as [H5 | H5].
  - destruct (column_loop_run _ _ (length s) gyro_columns
                smooth_gyro_step (s ++ [g2]) g2 (lookup_app_new s g2) H5)
      as (g3 & Hloop3 & Hn3 & Hnum3).
    { intros c Hc. apply Hnum2, Hnum1, Hnum, gyro_in_filtered, Hc. }
    rewrite (bind_ok _ _ _ _ _ Hloop3), update_app_new.
    exists g3. split; [reflexivity |]. split; [lia |].
    intros c Hc. apply Hnum3, Hnum2, Hnum1, Hnum, Hc.
  - erewrite bind_ok by reflexivity.
    exists g2. split; [reflexivity |]. split; [lia |].
    intros c Hc. apply Hnum2, Hnum1, Hnum, Hc.
Qed.

End PreprocessorRuns.

(** C2 fails on the code: with the default rate (any rate of 7 Hz or
    more) a series of 9 to 15 samples passes the guard
    [len(df_clean) > 2 * order] and reaches [filtfilt], whose default
    padding needs more than 15 samples, so the preprocessor raises instead
    of returning a series of the same length. *)
Theorem preprocess_data_raises_from_9_to_15_samples `{SciPy}
    (sr ws : Z) (self : t) (s : store) (df : ref) (f : DataFrame) :
  init sr ws = Ok self -> (7 <= sr)%Z ->
  lookup s df = Some f ->
  (forall c, In c accel_columns -> numeric f c) ->
  (9 <= nrows f <= 15)%nat ->
  fst (preprocess_data self df s)
  = Raise (ValueError "The length of the input vector x must be greater than padlen").
Proof.
  intros Hinit Hsr7 Hdf Hnum Hrows.
  destruct (init_fields sr ws self Hinit) as (_ & Hsr & _ & _ & Hord & Hcut).
  unfold preprocess_data.
  rewrite (bind_ok _ _ _ _ _ (copy_run df s f Hdf)).
  destruct (column_loop_run (fun _ => True) remove_outliers (length s)
              accel_columns remove_outliers_step (s ++ [f]) f
              (lookup_app_new s f) I Hnum)
    as (g1 & Hloop1 & Hn1 & Hnum1).
  rewrite (bind_ok _ _ _ _ _ Hloop1), update_app_new. cbv zeta.
  rewrite Hcut, Hsr, Hord.
  assert (Hny : 3 < IZR sr / 2).
  { assert (7 <= IZR sr) by (apply IZR_le; exact Hsr7). lra. }
  destruct (Rlt_dec 3 (IZR sr / 2)) as [_ | Hn]; [| contradiction].
  destruct (butter_run 4 (3 / (IZR sr / 2))) as (b & a & Eb & Lb & La).
  { split.
    - apply Rdiv_lt_0_compat; lra.
    - apply Rmult_lt_reg_r with (IZR sr / 2); [lra |].
      unfold Rdiv at 1. rewrite Rmult_assoc, Rinv_l by lra. lra. }
  rewrite Eb. cbn [lift].
  destruct (Hnum1 "s1_accel_x") as (xs & Hc & Lx).
  { apply Hnum. left. reflexivity. }
  erewrite bind_raise; [reflexivity |].
  erewrite bind_ok by reflexivity. cbn [fst snd].
  unfold filtered_columns. cbn [for_each].
  apply bind_raise.
  apply (lowpass_raises b a self (length s) "s1_accel_x" (s ++ [g1]) g1 xs
           (lookup_app_new s g1) Hc Lx).
  rewrite Hord, (padlen_of_design b a Lb La). lia.
Qed.

(* ----------------------------------------------------------------- *)
(** ** The trend analyzer *)

Section Yields.

Lemma yields_ret {A} (P : A -> Prop) (a : A) : P a -> yields P (ret a).
Proof. intros Ha s a' E. cbn in E. inversion E; subst. exact Ha. Qed.

Lemma yields_raise {A} (P : A -> Prop) (e : exn) : yields P (raise e).
Proof. intros s a E. discriminate. Qed.

Lemma yields_any {A} (m : M A) : yields (fun _ => True) m.
Proof. intros s a _. exact I. Qed.

Lemma yields_bind {A B} (Q : A -> Prop) (P : B -> Prop) (m : M A)
    (k : A -> M B) :
  yields Q m -> (forall a, Q a -> yields P (k a)) -> yields P (bind m k).
Proof.
  intros Hm Hk s b E. unfold bind in E.
  destruct (m s) as [[a | e] s1] eqn:Em; [| discriminate].
  apply (Hk a (Hm s a ltac:(rewrite Em; reflexivity)) s1 b E).
Qed.

Lemma yields_then {A B} (P : B -> Prop) (m : M A) (k : A -> M B) :
  (forall a, yields P (k a)) -> yields P (bind m k).
Proof.
  intros Hk. apply (yields_bind (fun _ => True)); [apply yields_any |].
  intros a _. apply Hk.
Qed.

End Yields.

Section TrendAnalyzer.

Variables (self : t) (s : store) (df : ref) (f : DataFrame) (minutes : Z).
Hypothesis Hdf : lookup s df = Some f.

Lemma analyze_patterns_short :
  (Z.of_nat (nrows f) < sample_rate self * 60)%Z ->
  analyze_patterns self df minutes s = (Ok insufficient_data, s).
Proof.
  intros Hshort. unfold analyze_patterns.
  rewrite (bind_ok _ _ _ _ _ (len_run df s f Hdf)).
  destruct (Z.ltb_spec (Z.of_nat (nrows f)) (sample_rate self * 60));
    [reflexivity | lia].
Qed.

(** With a minute of data or more, the report that comes back, if one
    does, has no [pattern_analysis] entry. *)
Lemma analyze_patterns_long (rep : PatternReport) :
  (sample_rate self * 60 <= Z.of_nat (nrows f))%Z ->
  fst (analyze_patterns self df minutes s) = Ok rep ->
  pattern_analysis rep = None.
Proof.
  intros Hlong. unfold analyze_patterns.
  rewrite (bind_ok _ _ _ _ _ (len_run df s f Hdf)).
  destruct (Z.ltb_spec (Z.of_nat (nrows f)) (sample_rate self * 60));
    [lia |].
  cbv zeta. intros E.
  match type of E with
  | fst (?m s) = _ =>
      assert (Hy : yields (fun rep => pattern_analysis rep = None) m)
  end.
  { do 4 (apply yields_then; intros ?).
    apply yields_then; intros has_label.
    apply (yields_bind (fun a => pattern_analysis a = None)).
    { destruct has_label.
      - do 2 (apply yields_then; intros ?). apply yields_ret. reflexivity.
      - apply yields_ret. reflexivity. }
    intros results Hnone.
    do 6 (apply yields_then; intros ?).
    apply yields_ret. exact Hnone. }
  exact (Hy s rep E).
Qed.

End TrendAnalyzer.

(** C7: the trend analyzer returns pattern_analysis = "insufficient_data"
    together with exactly one recommendation if and only if the series is
    shorter than 60 * sample_rate samples; on such a series the report has
    no distribution, no trend and no movement entry, and no window of the
    data is taken. *)
Theorem analyze_patterns_insufficient_iff_short (self : t) (s : store)
    (df : ref) (f : DataFrame) (minutes : Z) :
  lookup s df = Some f ->
  ((exists rep advice,
      fst (analyze_patterns self df minutes s) = Ok rep /\
      pattern_analysis rep = Some "insufficient_data" /\
      recommendations rep = Some [advice])
   <-> (Z.of_nat (nrows f) < sample_rate self * 60)%Z) /\
  ((Z.of_nat (nrows f) < sample_rate self * 60)%Z ->
   exists rep,
     analyze_patterns self df minutes s = (Ok rep, s) /\
     posture_distribution rep = None /\ trends rep = Some [] /\
     time_period rep = None /\ total_samples rep = None).
Proof.
  intros Hdf. split; [split |].
  - intros (rep & advice & Hrun & Hpa & _).
    destruct (Z.lt_ge_cases (Z.of_nat (nrows f)) (sample_rate self * 60))
      as [Hshort | Hlong]; [exact Hshort |].
    rewrite (analyze_patterns_long self s df f minutes Hdf rep Hlong Hrun)
      in Hpa.
    discriminate.
  - intros Hshort. eexists _, _.
    rewrite (analyze_patterns_short self s df f minutes Hdf Hshort).
    repeat split.
  - intros Hshort. exists insufficient_data.
    rewrite (analyze_patterns_short self s df f minutes Hdf Hshort).
    repeat split.
Qed.

(* ----------------------------------------------------------------- *)
(** ** The properties at work on small inputs *)

Lemma init_raises_iff_zero_or_beyond_double_range_witness :
  (-10 <> 0)%Z /\ (Z.abs (-10) < Py.float_overflow_bound)%Z /\
  exists self,
    init (-10) 50 = Ok self /\ sample_rate self = (-10)%Z /\
    dt self = 1 / IZR (-10) /\ ((-10 < 0)%Z -> dt self < 0).
Proof.
  split; [lia |]. split; [reflexivity |].
  apply (proj1 (proj2 (proj2
           (init_raises_iff_zero_or_beyond_double_range (-10) 50)))).
  - lia.
  - reflexivity.
Defined.

Lemma stages_leave_input_unmodified_witness :
  lookup [upright] 0%nat = Some upright /\
  lookup (snd (extract_orientation ten_hertz 0%nat [upright])) 0%nat
  = Some upright.
Proof.
  split; [reflexivity |].
  apply (proj1 (proj2 (proj1
           (@stages_leave_input_unmodified passthrough ten_hertz 0%nat
              [upright])))).
  reflexivity.
Defined.

Lemma extract_orientation_angles_witness :
  exists g,
    extract_orientation ten_hertz 0%nat [upright]
    = (Ok 1%nat, [upright] ++ [g]) /\
    num_at g "s1_pitch" 0 = Some 0 /\ num_at g "s1_roll" 0 = Some 0 /\
    num_at g "spine_curvature_magnitude" 0 = Some 0.
Proof.
  destruct (extract_orientation_angles ten_hertz [upright] 0%nat upright
              [0] [0] [98 / 10] [0] [0] [98 / 10]
              eq_refl ltac:(repeat constructor)
              eq_refl eq_refl eq_refl eq_refl eq_refl eq_refl)
    as (g & Hrun & _ & Hrows).
  destruct (Hrows 0%nat 0 0 (98 / 10) 0 0 (98 / 10)
              eq_refl eq_refl eq_refl eq_refl eq_refl eq_refl)
    as (_ & Hg1 & _ & Hsame).
  destruct (Hg1 eq_refl eq_refl ltac:(lra)) as (Hp & Hr).
  destruct (Hsame eq_refl eq_refl) as (_ & _ & Hm).
  exists g. repeat split; assumption.
Defined.

Lemma features_zero_where_samples_lack_witness :
  exists g,
    extract_advanced_features ten_hertz 0%nat [upright]
    = (Ok 1%nat, [upright] ++ [g]) /\
    num_at g "spine_stability" 0 = Some 0.
Proof.
  destruct (proj1 (features_zero_where_samples_lack ten_hertz [upright]
                     0%nat upright eq_refl))
    as (g & Hrun & Hzero).
  { cbn. lia. }
  exists g. split; [exact Hrun |].
  apply Hzero; cbn; [auto 10 | lia].
Defined.

Lemma cumulative_rotation_monotone_witness :
  exists g c1,
    extract_advanced_features ten_hertz 0%nat [ramp]
    = (Ok 1%nat, [ramp] ++ [g]) /\
    get_col "s1_cumulative_rotation" g = Some (NumCol c1) /\
    nondecreasing c1.
Proof.
  destruct (cumulative_rotation_monotone 10 50 ten_hertz [ramp] 0%nat ramp
              ramp_pitch rest rest rest rest rest rest rest rest
              eq_refl eq_refl ltac:(repeat constructor)
              eq_refl eq_refl eq_refl eq_refl eq_refl eq_refl eq_refl
              eq_refl eq_refl)
    as (g & c1 & c2 & Hrun & Hc1 & _ & _ & _ & _ & _ & Hmono & _).
  { cbn. lia. }
  exists g, c1. repeat split; assumption.
Defined.

Lemma classify_posture_realtime_rule_witness :
  exists g,
    classify_posture_realtime ten_hertz 0%nat [leaning]
    = (Ok 1%nat, [leaning] ++ [g]) /\
    nrows g = 2%nat.
Proof.
  destruct (classify_posture_realtime_rule ten_hertz [leaning] 0%nat leaning
              [25; 0] [0; 0] [0; 0] (Some [5 / 2; 5 / 2])
              eq_refl ltac:(repeat constructor)
              eq_refl eq_refl eq_refl eq_refl)
    as (g & Hrun & Hn & _).
  exists g. split; assumption.
Defined.

Lemma classify_without_stability_column_witness :
  get_col "spine_stability" leaning_angles_only = None /\
  exists g,
    classify_posture_realtime ten_hertz 0%nat [leaning_angles_only]
    = (Ok 1%nat, [leaning_angles_only] ++ [g]) /\
    nrows g = 2%nat.
Proof.
  split; [reflexivity |].
  destruct (classify_without_stability_column ten_hertz
              [leaning_angles_only] 0%nat leaning_angles_only
              [25; 0] [0; 0] [0; 0]
              eq_refl ltac:(repeat constructor)
              eq_refl eq_refl eq_refl eq_refl)
    as (g & Hrun & Hn & _).
  exists g. split; assumption.
Defined.

Lemma analyze_patterns_insufficient_iff_short_witness :
  exists rep,
    analyze_patterns ten_hertz 0%nat 5 [ramp] = (Ok rep, [ramp]) /\
    posture_distribution rep = None.
Proof.
  destruct (proj2 (analyze_patterns_insufficient_iff_short ten_hertz [ramp]
                     0%nat ramp 5 eq_refl))
    as (rep & Hrun & Hd & _).
  { cbn. lia. }
  exists rep. split; assumption.
Defined.

Lemma preprocess_data_raises_from_9_to_15_samples_witness :
  (9 <= nrows nine_samples <= 15)%nat /\
  fst (@preprocess_data passthrough ten_hertz 0%nat [nine_samples])
  = Raise (ValueError "The length of the input vector x must be greater than padlen").
Proof.
  split; [cbn; lia |].
  apply (@preprocess_data_raises_from_9_to_15_samples passthrough 10 50
           ten_hertz [nine_samples] 0%nat nine_samples).
  - reflexivity.
  - lia.
  - reflexivity.
  - intros c Hin. cbn in Hin.
    repeat (destruct Hin as [<- | Hin];
            [exists (repeat 0 9); split; reflexivity |]).
    contradiction.
  - cbn. lia.
Defined.

(* ================================================================= *)
(** * Further properties of the class *)

(* ----------------------------------------------------------------- *)
(** ** Stage by stage: what the copy holds, column by column *)

Ltac name_differs :=
  match goal with
  | |- context [String.eqb ?c ?k] =>
      destruct (String.eqb_spec c k) as [-> | _];
      [exfalso; cbn in *; tauto |]
  end.

Section OrientationShape.

Variables (self : t) (s : store) (df : ref) (f : DataFrame).
Variables x1 y1 z1 x2 y2 z2 : list R.

Hypothesis Hdf : lookup s df = Some f.
Hypothesis Hx1 : get_col "s1_accel_x" f = Some (NumCol x1).
Hypothesis Hy1 : get_col "s1_accel_y" f = Some (NumCol y1).
Hypothesis Hz1 : get_col "s1_accel_z" f = Some (NumCol z1).
Hypothesis Hx2 : get_col "s2_accel_x" f = Some (NumCol x2).
Hypothesis Hy2 : get_col "s2_accel_y" f = Some (NumCol y2).
Hypothesis Hz2 : get_col "s2_accel_z" f = Some (NumCol z2).
Hypothesis Lx1 : length x1 = nrows f.
Hypothesis Ly1 : length y1 = nrows f.
Hypothesis Lz1 : length z1 = nrows f.
Hypothesis Lx2 : length x2 = nrows f.
Hypothesis Ly2 : length y2 = nrows f.
Hypothesis Lz2 : length z2 = nrows f.

Lemma extract_orientation_shape :
  exists g,
    extract_orientation self df s = (Ok (length s), s ++ [g]) /\
    nrows g = nrows f /\
    (forall c, In c orientation_columns -> numeric g c) /\
    get_col "s1_pitch" g = Some (NumCol (pitch_of x1 y1 z1)) /\
    get_col "spine_pitch_curvature" g
    = Some (NumCol (Np.sub (pitch_of x1 y1 z1) (pitch_of x2 y2 z2))) /\
    get_col "spine_roll_curvature" g
    = Some (NumCol (Np.sub (roll_of y1 z1) (roll_of y2 z2))) /\
    (forall c, ~ In c orientation_columns -> get_col c g = get_col c f).
Proof.
  set (p1 := pitch_of x1 y1 z1). set (r1 := roll_of y1 z1).
  set (p2 := pitch_of x2 y2 z2). set (r2 := roll_of y2 z2).
  set (cp := Np.sub p1 p2). set (cr := Np.sub r1 r2).
  set (cm := Np.sqrt (Np.add (Np.square cp) (Np.square cr))).
  assert (Lp1 : length p1 = nrows f) by (apply length_pitch_of; assumption).
  assert (Lr1 : length r1 = nrows f) by (apply length_roll_of; assumption).
  assert (Lp2 : length p2 = nrows f) by (apply length_pitch_of; assumption).
  assert (Lr2 : length r2 = nrows f) by (apply length_roll_of; assumption).
  assert (Lcp : length cp = nrows f) by (apply length_map2; assumption).
  assert (Lcr : length cr = nrows f) by (apply length_map2; assumption).
  assert (Lcm : length cm = nrows f) by (apply length_magnitude; assumption).
  eexists. split.
  - unfold extract_orientation.
    rewrite (bind_ok _ _ _ _ _ (copy_run df s f Hdf)).
    run_get. run_get. run_get. run_set ltac:(exact Lp1).
    run_get. run_get. run_set ltac:(exact Lr1).
    run_get. run_get. run_get. run_set ltac:(exact Lp2).
    run_get. run_get. run_set ltac:(exact Lr2).
    run_get. run_get. run_set ltac:(exact Lcp).
    run_get. run_get. run_set ltac:(exact Lcr).
    run_get. run_get. run_set ltac:(exact Lcm).
    reflexivity.
  - split; [reflexivity |].
    split.
    { intros c Hc. unfold numeric. cbn [nrows set_col]. cbn in Hc.
      repeat (destruct Hc as [<- | Hc];
              [eexists; split; [solve_get | assumption] |]).
      contradiction. }
    split; [solve_get |]. split; [solve_get |]. split; [solve_get |].
    intros c Hc. rewrite !get_set. repeat name_differs. reflexivity.
Qed.

End OrientationShape.

Section FeaturesShape.

Variables (self : t) (s : store) (df : ref) (f : DataFrame).
Variables p1 p2 m gx1 gy1 gz1 gx2 gy2 gz2 : list R.

Hypothesis Hdf : lookup s df = Some f.
Hypothesis Hp1 : get_col "s1_pitch" f = Some (NumCol p1).
Hypothesis Hp2 : get_col "s2_pitch" f = Some (NumCol p2).
Hypothesis Hm : get_col "spine_curvature_magnitude" f = Some (NumCol m).
Hypothesis Hgx1 : get_col "s1_gyro_x" f = Some (NumCol gx1).
Hypothesis Hgy1 : get_col "s1_gyro_y" f = Some (NumCol gy1).
Hypothesis Hgz1 : get_col "s1_gyro_z" f = Some (NumCol gz1).
Hypothesis Hgx2 : get_col "s2_gyro_x" f = Some (NumCol gx2).
Hypothesis Hgy2 : get_col "s2_gyro_y" f = Some (NumCol gy2).
Hypothesis Hgz2 : get_col "s2_gyro_z" f = Some (NumCol gz2).
Hypothesis Lp1 : length p1 = nrows f.
Hypothesis Lp2 : length p2 = nrows f.
Hypothesis Lm : length m = nrows f.
Hypothesis Lgx1 : length gx1 = nrows f.
Hypothesis Lgy1 : length gy1 = nrows f.
Hypothesis Lgz1 : length gz1 = nrows f.
Hypothesis Lgx2 : length gx2 = nrows f.
Hypothesis Lgy2 : length gy2 = nrows f.
Hypothesis Lgz2 : length gz2 = nrows f.

Lemma extract_advanced_features_shape :
  exists g,
    extract_advanced_features self df s = (Ok (length s), s ++ [g]) /\
    nrows g = nrows f /\
    (forall c, In c feature_columns -> numeric g c) /\
    get_col "spine_stability" g
    = Some (NumCol
              (if (10 <=? window_samples self (nrows f))%Z
               then rolling_std (Z.to_nat (window_samples self (nrows f))) m
               else repeat 0 (nrows f))) /\
    (forall c, ~ In c feature_columns -> get_col c g = get_col c f).
Proof.
  destruct (Z.leb_spec 10 (window_samples self (nrows f))) as [Hw | Hw].
  - eexists. split.
    + unfold extract_advanced_features.
      rewrite (bind_ok _ _ _ _ _ (copy_run df s f Hdf)).
      erewrite bind_ok by (apply len_run; apply lookup_app_old; exact Hdf).
      destruct (Z.leb_spec 10 (window_samples self (nrows f))) as [_ | Hlt];
        [| lia].
      erewrite bind_ok.
      2:{ run_get_input Hdf.
          run_set ltac:(rewrite length_rolling_std; exact Lp1).
          run_get_input Hdf.
          run_set ltac:(rewrite length_rolling_std; exact Lp2).
          run_get_input Hdf.
          run_set ltac:(rewrite length_rolling_std; exact Lm).
          run_get_input Hdf.
          run_set ltac:(rewrite length_velocity; exact Lp1).
          run_get_input Hdf.
          run_set ltac:(rewrite length_velocity; exact Lp2).
          run_get.
          run_set ltac:(rewrite length_acceleration, length_velocity;
                        exact Lp1).
          run_get.
          run_set ltac:(rewrite length_acceleration, length_velocity;
                        exact Lp2).
          run_get_input Hdf. run_get_input Hdf. run_get_input Hdf.
          run_set ltac:(apply length_cumulative_rotation; assumption).
          run_get_input Hdf. run_get_input Hdf. run_get_input Hdf.
          eapply setitem_run; [apply lookup_app_new |].
          cbn [col_len nrows set_col].
          apply length_cumulative_rotation; assumption. }
      rewrite update_app_new. reflexivity.
    + split; [reflexivity |].
      split.
      { intros c Hc. unfold numeric. cbn [nrows set_col]. cbn in Hc.
        repeat (destruct Hc as [<- | Hc];
                [eexists; split; [solve_get |];
                 rewrite ?length_rolling_std, ?length_acceleration,
                   ?length_velocity;
                 first [assumption
                       | apply length_cumulative_rotation; assumption] |]).
        contradiction. }
      split; [solve_get |].
      intros c Hc. rewrite !get_set. repeat name_differs. reflexivity.
  - eexists. split.
    + unfold extract_advanced_features.
      rewrite (bind_ok _ _ _ _ _ (copy_run df s f Hdf)).
      erewrite bind_ok by (apply len_run; apply lookup_app_old; exact Hdf).
      destruct (Z.leb_spec 10 (window_samples self (nrows f))) as [Hge | _];
        [lia |].
      unfold feature_columns. cbn [for_each].
      erewrite bind_ok.
      2:{ do 9 (erewrite bind_ok
                  by (apply setitem_num_run; apply lookup_app_new);
                rewrite update_app_new).
          reflexivity. }
      reflexivity.
    + split; [reflexivity |].
      split.
      { intros c Hc. unfold numeric. cbn [nrows set_col]. cbn in Hc.
        repeat (destruct Hc as [<- | Hc];
                [eexists; split; [solve_get | apply repeat_length] |]).
        contradiction. }
      split; [solve_get |].
      intros c Hc. rewrite !get_set. repeat name_differs. reflexivity.
Qed.

End FeaturesShape.

Section ClassifierAligned.

Variables (self : t) (s : store) (df : ref) (f : DataFrame).
Variables (p pc rc : list R) (stab : option (list R)).

Hypothesis Hdf : lookup s df = Some f.
Hypothesis Hp : get_col "s1_pitch" f = Some (NumCol p).
Hypothesis Hpc : get_col "spine_pitch_curvature" f = Some (NumCol pc).
Hypothesis Hrc : get_col "spine_roll_curvature" f = Some (NumCol rc).
Hypothesis Hstab : get_col "spine_stability" f = option_map NumCol stab.
Hypothesis Lp : length p = nrows f.
Hypothesis Lpc : length pc = nrows f.
Hypothesis Lrc : length rc = nrows f.
Hypothesis Lstab : forall ss, stab = Some ss -> length ss = nrows f.

(** The classifier on a frame whose four input columns are aligned with
    its rows. *)
Lemma classify_posture_realtime_aligned :
  exists g,
    classify_posture_realtime self df s = (Ok (length s), s ++ [g]) /\
    classified_upto (thresholds self) f p pc rc stab (nrows f) g.
Proof.
  set (g0 := set_col "confidence" (NumCol (repeat 0 (nrows f)))
               (set_col "severity_score" (NumCol (repeat 0 (nrows f)))
                  (set_col "posture_label"
                     (StrCol (repeat "unknown" (nrows f))) f))).
  assert (Hinv : classified_upto (thresholds self) f p pc rc stab 0 g0).
  { subst g0. unfold classified_upto. cbn [nrows set_col].
    split; [reflexivity |].
    split; [solve_get |]. split; [solve_get |]. split; [solve_get |].
    split; [rewrite !get_set; eval_names; exact Hstab |].
    exists (repeat "unknown" (nrows f)), (repeat 0 (nrows f)),
      (repeat 0 (nrows f)).
    split; [solve_get |]. split; [solve_get |]. split; [solve_get |].
    rewrite !repeat_length. repeat split; try reflexivity.
    all: lia. }
  destruct (classify_rows_run self f p pc rc stab Lp Lpc Lrc Lstab
              (nrows f) (length s) (s ++ [g0]) g0 0%nat
              (lookup_app_new s g0) eq_refl Hinv)
    as (g & Hloop & Hdone).
  exists g. split; [| exact Hdone].
  unfold classify_posture_realtime.
  rewrite (bind_ok _ _ _ _ _ (copy_run df s f Hdf)).
  erewrite bind_ok by (apply setitem_str_run; apply lookup_app_new).
  rewrite update_app_new.
  erewrite bind_ok by (apply setitem_num_run; apply lookup_app_new).
  rewrite update_app_new.
  erewrite bind_ok by (apply setitem_num_run; apply lookup_app_new).
  rewrite update_app_new. cbn [nrows set_col]. fold g0.
  erewrite bind_ok by (apply len_run; apply lookup_app_new).
  replace (nrows g0) with (nrows f) by reflexivity.
  erewrite bind_ok by exact Hloop.
  rewrite update_app_new. reflexivity.
Qed.

End ClassifierAligned.

(* ----------------------------------------------------------------- *)
(** ** The four stages in a row *)

Section FourStages.

Context `{SciPy}.

Variables (sr ws : Z) (self : t) (s : store) (df : ref) (f : DataFrame).
Hypothesis Hinit : init sr ws = Ok self.
Hypothesis Hdf : lookup s df = Some f.
Hypothesis Hnum : forall c, In c filtered_columns -> numeric f c.
Hypothesis Hcase : (sr <= 6)%Z \/ (nrows f <= 8)%nat \/ (16 <= nrows f)%nat.

Lemma numeric_kept (g g' : DataFrame) (c : string) :
  nrows g' = nrows g -> get_col c g' = get_col c g ->
  numeric g c -> numeric g' c.
Proof.
  intros Hn Hc (xs & Hx & Lx). exists xs. rewrite Hc, Hn. auto.
Qed.

Lemma four_stages_run :
  exists g1 g2 g3 g4 p pc rc m,
    preprocess_data self df s = (Ok (length s), s ++ [g1]) /\
    extract_orientation self (length s) (s ++ [g1])
    = (Ok (S (length s)), s ++ [g1; g2]) /\
    extract_advanced_features self (S (length s)) (s ++ [g1; g2])
    = (Ok (S (S (length s))), s ++ [g1; g2; g3]) /\
    classify_posture_realtime self (S (S (length s))) (s ++ [g1; g2; g3])
    = (Ok (S (S (S (length s)))), s ++ [g1; g2; g3; g4]) /\
    nrows g1 = nrows f /\ nrows g2 = nrows f /\ nrows g3 = nrows f /\
    get_col "spine_curvature_magnitude" g2 = Some (NumCol m) /\
    get_col "spine_curvature_magnitude" g3 = Some (NumCol m) /\
    length m = nrows f /\ length p = nrows f /\
    classified_upto (thresholds self) g3 p pc rc
      (Some (if (10 <=? window_samples self (nrows f))%Z
             then rolling_std (Z.to_nat (window_samples self (nrows f))) m
             else repeat 0 (nrows f)))
      (nrows f) g4.
Proof.
  (* Level 1 *)
  destruct (preprocess_data_keeps_length sr ws self s df f Hinit Hdf
              Hnum Hcase) as (g1 & Hrun1 & Hn1 & Hnum1).
  assert (Hcol1 : forall c, In c filtered_columns ->
            exists xs, get_col c g1 = Some (NumCol xs)
                       /\ length xs = nrows g1).
  { intros c Hc. apply Hnum1, Hc. }
  destruct (Hcol1 "s1_accel_x") as (x1 & Hx1 & Lx1); [cbn; auto 15 |].
  destruct (Hcol1 "s1_accel_y") as (y1 & Hy1 & Ly1); [cbn; auto 15 |].
  destruct (Hcol1 "s1_accel_z") as (z1 & Hz1 & Lz1); [cbn; auto 15 |].
  destruct (Hcol1 "s2_accel_x") as (x2 & Hx2 & Lx2); [cbn; auto 15 |].
  destruct (Hcol1 "s2_accel_y") as (y2 & Hy2 & Ly2); [cbn; auto 15 |].
  destruct (Hcol1 "s2_accel_z") as (z2 & Hz2 & Lz2); [cbn; auto 15 |].
  (* Level 2, orientation *)
  destruct (extract_orientation_shape self (s ++ [g1]) (length s) g1
              x1 y1 z1 x2 y2 z2 (lookup_app_new s g1)
              Hx1 Hy1 Hz1 Hx2 Hy2 Hz2 Lx1 Ly1 Lz1 Lx2 Ly2 Lz2)
    as (g2 & Hrun2 & Hn2 & Hnew2 & Gp & Gpc & Grc & Hold2).
  rewrite length_app, Nat.add_1_r, <- app_assoc in Hrun2. cbn [app] in Hrun2.
  destruct (Hnew2 "s2_pitch") as (p2 & Hp2 & Lp2); [cbn; auto 15 |].
  destruct (Hnew2 "spine_curvature_magnitude") as (m & Hm & Lm);
    [cbn; auto 15 |].
  destruct (Hnew2 "s1_pitch") as (p1 & Hp1 & Lp1); [cbn; auto 15 |].
  destruct (Hnew2 "spine_pitch_curvature") as (pc & Hpc & Lpc);
    [cbn; auto 15 |].
  destruct (Hnew2 "spine_roll_curvature") as (rc & Hrc & Lrc);
    [cbn; auto 15 |].
  assert (Hgyro : forall c, In c gyro_columns ->
            exists xs, get_col c g2 = Some (NumCol xs)
                       /\ length xs = nrows g2).
  { intros c Hc.
    destruct (Hcol1 c (gyro_in_filtered c Hc)) as (xs & Hx & Lx).
    exists xs. split; [| lia]. rewrite Hold2; [exact Hx |].
    cbn in Hc |- *. intros Hin.
    repeat (destruct Hc as [<- | Hc];
            [repeat (destruct Hin as [Hin | Hin]; [discriminate |]);
             contradiction |]).
    contradiction. }
  destruct (Hgyro "s1_gyro_x") as (gx1 & Hgx1 & Lgx1); [cbn; auto 15 |].
  destruct (Hgyro "s1_gyro_y") as (gy1 & Hgy1 & Lgy1); [cbn; auto 15 |].
  destruct (Hgyro "s1_gyro_z") as (gz1 & Hgz1 & Lgz1); [cbn; auto 15 |].
  destruct (Hgyro "s2_gyro_x") as (gx2 & Hgx2 & Lgx2); [cbn; auto 15 |].
  destruct (Hgyro "s2_gyro_y") as (gy2 & Hgy2 & Lgy2); [cbn; auto 15 |].
  destruct (Hgyro "s2_gyro_z") as (gz2 & Hgz2 & Lgz2); [cbn; auto 15 |].
  (* Level 2, features *)
  assert (Hl2 : lookup (s ++ [g1; g2]) (S (length s)) = Some g2).
  { replace (s ++ [g1; g2]) with ((s ++ [g1]) ++ [g2])
      by (rewrite <- app_assoc; reflexivity).
    replace (S (length s)) with (length (s ++ [g1]))
      by (rewrite length_app; cbn; lia).
    apply lookup_app_new. }
  destruct (extract_advanced_features_shape self (s ++ [g1; g2])
              (S (length s)) g2 p1 p2 m gx1 gy1 gz1 gx2 gy2 gz2 Hl2
              Hp1 Hp2 Hm Hgx1 Hgy1 Hgz1 Hgx2 Hgy2 Hgz2
              Lp1 Lp2 Lm Lgx1 Lgy1 Lgz1 Lgx2 Lgy2 Lgz2)
    as (g3 & Hrun3 & Hn3 & Hnew3 & Gst & Hold3).
  assert (Hlen2 : length (s ++ [g1; g2]) = S (S (length s)))
    by (rewrite length_app; cbn; lia).
  rewrite Hlen2, <- app_assoc in Hrun3. cbn [app] in Hrun3.
  (* Level 3 *)
  assert (Hl3 : lookup (s ++ [g1; g2; g3]) (S (S (length s))) = Some g3).
  { replace (s ++ [g1; g2; g3]) with ((s ++ [g1; g2]) ++ [g3])
      by (rewrite <- app_assoc; reflexivity).
    rewrite <- Hlen2. apply lookup_app_new. }
  assert (Hkeep : forall c, In c ["s1_pitch"; "spine_pitch_curvature";
                                  "spine_roll_curvature"] ->
            get_col c g3 = get_col c g2).
  { intros c Hc. apply Hold3. cbn in Hc |- *. intros Hin.
    repeat (destruct Hc as [<- | Hc];
            [repeat (destruct Hin as [Hin | Hin]; [discriminate |]);
             contradiction |]).
    contradiction. }
  set (ss := if (10 <=? window_samples self (nrows f))%Z
             then rolling_std (Z.to_nat (window_samples self (nrows f))) m
             else repeat 0 (nrows f)).
  assert (Gst' : get_col "spine_stability" g3 = option_map NumCol (Some ss)).
  { rewrite Gst, Hn2, Hn1. reflexivity. }
  assert (Lss : forall x, Some ss = Some x -> length x = nrows g3).
  { intros x E. inversion E; subst x. subst ss.
    destruct (10 <=? window_samples self (nrows f))%Z.
    - rewrite length_rolling_std. lia.
    - rewrite repeat_length. lia. }
  destruct (classify_posture_realtime_aligned self (s ++ [g1; g2; g3])
              (S (S (length s))) g3 p1 pc rc (Some ss) Hl3)
    as (g4 & Hrun4 & Hdone); try lia; try exact Gst'; try exact Lss.
  { rewrite Hkeep by (cbn; auto). exact Hp1. }
  { rewrite Hkeep by (cbn; auto). exact Hpc. }
  { rewrite Hkeep by (cbn; auto). exact Hrc. }
  assert (Hlen3 : length (s ++ [g1; g2; g3]) = S (S (S (length s))))
    by (rewrite length_app; cbn; lia).
  rewrite Hlen3, <- app_assoc in Hrun4. cbn [app] in Hrun4.
  exists g1, g2, g3, g4, p1, pc, rc, m.
  split; [exact Hrun1 |]. split; [exact Hrun2 |]. split; [exact Hrun3 |].
  split; [exact Hrun4 |].
  split; [exact Hn1 |]. split; [lia |]. split; [lia |].
  split; [exact Hm |].
  split.
  { rewrite Hold3; [exact Hm |]. cbn. intros Hin.
    repeat (destruct Hin as [Hin | Hin]; [discriminate |]).
    contradiction. }
  split; [lia |]. split; [lia |].
  assert (E3 : nrows g3 = nrows f) by lia.
  rewrite E3 in Hdone. exact Hdone.
Qed.

End FourStages.

(* ----------------------------------------------------------------- *)
(** ** The columns a stage touches *)

Section ColumnFootprint.

Variables (r : ref) (cols : list string).

Lemma touches_nothing {A} (m : M A) :
  (forall s, snd (m s) = s) -> touches_columns r cols m.
Proof.
  intros Hm s g Hr. exists g. rewrite Hm. auto.
Qed.

Lemma touches_ret {A} (a : A) : touches_columns r cols (ret a).
Proof. apply touches_nothing. reflexivity. Qed.

Lemma touches_raise {A} (e : exn) : touches_columns r cols (@raise A e).
Proof. apply touches_nothing. reflexivity. Qed.

Lemma touches_lift {A} (x : result A) : touches_columns r cols (lift x).
Proof. destruct x; [apply touches_ret | apply touches_raise]. Qed.

Lemma touches_read (r0 : ref) : touches_columns r cols (read r0).
Proof.
  apply touches_nothing. intros s. unfold read.
  destruct (lookup s r0); reflexivity.
Qed.

Lemma touches_bind {A B} (m : M A) (k : A -> M B) :
  touches_columns r cols m -> (forall a, touches_columns r cols (k a)) ->
  touches_columns r cols (bind m k).
Proof.
  intros Hm Hk s g Hr. unfold bind.
  destruct (Hm s g Hr) as (g1 & Hr1 & Hn1 & Hc1).
  destruct (m s) as [[a | e] s1]; cbn in *.
  - destruct (Hk a s1 g1 Hr1) as (g2 & Hr2 & Hn2 & Hc2).
    exists g2. split; [exact Hr2 |]. split; [congruence |].
    intros c Hc. rewrite Hc2, Hc1; auto.
  - exists g1. auto.
Qed.

Lemma touches_for_each {A} (xs : list A) (body : A -> M unit) :
  (forall x, touches_columns r cols (body x)) ->
  touches_columns r cols (for_each xs body).
Proof.
  intros Hb. induction xs as [| x xs IH]; cbn.
  - apply touches_ret.
  - apply touches_bind; [apply Hb | intros _; exact IH].
Qed.

(** Writing column [c] of the frame behind [r]. *)
Lemma touches_write (c : string) (v : column) (g : DataFrame) (s : store) :
  In c cols -> lookup s r = Some g ->
  exists g',
    lookup (snd (write r (set_col c v g) s)) r = Some g' /\
    nrows g' = nrows g /\
    forall c', ~ In c' cols -> get_col c' g' = get_col c' g.
Proof.
  intros Hc Hr. exists (set_col c v g). split; [| split].
  - cbn. eapply lookup_update_same. exact Hr.
  - reflexivity.
  - intros c' Hc'. apply get_set_other. intros ->. contradiction.
Qed.

Ltac touch_write Hc :=
  match goal with
  | Hr : lookup ?s r = Some ?g |- _ =>
      first [ exact (touches_write _ _ g s Hc Hr)
            | exists g; cbn; auto ]
  end.

Lemma touches_setitem (c : string) (v : column) :
  In c cols -> touches_columns r cols (setitem r c v).
Proof.
  intros Hc s g Hr. unfold setitem.
  rewrite (bind_ok _ _ _ _ _ (read_run _ _ _ Hr)).
  destruct (Nat.eqb (col_len v) (nrows g)); touch_write Hc.
Qed.

Lemma touches_setitem_num (c : string) (x : R) :
  In c cols -> touches_columns r cols (setitem_num r c x).
Proof.
  intros Hc s g Hr. unfold setitem_num.
  rewrite (bind_ok _ _ _ _ _ (read_run _ _ _ Hr)). touch_write Hc.
Qed.

Lemma touches_setitem_str (c : string) (x : string) :
  In c cols -> touches_columns r cols (setitem_str r c x).
Proof.
  intros Hc s g Hr. unfold setitem_str.
  rewrite (bind_ok _ _ _ _ _ (read_run _ _ _ Hr)). touch_write Hc.
Qed.

Lemma touches_loc_assign (mask : list bool) (c : string) (v : NaN.float) :
  In c cols -> touches_columns r cols (loc_assign r mask c v).
Proof.
  intros Hc s g Hr. unfold loc_assign.
  rewrite (bind_ok _ _ _ _ _ (read_run _ _ _ Hr)).
  destruct (get_col c g) as [[xs | xs] |]; [destruct v | |]; touch_write Hc.
Qed.

Lemma touches_iloc_set_num (i : nat) (c : string) (x : R) :
  In c cols -> touches_columns r cols (iloc_set_num r i c x).
Proof.
  intros Hc s g Hr. unfold iloc_set_num.
  rewrite (bind_ok _ _ _ _ _ (read_run _ _ _ Hr)).
  destruct (get_col c g) as [[xs | xs] |]; [destruct (set_nth i x xs) | |];
    touch_write Hc.
Qed.

Lemma touches_iloc_set_str (i : nat) (c : string) (x : string) :
  In c cols -> touches_columns r cols (iloc_set_str r i c x).
Proof.
  intros Hc s g Hr. unfold iloc_set_str.
  rewrite (bind_ok _ _ _ _ _ (read_run _ _ _ Hr)).
  destruct (get_col c g) as [[xs | xs] |]; [| destruct (set_nth i x xs) |];
    touch_write Hc.
Qed.

Lemma touches_len (r0 : ref) : touches_columns r cols (len r0).
Proof.
  unfold len. apply touches_bind; [apply touches_read |].
  intros a. apply touches_ret.
Qed.

Lemma touches_has_column (r0 : ref) (c : string) :
  touches_columns r cols (has_column r0 c).
Proof.
  unfold has_column. apply touches_bind; [apply touches_read |].
  intros a. apply touches_ret.
Qed.

Lemma touches_getitem_num (r0 : ref) (c : string) :
  touches_columns r cols (getitem_num r0 c).
Proof.
  unfold getitem_num. apply touches_bind; [apply touches_read |].
  intros a. destruct (get_col c a) as [[xs | xs] |];
    first [apply touches_ret | apply touches_raise].
Qed.

Lemma touches_iloc_num (r0 : ref) (i : nat) (c : string) :
  touches_columns r cols (iloc_num r0 i c).
Proof.
  unfold iloc_num. apply touches_bind; [apply touches_read |].
  intros a. destruct (Nat.ltb i (nrows a)); [| apply touches_raise].
  destruct (get_col c a) as [[xs | xs] |]; try apply touches_raise.
  destruct (nth_error xs i); [apply touches_ret | apply touches_raise].
Qed.

End ColumnFootprint.

Section StageColumns.

Context `{SciPy}.

Lemma touches_for_each_in {A} (r : ref) (cols : list string) (xs : list A)
    (body : A -> M unit) :
  (forall x, In x xs -> touches_columns r cols (body x)) ->
  touches_columns r cols (for_each xs body).
Proof.
  induction xs as [| x xs IH]; intros Hb; cbn.
  - apply touches_ret.
  - apply touches_bind; [apply Hb; left; reflexivity |].
    intros _. apply IH. intros y Hy. apply Hb. right. exact Hy.
Qed.

Lemma copy_then_touch {A} (df : ref) (body : ref -> M A) (cols : list string)
    (s : store) (f : DataFrame) :
  lookup s df = Some f ->
  (forall d, touches_columns d cols (body d)) ->
  exists g,
    lookup (snd (bind (copy df) body s)) (length s) = Some g /\
    nrows g = nrows f /\
    forall c, ~ In c cols -> get_col c g = get_col c f.
Proof.
  intros Hdf Hbody.
  rewrite (bind_ok _ _ _ _ _ (copy_run df s f Hdf)).
  apply (Hbody (length s) (s ++ [f]) f). apply lookup_app_new.
Qed.

Lemma remove_outliers_touches (d : ref) (col : string) :
  In col filtered_columns ->
  touches_columns d filtered_columns (remove_outliers d col).
Proof.
  intros Hc. unfold remove_outliers.
  apply touches_bind; [apply touches_getitem_num |].
  intros xs. apply touches_loc_assign. exact Hc.
Qed.

Lemma lowpass_touches (b a : list R) (self : t) (d : ref) (col : string) :
  In col filtered_columns ->
  touches_columns d filtered_columns (lowpass b a self d col).
Proof.
  intros Hc. unfold lowpass.
  apply touches_bind; [apply touches_len |]. intros n.
  destruct (2 * order (filter_params self) <? n)%nat; [| apply touches_ret].
  apply touches_bind; [apply touches_getitem_num |]. intros xs.
  apply touches_bind; [apply touches_lift |]. intros ys.
  apply touches_setitem. exact Hc.
Qed.

Lemma smooth_gyro_touches (d : ref) (col : string) :
  In col filtered_columns ->
  touches_columns d filtered_columns (smooth_gyro d col).
Proof.
  intros Hc. unfold smooth_gyro.
  apply touches_bind; [apply touches_getitem_num |]. intros xs.
  apply touches_bind; [apply touches_len |]. intros n.
  apply touches_bind; [apply touches_lift |]. intros ys.
  apply touches_setitem. exact Hc.
Qed.

End StageColumns.

Ltac stage_columns :=
  cbv zeta;
  repeat first
    [ apply touches_len
    | apply touches_has_column
    | apply touches_getitem_num
    | apply touches_iloc_num
    | apply touches_setitem; cbn; solve [auto 15]
    | apply touches_setitem_num; cbn; solve [auto 15]
    | apply touches_setitem_str; cbn; solve [auto 15]
    | apply touches_iloc_set_num; cbn; solve [auto 15]
    | apply touches_iloc_set_str; cbn; solve [auto 15]
    | apply touches_ret
    | apply touches_raise
    | apply touches_lift
    | apply touches_for_each; intros ?
    | apply touches_bind; [| intros ?]
    | match goal with
      | |- touches_columns _ _ (if ?b then _ else _) => destruct b
      | |- touches_columns _ _ (match ?x with _ => _ end) => destruct x
      end ].

(** Each stage hands back its input with columns of its own added or
    rewritten: whether it returns or raises, the copy it works on keeps the
    row count and every column outside the stage's own list exactly as the
    input has it (the twelve sensor columns for the preprocessor, the
    seven orientation columns, the nine feature columns, the three
    classification columns). *)
Theorem stages_touch_own_columns_only `{SciPy} (self : t) (df : ref)
    (s : store) (f : DataFrame) :
  lookup s df = Some f ->
  let kept (cols : list string) (s' : store) :=
    exists g,
      lookup s' (length s) = Some g /\ nrows g = nrows f /\
      forall c, ~ In c cols -> get_col c g = get_col c f in
  kept filtered_columns (snd (preprocess_data self df s)) /\
  kept orientation_columns (snd (extract_orientation self df s)) /\
  kept feature_columns (snd (extract_advanced_features self df s)) /\
  kept classification_columns (snd (classify_posture_realtime self df s)).
Proof.
  intros Hdf kept. subst kept. cbv beta. repeat split.
  - unfold preprocess_data. apply (copy_then_touch df _ _ s f Hdf).
    intros d. cbv zeta.
    apply touches_bind.
    { apply touches_for_each_in. intros c Hc.
      apply remove_outliers_touches, accel_in_filtered, Hc. }
    intros _. apply touches_bind.
    { destruct (Rlt_dec _ _); [| apply touches_ret].
      apply touches_bind; [apply touches_lift |]. intros ba.
      apply touches_for_each_in. intros c Hc.
      apply lowpass_touches, Hc. }
    intros _. apply touches_bind; [apply touches_len |]. intros n.
    apply touches_bind; [| intros _; apply touches_ret].
    destruct (5 <=? n)%nat; [| apply touches_ret].
    apply touches_for_each_in. intros c Hc.
    apply smooth_gyro_touches, gyro_in_filtered, Hc.
  - unfold extract_orientation. apply (copy_then_touch df _ _ s f Hdf).
    intros d. stage_columns.
  - unfold extract_advanced_features.
    apply (copy_then_touch df _ _ s f Hdf). intros d. cbv zeta.
    apply touches_bind; [apply touches_len |]. intros n.
    apply touches_bind; [| intros _; apply touches_ret].
    destruct (10 <=? window_samples self n)%Z.
    + stage_columns.
    + apply touches_for_each_in. intros c Hc.
      apply touches_setitem_num. exact Hc.
  - unfold classify_posture_realtime.
    apply (copy_then_touch df _ _ s f Hdf). intros d.
    unfold classify_row. stage_columns.
Qed.

(* ----------------------------------------------------------------- *)
(** ** Label counts and the posture distribution *)

Section ValueCounts.

Lemma keys_count_add_old (k : string) (l : list (string * nat)) :
  In k (keys l) -> keys (Series.count_add k l) = keys l.
Proof.
  unfold keys. induction l as [| [k0 n0] l IH]; cbn; [contradiction |].
  intros Hin. destruct (String.eqb_spec k k0) as [-> | Hne]; cbn.
  - reflexivity.
  - f_equal. apply IH. destruct Hin as [E | Hin]; [| exact Hin].
    symmetry in E. contradiction.
Qed.

Lemma keys_count_add_new (k : string) (l : list (string * nat)) :
  ~ In k (keys l) -> keys (Series.count_add k l) = keys l ++ [k].
Proof.
  unfold keys. induction l as [| [k0 n0] l IH]; cbn; [reflexivity |].
  intros Hout. destruct (String.eqb_spec k k0) as [-> | Hne]; cbn.
  - exfalso. apply Hout. left. reflexivity.
  - f_equal. apply IH. intros Hin. apply Hout. right. exact Hin.
Qed.

Lemma nodup_count_add (k : string) (l : list (string * nat)) :
  NoDup (keys l) -> NoDup (keys (Series.count_add k l)).
Proof.
  intros Hnd.
  destruct (in_dec string_dec k (keys l)) as [Hin | Hout].
  - rewrite keys_count_add_old by exact Hin. exact Hnd.
  - rewrite keys_count_add_new by exact Hout.
    apply NoDup_app; [exact Hnd | constructor; [intros [] | constructor] |].
    intros x Hx [<- | []]. contradiction.
Qed.

Lemma nodup_value_counts_from (xs : list string) (acc : list (string * nat)) :
  NoDup (keys acc) ->
  NoDup (keys (fold_left (fun a k => Series.count_add k a) xs acc)).
Proof.
  revert acc. induction xs as [| x xs IH]; intros acc Hnd; cbn.
  - exact Hnd.
  - apply IH, nodup_count_add, Hnd.
Qed.

(** [value_counts] lists each label once. *)
Lemma nodup_value_counts (xs : list string) :
  NoDup (keys (Series.value_counts xs)).
Proof. apply nodup_value_counts_from. constructor. Qed.

Lemma counted_count_add (k : string) (l : list (string * nat)) :
  counted (Series.count_add k l) = S (counted l).
Proof.
  unfold counted. induction l as [| [k0 n0] l IH]; cbn.
  - reflexivity.
  - destruct (String.eqb k k0); cbn; [reflexivity |].
    rewrite IH. lia.
Qed.

Lemma counted_value_counts_from (xs : list string)
    (acc : list (string * nat)) :
  counted (fold_left (fun a k => Series.count_add k a) xs acc)
  = (counted acc + length xs)%nat.
Proof.
  revert acc. induction xs as [| x xs IH]; intros acc; cbn [fold_left length].
  - lia.
  - rewrite IH, counted_count_add. lia.
Qed.

(** The counts of [value_counts] add up to the number of entries. *)
Lemma counted_value_counts (xs : list string) :
  counted (Series.value_counts xs) = length xs.
Proof. apply counted_value_counts_from. Qed.

End ValueCounts.

Section Percentages.

Lemma assoc_set_fresh {V} (k : string) (v : V) (l : list (string * V)) :
  ~ In k (keys l) -> assoc_set k v l = l ++ [(k, v)].
Proof.
  unfold keys. induction l as [| [k0 v0] l IH]; cbn; [reflexivity |].
  intros Hout. destruct (String.eqb_spec k k0) as [-> | Hne].
  - exfalso. apply Hout. left. reflexivity.
  - f_equal. apply IH. intros Hin. apply Hout. right. exact Hin.
Qed.

Lemma fold_assoc_set_distinct {V W} (h : W -> V) (l : list (string * W))
    (acc : list (string * V)) :
  NoDup (keys l) -> (forall k, In k (keys l) -> ~ In k (keys acc)) ->
  fold_left (fun a pc => assoc_set (fst pc) (h (snd pc)) a) l acc
  = acc ++ map (fun pc => (fst pc, h (snd pc))) l.
Proof.
  revert acc. induction l as [| [k w] l IH]; intros acc Hnd Hdis; cbn.
  - rewrite app_nil_r. reflexivity.
  - inversion Hnd as [| ? ? Hk Hnd']; subst.
    rewrite assoc_set_fresh by (apply Hdis; left; reflexivity).
    rewrite IH.
    + rewrite <- app_assoc. reflexivity.
    + exact Hnd'.
    + intros k' Hk' Hin. unfold keys in Hin. rewrite map_app, in_app_iff in Hin.
      destruct Hin as [Hin | [<- | []]].
      * apply (Hdis k'); [right; exact Hk' | exact Hin].
      * contradiction.
Qed.

(** The distribution lists every label of the window once, with the share
    of the rows that carry it. *)
Lemma percentages_spec (labels : list string) :
  percentages labels (length labels)
  = map (fun pc => (fst pc, INR (snd pc) / INR (length labels) * 100))
        (Series.value_counts labels).
Proof.
  unfold percentages.
  rewrite (fold_assoc_set_distinct
             (fun c => INR c / INR (length labels) * 100)).
  - reflexivity.
  - apply nodup_value_counts.
  - intros k _ [].
Qed.

End Percentages.

Section LabelShares.

Lemma assoc_get_count_add (k k' : string) (l : list (string * nat)) :
  match assoc_get k (Series.count_add k' l) with Some n => n | None => 0%nat end
  = (match assoc_get k l with Some n => n | None => 0%nat end
     + if string_dec k' k then 1 else 0)%nat.
Proof.
  destruct (string_dec k' k) as [<- | Hd].
  - induction l as [| [k0 n0] l IH]; cbn.
    + rewrite String.eqb_refl. reflexivity.
    + destruct (String.eqb_spec k' k0) as [-> | Hne]; cbn.
      * rewrite String.eqb_refl. lia.
      * destruct (String.eqb_spec k' k0); [contradiction | exact IH].
  - assert (Hkk : String.eqb k k' = false).
    { apply String.eqb_neq. intros E. apply Hd. symmetry. exact E. }
    induction l as [| [k0 n0] l IH]; cbn.
    + rewrite Hkk. reflexivity.
    + destruct (String.eqb_spec k' k0) as [-> | Hne]; cbn.
      * rewrite Hkk. lia.
      * destruct (String.eqb k k0); [lia | exact IH].
Qed.

Lemma assoc_get_value_counts_from (k : string) (xs : list string)
    (acc : list (string * nat)) :
  match assoc_get k (fold_left (fun a x => Series.count_add x a) xs acc)
  with Some n => n | None => 0%nat end
  = (match assoc_get k acc with Some n => n | None => 0%nat end
     + count_occ string_dec xs k)%nat.
Proof.
  revert acc. induction xs as [| x xs IH]; intros acc;
    cbn [fold_left count_occ].
  - lia.
  - rewrite IH, assoc_get_count_add.
    destruct (string_dec x k); lia.
Qed.

(** Looking a label up in [value_counts] gives its number of
    occurrences. *)
Lemma assoc_get_value_counts (k : string) (xs : list string) :
  match assoc_get k (Series.value_counts xs) with
  | Some n => n
  | None => 0%nat
  end = count_occ string_dec xs k.
Proof. apply (assoc_get_value_counts_from k xs []). Qed.

Lemma assoc_get_map_values {V W} (h : V -> W) (k : string)
    (l : list (string * V)) :
  assoc_get k (map (fun pc => (fst pc, h (snd pc))) l)
  = option_map h (assoc_get k l).
Proof.
  induction l as [| [k0 v0] l IH]; cbn; [reflexivity |].
  destruct (String.eqb k k0); [reflexivity | exact IH].
Qed.

(** [posture_dist.get(label, 0)] is the share of the rows that carry the
    label, in percent. *)
Lemma percentages_get (labels : list string) (label : string) :
  get (percentages labels (length labels)) label 0
  = INR (count_occ string_dec labels label) / INR (length labels) * 100.
Proof.
  unfold get. rewrite percentages_spec.
  rewrite (assoc_get_map_values
             (fun c => INR c / INR (length labels) * 100)).
  rewrite <- assoc_get_value_counts.
  destruct (assoc_get label (Series.value_counts labels)) as [n |]; cbn.
  - reflexivity.
  - unfold Rdiv. ring.
Qed.

Lemma keys_percentages (labels : list string) :
  keys (percentages labels (length labels))
  = keys (Series.value_counts labels).
Proof.
  rewrite percentages_spec. unfold keys. rewrite map_map. reflexivity.
Qed.

Lemma in_keys_count_add (x k : string) (l : list (string * nat)) :
  In x (keys (Series.count_add k l)) <-> x = k \/ In x (keys l).
Proof.
  destruct (in_dec string_dec k (keys l)) as [Hin | Hout].
  - rewrite keys_count_add_old by exact Hin. split; [auto |].
    intros [-> | H]; assumption.
  - rewrite keys_count_add_new by exact Hout. rewrite in_app_iff. cbn.
    split.
    + intros [H | [<- | []]]; auto.
    + intros [-> | H]; auto.
Qed.

Lemma in_keys_value_counts_from (x : string) (xs : list string)
    (acc : list (string * nat)) :
  In x (keys (fold_left (fun a k => Series.count_add k a) xs acc))
  <-> In x (keys acc) \/ In x xs.
Proof.
  revert acc. induction xs as [| k xs IH]; intros acc; cbn [fold_left].
  - split; [auto | intros [H | []]; exact H].
  - rewrite IH, in_keys_count_add. cbn [In]. split.
    + intros [[-> | H] | H]; auto.
    + intros [H | [<- | H]]; auto.
Qed.

(** The labels [value_counts] lists are those the series holds. *)
Lemma in_keys_value_counts (x : string) (xs : list string) :
  In x (keys (Series.value_counts xs)) <-> In x xs.
Proof.
  unfold Series.value_counts. rewrite in_keys_value_counts_from. cbn.
  split; [intros [[] | H]; exact H | auto].
Qed.

Lemma assoc_get_first (k : string) (n : nat) (l : list (string * nat)) :
  NoDup (keys l) -> In (k, n) l -> assoc_get k l = Some n.
Proof.
  unfold keys. induction l as [| [k0 n0] l IH]; cbn; [contradiction |].
  intros Hnd Hin. apply NoDup_cons_iff in Hnd. destruct Hnd as (Hout & Hnd).
  destruct Hin as [E | Hin].
  - inversion E; subst. rewrite String.eqb_refl. reflexivity.
  - destruct (String.eqb_spec k k0) as [-> | _].
    + exfalso. apply Hout. apply (in_map fst) in Hin. exact Hin.
    + apply IH; assumption.
Qed.

(** The count [value_counts] holds for a label is the number of its
    occurrences, so the counts add up to the number of entries. *)
Lemma counts_of_value_counts (xs : list string) :
  map (count_occ string_dec xs) (keys (Series.value_counts xs))
  = map snd (Series.value_counts xs).
Proof.
  unfold keys. rewrite map_map. apply map_ext_in. intros [k n] Hin.
  cbn [fst snd]. rewrite <- assoc_get_value_counts.
  rewrite (assoc_get_first k n _ (nodup_value_counts xs) Hin). reflexivity.
Qed.

Lemma counts_add_up (xs : list string) :
  list_sum (map (count_occ string_dec xs) (keys (Series.value_counts xs)))
  = length xs.
Proof.
  rewrite counts_of_value_counts. apply counted_value_counts.
Qed.

End LabelShares.

(* ----------------------------------------------------------------- *)
(** ** The trend analyzer on a minute of data or more *)

Section Tail.

Lemma get_col_frame_tail (c : string) (a : Z) (g : DataFrame) :
  get_col c (frame_tail a g)
  = option_map (col_tail (tail_rows a (nrows g))) (get_col c g).
Proof.
  unfold frame_tail, get_col. cbn [columns].
  induction (columns g) as [| [k0 v0] l IH]; cbn; [reflexivity |].
  destruct (String.eqb c k0); [reflexivity | exact IH].
Qed.

Lemma tail_run (r : ref) (a : Z) (s : store) (g : DataFrame) :
  lookup s r = Some g ->
  tail r a s = (Ok (length s), s ++ [frame_tail a g]).
Proof.
  intros Hr. unfold tail.
  rewrite (bind_ok _ _ _ _ _ (read_run _ _ _ Hr)). reflexivity.
Qed.

Lemma getitem_str_run (r : ref) (c : string) (s : store) (g : DataFrame)
    (xs : list string) :
  lookup s r = Some g -> get_col c g = Some (StrCol xs) ->
  getitem_str r c s = (Ok xs, s).
Proof.
  intros Hr Hc. unfold getitem_str.
  rewrite (bind_ok _ _ _ _ _ (read_run _ _ _ Hr)), Hc. reflexivity.
Qed.

Lemma in_last_rows {A} (k : nat) (xs : list A) (x : A) :
  In x (last_rows k xs) -> In x xs.
Proof.
  unfold last_rows. intros Hin.
  rewrite <- (firstn_skipn (length xs - k) xs). apply in_or_app.
  right. exact Hin.
Qed.

Lemma length_last_rows {A} (k : nat) (xs : list A) :
  (k <= length xs)%nat -> length (last_rows k xs) = k.
Proof. intros Hk. unfold last_rows. rewrite length_skipn. lia. Qed.

Lemma polyfit_slope_fits (ys : list R) :
  ys <> [] -> Np.polyfit_slope ys = Ok (slope_of ys).
Proof.
  intros Hne. unfold slope_of.
  destruct ys as [| y [| y' t]]; [contradiction | reflexivity | reflexivity].
Qed.

(** The window of a positive number of minutes at a positive rate. *)
Lemma tail_rows_window (a : Z) (n : nat) :
  (0 < a)%Z -> tail_rows (Z.min a (Z.of_nat n)) n = Nat.min (Z.to_nat a) n.
Proof.
  intros Ha. unfold tail_rows.
  destruct (Z.eqb_spec (Z.min a (Z.of_nat n)) 0) as [E | NE].
  - assert (n = 0%nat) by lia. subst n. lia.
  - destruct (Z.ltb_spec 0 (Z.min a (Z.of_nat n))); lia.
Qed.

End Tail.

Section AnalyzeLong.

Variables (self : t) (s : store) (df : ref) (g : DataFrame) (minutes : Z).
Variables (ls : list string) (ps ms ss : list R).

Hypothesis Hdf : lookup s df = Some g.
Hypothesis Hsr : (1 <= sample_rate self)%Z.
Hypothesis Hmin : (1 <= minutes)%Z.
Hypothesis Hlong : (sample_rate self * 60 <= Z.of_nat (nrows g))%Z.
Hypothesis Hl : get_col "posture_label" g = Some (StrCol ls).
Hypothesis Hp : get_col "s1_pitch" g = Some (NumCol ps).
Hypothesis Hm : get_col "spine_curvature_magnitude" g = Some (NumCol ms).
Hypothesis Hs : get_col "spine_stability" g = Some (NumCol ss).
Hypothesis Ll : length ls = nrows g.
Hypothesis Lp : length ps = nrows g.
Hypothesis Lm : length ms = nrows g.
Hypothesis Ls : length ss = nrows g.

Let k := Nat.min (Z.to_nat (minutes * 60 * sample_rate self)) (nrows g).
Let w := frame_tail
           (Z.min (minutes * 60 * sample_rate self) (Z.of_nat (nrows g))) g.

Lemma window_rows : (60 <= k <= nrows g)%nat.
Proof. subst k. split; [apply Nat.min_glb |]; nia. Qed.

Lemma analyze_patterns_run :
  exists recs,
    analyze_patterns self df minutes s
    = (Ok {| pattern_analysis := None;
             time_period := Some (INR k / IZR (sample_rate self) / 60);
             total_samples := Some k;
             posture_distribution := Some (percentages (last_rows k ls) k);
             trends :=
               Some [("forward_head_trend",
                      trend_of (slope_of (last_rows k ps)));
                     ("spine_curvature_trend",
                      trend_of (slope_of (last_rows k ms)));
                     ("movement_pattern",
                      movement_pattern_of (Series.mean (last_rows k ss)))];
             recommendations := Some recs |},
       s ++ [w; w]) /\
    (length recs <= 6)%nat.
Proof.
  pose proof window_rows as Hk.
  assert (Hrows : tail_rows
            (Z.min (minutes * 60 * sample_rate self) (Z.of_nat (nrows g)))
            (nrows g) = k).
  { apply tail_rows_window. nia. }
  assert (Hw : lookup (s ++ [w; w]) (S (length s)) = Some w).
  { replace (s ++ [w; w]) with ((s ++ [w]) ++ [w])
      by (rewrite <- app_assoc; reflexivity).
    replace (S (length s)) with (length (s ++ [w]))
      by (rewrite length_app; cbn; lia).
    apply lookup_app_new. }
  assert (Hnw : nrows w = k) by (subst w; cbn; exact Hrows).
  assert (Wl : get_col "posture_label" w = Some (StrCol (last_rows k ls))).
  { subst w. rewrite get_col_frame_tail, Hl, Hrows. reflexivity. }
  assert (Wp : get_col "s1_pitch" w = Some (NumCol (last_rows k ps))).
  { subst w. rewrite get_col_frame_tail, Hp, Hrows. reflexivity. }
  assert (Wm : get_col "spine_curvature_magnitude" w
               = Some (NumCol (last_rows k ms))).
  { subst w. rewrite get_col_frame_tail, Hm, Hrows. reflexivity. }
  assert (Ws : get_col "spine_stability" w = Some (NumCol (last_rows k ss))).
  { subst w. rewrite get_col_frame_tail, Hs, Hrows. reflexivity. }
  assert (Np : last_rows k ps <> []).
  { intros E. apply (f_equal (@length R)) in E.
    rewrite length_last_rows in E by lia. cbn in E. lia. }
  assert (Nm : last_rows k ms <> []).
  { intros E. apply (f_equal (@length R)) in E.
    rewrite length_last_rows in E by lia. cbn in E. lia. }
  eexists. split.
  - unfold analyze_patterns.
    rewrite (bind_ok _ _ _ _ _ (len_run df s g Hdf)).
    destruct (Z.ltb_spec (Z.of_nat (nrows g)) (sample_rate self * 60));
      [lia |].
    cbv zeta.
    rewrite (bind_ok _ _ _ _ _ (tail_run df _ s g Hdf)). fold w.
    erewrite bind_ok by (apply copy_run; apply lookup_app_new).
    rewrite length_app, Nat.add_1_r, <- app_assoc. cbn [app].
    erewrite bind_ok by (apply len_run; exact Hw).
    destruct (Z.eqb_spec (sample_rate self) 0); [lia |].
    erewrite bind_ok by reflexivity.
    erewrite bind_ok by (apply has_column_run; exact Hw).
    unfold has_col at 1. rewrite Wl.
    erewrite bind_ok.
    2:{ erewrite bind_ok by (eapply getitem_str_run; [exact Hw | exact Wl]).
        erewrite bind_ok by (apply len_run; exact Hw).
        reflexivity. }
    erewrite bind_ok by (apply has_column_run; exact Hw).
    unfold has_col at 1. rewrite Wp.
    erewrite bind_ok.
    2:{ erewrite bind_ok by (eapply getitem_num_run; [exact Hw | exact Wp]).
        rewrite (polyfit_slope_fits _ Np). cbn [lift].
        erewrite bind_ok by reflexivity. reflexivity. }
    erewrite bind_ok by (apply has_column_run; exact Hw).
    unfold has_col at 1. rewrite Wm.
    erewrite bind_ok.
    2:{ erewrite bind_ok by (eapply getitem_num_run; [exact Hw | exact Wm]).
        rewrite (polyfit_slope_fits _ Nm). cbn [lift].
        erewrite bind_ok by reflexivity. reflexivity. }
    erewrite bind_ok by (apply has_column_run; exact Hw).
    unfold has_col at 1. rewrite Ws.
    erewrite bind_ok.
    2:{ erewrite bind_ok by (eapply getitem_num_run; [exact Hw | exact Ws]).
        reflexivity. }
    rewrite Hnw. cbn [pattern_analysis time_period total_samples
                      posture_distribution trends recommendations].
    cbn [assoc_set String.eqb Ascii.eqb Bool.eqb andb].
    unfold ret. fold (percentages (last_rows k ls) k). reflexivity.
  - unfold generate_recommendations.
    cbn [posture_distribution]. apply firstn_le_length.
Qed.

End AnalyzeLong.

Section Allocation.

Lemma allocates_nothing {A} (m : M A) :
  (forall s, snd (m s) = s) -> allocates_only m.
Proof. intros Hm s. exists []. rewrite Hm, app_nil_r. reflexivity. Qed.

Lemma allocates_ret {A} (a : A) : allocates_only (ret a).
Proof. apply allocates_nothing. reflexivity. Qed.

Lemma allocates_raise {A} (e : exn) : allocates_only (@raise A e).
Proof. apply allocates_nothing. reflexivity. Qed.

Lemma allocates_lift {A} (x : result A) : allocates_only (lift x).
Proof. destruct x; [apply allocates_ret | apply allocates_raise]. Qed.

Lemma allocates_read (r : ref) : allocates_only (read r).
Proof.
  apply allocates_nothing. intros s. unfold read.
  destruct (lookup s r); reflexivity.
Qed.

Lemma allocates_bind {A B} (m : M A) (k : A -> M B) :
  allocates_only m -> (forall a, allocates_only (k a)) ->
  allocates_only (bind m k).
Proof.
  intros Hm Hk s. unfold bind. destruct (Hm s) as (a1 & E1).
  destruct (m s) as [[a | e] s1]; cbn in *.
  - destruct (Hk a s1) as (a2 & E2). exists (a1 ++ a2).
    rewrite E2, E1, app_assoc. reflexivity.
  - exists a1. exact E1.
Qed.

Lemma allocates_copy (r : ref) : allocates_only (copy r).
Proof.
  unfold copy. apply allocates_bind; [apply allocates_read |].
  intros f s. exists [f]. reflexivity.
Qed.

Lemma allocates_tail (r : ref) (n : Z) : allocates_only (tail r n).
Proof.
  unfold tail. apply allocates_bind; [apply allocates_read |].
  intros f s. exists [frame_tail n f]. reflexivity.
Qed.

Lemma allocated_frames_kept (s : store) (added : list DataFrame) :
  frames_kept s (s ++ added).
Proof. intros r f Hr. apply lookup_app_old. exact Hr. Qed.

End Allocation.

Ltac allocation :=
  cbv zeta;
  repeat first
    [ apply allocates_ret
    | apply allocates_raise
    | apply allocates_lift
    | apply allocates_read
    | apply allocates_copy
    | apply allocates_tail
    | apply allocates_bind; [| intros ?]
    | match goal with
      | |- allocates_only (if ?b then _ else _) => destruct b
      | |- allocates_only (match ?x with _ => _ end) => destruct x
      end ].

(** The trend analyzer writes to no frame: whatever the input, and whether
    it returns or raises, every frame of the caller is as it was; all the
    analyzer does to the store is to add the window it cuts and its copy. *)
Theorem analyze_patterns_writes_nothing (self : t) (df : ref) (minutes : Z)
    (s : store) :
  (exists added, snd (analyze_patterns self df minutes s) = s ++ added) /\
  frames_kept s (snd (analyze_patterns self df minutes s)).
Proof.
  assert (Ha : allocates_only (analyze_patterns self df minutes)).
  { unfold analyze_patterns, len, has_column, getitem_str, getitem_num.
    allocation. }
  destruct (Ha s) as (added & E). split.
  - exists added. exact E.
  - rewrite E. apply allocated_frames_kept.
Qed.

(** Every report the trend analyzer returns carries a list of
    recommendations, of at most 6 entries. *)
Theorem analyze_patterns_recommends_at_most_six (self : t) (df : ref)
    (minutes : Z) (s : store) (rep : PatternReport) :
  fst (analyze_patterns self df minutes s) = Ok rep ->
  exists recs, recommendations rep = Some recs /\ (length recs <= 6)%nat.
Proof.
  intros E.
  assert (Hy : yields
            (fun rep => exists recs, recommendations rep = Some recs
                                     /\ (length recs <= 6)%nat)
            (analyze_patterns self df minutes)).
  { unfold analyze_patterns. apply yields_then; intros n.
    destruct (Z.of_nat n <? sample_rate self * 60)%Z.
    - apply yields_ret. eexists. split; [reflexivity | cbn; lia].
    - cbv zeta. repeat (apply yields_then; intros ?).
      apply yields_ret. eexists. split; [reflexivity |].
      unfold generate_recommendations.
      destruct (posture_distribution _); [apply firstn_le_length | cbn; lia]. }
  exact (Hy s rep E).
Qed.

(** On a minute of data or more, at a positive rate and over a window of
    at least one minute, the trend analyzer returns a report over the last
    k = min(minutes * 60 * sample_rate, n) rows: it counts those rows, its
    distribution has one entry for each label those rows carry and for no
    other, the counts behind the entries add up to k, each entry is the
    count of its label divided by k, times 100, and the three trends are
    named. *)
Theorem analyze_patterns_report (self : t) (s : store) (df : ref)
    (g : DataFrame) (minutes : Z) (ls : list string) (ps ms ss : list R) :
  lookup s df = Some g ->
  (1 <= sample_rate self)%Z -> (1 <= minutes)%Z ->
  (sample_rate self * 60 <= Z.of_nat (nrows g))%Z ->
  get_col "posture_label" g = Some (StrCol ls) ->
  get_col "s1_pitch" g = Some (NumCol ps) ->
  get_col "spine_curvature_magnitude" g = Some (NumCol ms) ->
  get_col "spine_stability" g = Some (NumCol ss) ->
  length ls = nrows g -> length ps = nrows g ->
  length ms = nrows g -> length ss = nrows g ->
  let k := Nat.min (Z.to_nat (minutes * 60 * sample_rate self)) (nrows g) in
  exists rep dist,
    fst (analyze_patterns self df minutes s) = Ok rep /\
    pattern_analysis rep = None /\
    total_samples rep = Some k /\ (60 <= k <= nrows g)%nat /\
    posture_distribution rep = Some dist /\
    NoDup (keys dist) /\
    (forall label, In label (keys dist) <-> In label (last_rows k ls)) /\
    list_sum (map (count_occ string_dec (last_rows k ls)) (keys dist)) = k /\
    (forall label,
       get dist label 0
       = INR (count_occ string_dec (last_rows k ls) label) / INR k * 100) /\
    trends rep
    = Some [("forward_head_trend", trend_of (slope_of (last_rows k ps)));
            ("spine_curvature_trend", trend_of (slope_of (last_rows k ms)));
            ("movement_pattern",
             movement_pattern_of (Series.mean (last_rows k ss)))].
Proof.
  intros Hdf Hsr Hmin Hlong Hl Hp Hm Hs Ll Lp Lm Ls k.
  destruct (analyze_patterns_run self s df g minutes ls ps ms ss
              Hdf Hsr Hmin Hlong Hl Hp Hm Hs Ll Lp Lm Ls)
    as (recs & Hrun & _).
  pose proof (window_rows self g minutes ls ps ms ss Hsr Hmin Hlong
                Ll Lp Lm Ls) as Hk.
  fold k in Hrun, Hk.
  assert (Lk : length (last_rows k ls) = k)
    by (apply length_last_rows; lia).
  eexists _, _. rewrite Hrun. cbn [fst pattern_analysis total_samples
    posture_distribution trends].
  split; [reflexivity |]. split; [reflexivity |]. split; [reflexivity |].
  split; [exact Hk |]. split; [reflexivity |].
  assert (Hkeys : keys (percentages (last_rows k ls) k)
                  = keys (Series.value_counts (last_rows k ls))).
  { pose proof (keys_percentages (last_rows k ls)) as E.
    rewrite Lk in E. exact E. }
  split; [rewrite Hkeys; apply nodup_value_counts |].
  split; [intros label; rewrite Hkeys; apply in_keys_value_counts |].
  split; [rewrite Hkeys, counts_add_up; exact Lk |].
  split; [| reflexivity].
  intros label. pose proof (percentages_get (last_rows k ls) label) as Hg.
  rewrite Lk in Hg. exact Hg.
Qed.

(* ----------------------------------------------------------------- *)
(** ** The fitted slope *)

Section Slope.

Lemma indices_succ (n : nat) : Np.indices (S n) = Np.indices n ++ [INR n].
Proof. unfold Np.indices. rewrite seq_S, map_app. reflexivity. Qed.

Lemma length_indices (n : nat) : length (Np.indices n) = n.
Proof. unfold Np.indices. rewrite length_map, length_seq. reflexivity. Qed.

Lemma map2_with_image {A B C} (f : A -> B -> C) (h : A -> B) (xs : list A) :
  Np.map2 f xs (map h xs) = map (fun x => f x (h x)) xs.
Proof.
  unfold Np.map2. induction xs as [| x xs IH]; cbn; [reflexivity |].
  rewrite IH. reflexivity.
Qed.

Lemma map2_with_self {A C} (f : A -> A -> C) (xs : list A) :
  Np.map2 f xs xs = map (fun x => f x x) xs.
Proof.
  unfold Np.map2. induction xs as [| x xs IH]; cbn; [reflexivity |].
  rewrite IH. reflexivity.
Qed.

Lemma sum_line (a d : R) (xs : list R) :
  Series.sum (map (fun x => a + d * x) xs)
  = INR (length xs) * a + d * Series.sum xs.
Proof.
  induction xs as [| x xs IH]; cbn [map length].
  - cbn. lra.
  - rewrite !sum_cons, IH, S_INR. ring.
Qed.

Lemma sum_index_times_line (a d : R) (xs : list R) :
  Series.sum (map (fun x => x * (a + d * x)) xs)
  = a * Series.sum xs + d * Series.sum (map (fun x => x * x) xs).
Proof.
  induction xs as [| x xs IH]; cbn [map].
  - cbn. lra.
  - rewrite !sum_cons, IH. ring.
Qed.

Lemma sum_indices (n : nat) :
  Series.sum (Np.indices n) = INR n * (INR n - 1) / 2.
Proof.
  induction n as [| n IH].
  - cbn. lra.
  - rewrite indices_succ, sum_app, IH, S_INR. cbn. lra.
Qed.

Lemma sum_squared_indices (n : nat) :
  Series.sum (map (fun x => x * x) (Np.indices n))
  = (INR n - 1) * INR n * (2 * INR n - 1) / 6.
Proof.
  induction n as [| n IH].
  - cbn. lra.
  - rewrite indices_succ, map_app, sum_app, IH, S_INR. cbn. field.
Qed.

(** The index has a positive variance as soon as there are two rows. *)
Lemma index_spread_positive (n : nat) :
  (2 <= n)%nat ->
  0 < INR n * Series.sum (map (fun x => x * x) (Np.indices n))
      - Series.sum (Np.indices n) * Series.sum (Np.indices n).
Proof.
  intros Hn. rewrite sum_indices, sum_squared_indices.
  assert (H2 : 2 <= INR n).
  { replace 2 with (INR 2) by (cbn; lra). apply le_INR. exact Hn. }
  set (N := INR n) in *.
  replace (N * ((N - 1) * N * (2 * N - 1) / 6)
           - N * (N - 1) / 2 * (N * (N - 1) / 2))
    with (N * N * ((N - 1) * (N + 1)) / 12) by field.
  apply Rdiv_lt_0_compat; [| lra].
  apply Rmult_lt_0_compat; [apply Rmult_lt_0_compat; lra |].
  apply Rmult_lt_0_compat; lra.
Qed.

(** Least squares gives a straight line its own slope. *)
Lemma polyfit_slope_of_line (a d : R) (n : nat) :
  (2 <= n)%nat ->
  Np.polyfit_slope (map (fun x => a + d * x) (Np.indices n)) = Ok d.
Proof.
  intros Hn. unfold Np.polyfit_slope.
  rewrite length_map, length_indices.
  destruct n as [| [| m]]; [lia | lia |].
  set (n := S (S m)) in *. f_equal.
  rewrite map2_with_image, map2_with_self.
  rewrite sum_line, sum_index_times_line, length_indices.
  pose proof (index_spread_positive n Hn) as Hpos.
  set (A := Series.sum (Np.indices n)) in *.
  set (B := Series.sum (map (fun x => x * x) (Np.indices n))) in *.
  field. lra.
Qed.

End Slope.

Section Drift.

Lemma seq_from (j k : nat) : seq j k = map (fun i => (j + i)%nat) (seq 0 k).
Proof.
  revert j. induction k as [| k IH]; intros j; cbn; [reflexivity |].
  rewrite Nat.add_0_r. f_equal.
  rewrite (IH (S j)), <- seq_shift, map_map.
  apply map_ext. intros i. lia.
Qed.

(** The last rows of a straight line are a straight line of the same
    slope. *)
Lemma last_rows_line (a d : R) (n k : nat) :
  (k <= n)%nat ->
  last_rows k (map (fun x => a + d * x) (Np.indices n))
  = map (fun x => (a + d * INR (n - k)) + d * x) (Np.indices k).
Proof.
  intros Hk. unfold last_rows, Np.indices.
  rewrite !length_map, length_seq, !skipn_map.
  rewrite skipn_seq. replace (n - (n - k))%nat with k by lia.
  cbn [Nat.add]. rewrite (seq_from (n - k) k), !map_map.
  apply map_ext. intros i. rewrite plus_INR. ring.
Qed.

Lemma trend_of_cases (d : R) :
  (1 / 100 < d -> trend_of d = "worsening") /\
  (d < - (1 / 100) -> trend_of d = "improving") /\
  (- (1 / 100) <= d <= 1 / 100 -> trend_of d = "stable").
Proof.
  unfold trend_of.
  destruct (Rlt_dec d (- (1 / 100))); destruct (Rgt_dec d (1 / 100));
    repeat split; intros; try reflexivity; lra.
Qed.

End Drift.

(** A pitch that drifts by the same amount [d] from each row to the next
    is reported by its drift: the forward-head trend of the report is
    "worsening" when d > 0.01, "improving" when d < -0.01 and "stable" in
    between, so a slow steady rise counts as stable. *)
Theorem steady_drift_is_classified_by_its_step (self : t) (s : store)
    (df : ref) (g : DataFrame) (minutes : Z) (ls : list string)
    (ms ss : list R) (a d : R) :
  lookup s df = Some g ->
  (1 <= sample_rate self)%Z -> (1 <= minutes)%Z ->
  (sample_rate self * 60 <= Z.of_nat (nrows g))%Z ->
  get_col "posture_label" g = Some (StrCol ls) ->
  get_col "s1_pitch" g
  = Some (NumCol (map (fun x => a + d * x) (Np.indices (nrows g)))) ->
  get_col "spine_curvature_magnitude" g = Some (NumCol ms) ->
  get_col "spine_stability" g = Some (NumCol ss) ->
  length ls = nrows g -> length ms = nrows g -> length ss = nrows g ->
  exists rep tr,
    fst (analyze_patterns self df minutes s) = Ok rep /\
    trends rep = Some tr /\
    assoc_get "forward_head_trend" tr = Some (trend_of d) /\
    (1 / 100 < d -> assoc_get "forward_head_trend" tr = Some "worsening") /\
    (d < - (1 / 100) ->
     assoc_get "forward_head_trend" tr = Some "improving") /\
    (- (1 / 100) <= d <= 1 / 100 ->
     assoc_get "forward_head_trend" tr = Some "stable").
Proof.
  intros Hdf Hsr Hmin Hlong Hl Hp Hm Hs Ll Lm Ls.
  assert (Lp : length (map (fun x => a + d * x) (Np.indices (nrows g)))
               = nrows g)
    by (rewrite length_map; apply length_indices).
  destruct (analyze_patterns_run self s df g minutes ls _ ms ss
              Hdf Hsr Hmin Hlong Hl Hp Hm Hs Ll Lp Lm Ls)
    as (recs & Hrun & _).
  pose proof (window_rows self g minutes ls _ ms ss Hsr Hmin Hlong
                Ll Lp Lm Ls) as Hk.
  set (k := Nat.min (Z.to_nat (minutes * 60 * sample_rate self)) (nrows g))
    in *.
  assert (Hslope :
    slope_of (last_rows k (map (fun x => a + d * x) (Np.indices (nrows g))))
    = d).
  { rewrite last_rows_line by lia. unfold slope_of.
    rewrite polyfit_slope_of_line by lia. reflexivity. }
  eexists _, _. rewrite Hrun. cbn [fst trends].
  split; [reflexivity |]. split; [reflexivity |].
  cbn [assoc_get String.eqb Ascii.eqb Bool.eqb andb]. rewrite Hslope.
  destruct (trend_of_cases d) as (Hw & Hi & Hst).
  split; [reflexivity |].
  split; [intros H; rewrite Hw by exact H; reflexivity |].
  split; [intros H; rewrite Hi by exact H; reflexivity |].
  intros H. rewrite Hst by exact H. reflexivity.
Qed.

(* ----------------------------------------------------------------- *)
(** ** The range of the angles *)

Section AngleRange.

Lemma atan_sign_neg (x : R) : x <= 0 -> atan x <= 0.
Proof.
  intros [Hlt | ->]; [| rewrite atan_0; lra].
  pose proof (atan_increasing x 0 Hlt) as H. rewrite atan_0 in H. lra.
Qed.

Lemma atan_sign_pos (x : R) : 0 < x -> 0 < atan x.
Proof.
  intros Hlt. pose proof (atan_increasing 0 x Hlt) as H.
  rewrite atan_0 in H. exact H.
Qed.

(** [arctan2] stays in [-PI, PI], and in [-PI/2, PI/2] for a point of the
    right half plane. *)
Lemma atan2_range (y x : R) : - PI <= Np.atan2 y x <= PI.
Proof.
  pose proof PI_RGT_0 as Hpi. unfold Np.atan2.
  destruct (Rlt_dec 0 x) as [Hx | Hx].
  - pose proof (atan_bound (y / x)). lra.
  - destruct (Rlt_dec x 0) as [Hx' | Hx'].
    + assert (Hinv : / x < 0) by (apply Rinv_lt_0_compat; exact Hx').
      destruct (Rle_dec 0 y) as [Hy | Hy].
      * assert (Hq : y / x <= 0).
        { unfold Rdiv. rewrite <- (Rmult_0_l (/ x)).
          apply Rmult_le_compat_neg_l with (r := / x) in Hy; [| lra].
          rewrite (Rmult_comm (/ x) y), Rmult_0_r in Hy.
          rewrite Rmult_0_l. exact Hy. }
        pose proof (atan_sign_neg _ Hq). pose proof (atan_bound (y / x)).
        lra.
      * assert (Hq : 0 < y / x).
        { unfold Rdiv. replace (y * / x) with ((- y) * (- / x)) by ring.
          apply Rmult_lt_0_compat; lra. }
        pose proof (atan_sign_pos _ Hq). pose proof (atan_bound (y / x)).
        lra.
    + destruct (Rlt_dec 0 y); [lra |]. destruct (Rlt_dec y 0); lra.
Qed.

Lemma atan2_right_half (y x : R) :
  0 <= x -> - (PI / 2) <= Np.atan2 y x <= PI / 2.
Proof.
  intros Hx0. pose proof PI_RGT_0 as Hpi. unfold Np.atan2.
  destruct (Rlt_dec 0 x) as [Hx | Hx].
  - pose proof (atan_bound (y / x)). lra.
  - destruct (Rlt_dec x 0) as [Hx' | Hx']; [lra |].
    destruct (Rlt_dec 0 y); [lra |]. destruct (Rlt_dec y 0); lra.
Qed.

Lemma degrees_of_range (v lo hi : R) :
  lo * PI <= v * 180 -> v * 180 <= hi * PI -> lo <= v * 180 / PI <= hi.
Proof.
  intros Hlo Hhi. pose proof PI_RGT_0 as Hpi.
  split.
  - apply Rmult_le_reg_r with PI; [lra |].
    unfold Rdiv. rewrite Rmult_assoc, Rinv_l by lra. lra.
  - apply Rmult_le_reg_r with PI; [lra |].
    unfold Rdiv. rewrite Rmult_assoc, Rinv_l by lra. lra.
Qed.

(** Pitch lies between -90 and 90 degrees, roll between -180 and 180. *)
Lemma pitch_deg_range (ax ay az : R) : -90 <= pitch_deg ax ay az <= 90.
Proof.
  unfold pitch_deg.
  pose proof (atan2_right_half (- ax) (sqrt (Rsqr ay + Rsqr az))
                (sqrt_pos _)) as H.
  apply degrees_of_range; lra.
Qed.

Lemma roll_deg_range (ay az : R) : -180 <= roll_deg ay az <= 180.
Proof.
  unfold roll_deg. pose proof (atan2_range ay az) as H.
  pose proof PI_RGT_0 as Hpi. split.
  - apply Rmult_le_reg_r with PI; [lra |].
    unfold Rdiv. rewrite Rmult_assoc, Rinv_l by lra. lra.
  - apply Rmult_le_reg_r with PI; [lra |].
    unfold Rdiv. rewrite Rmult_assoc, Rinv_l by lra. lra.
Qed.

End AngleRange.

(** On every row the orientation extractor stores a pitch between -90 and
    90 degrees and a roll between -180 and 180 degrees for each sensor
    (bounds included), hence a pitch curvature within 180 degrees either
    way, a roll curvature within 360, and a curvature magnitude that is
    not negative. *)
Theorem orientation_angles_in_range (self : t) (s : store) (df : ref)
    (f : DataFrame) (x1 y1 z1 x2 y2 z2 : list R) :
  lookup s df = Some f -> wf f ->
  get_col "s1_accel_x" f = Some (NumCol x1) ->
  get_col "s1_accel_y" f = Some (NumCol y1) ->
  get_col "s1_accel_z" f = Some (NumCol z1) ->
  get_col "s2_accel_x" f = Some (NumCol x2) ->
  get_col "s2_accel_y" f = Some (NumCol y2) ->
  get_col "s2_accel_z" f = Some (NumCol z2) ->
  exists g,
    extract_orientation self df s = (Ok (length s), s ++ [g]) /\
    forall i, (i < nrows f)%nat ->
      exists p1 r1 p2 r2 cp cr cm,
        num_at g "s1_pitch" i = Some p1 /\ num_at g "s1_roll" i = Some r1 /\
        num_at g "s2_pitch" i = Some p2 /\ num_at g "s2_roll" i = Some r2 /\
        num_at g "spine_pitch_curvature" i = Some cp /\
        num_at g "spine_roll_curvature" i = Some cr /\
        num_at g "spine_curvature_magnitude" i = Some cm /\
        -90 <= p1 <= 90 /\ -90 <= p2 <= 90 /\
        -180 <= r1 <= 180 /\ -180 <= r2 <= 180 /\
        -180 <= cp <= 180 /\ -360 <= cr <= 360 /\ 0 <= cm.
Proof.
  intros Hdf Hwf Hx1 Hy1 Hz1 Hx2 Hy2 Hz2.
  destruct (extract_orientation_run self s df f x1 y1 z1 x2 y2 z2
              Hdf Hwf Hx1 Hy1 Hz1 Hx2 Hy2 Hz2)
    as (g & Hrun & Hn & Gp1 & Gr1 & Gp2 & Gr2 & Gcp & Gcr & Gcm).
  exists g. split; [exact Hrun |].
  intros i Hi.
  pose proof (wf_numeric f _ _ Hwf Hx1) as Lx1.
  pose proof (wf_numeric f _ _ Hwf Hy1) as Ly1.
  pose proof (wf_numeric f _ _ Hwf Hz1) as Lz1.
  pose proof (wf_numeric f _ _ Hwf Hx2) as Lx2.
  pose proof (wf_numeric f _ _ Hwf Hy2) as Ly2.
  pose proof (wf_numeric f _ _ Hwf Hz2) as Lz2.
  pose proof (reading x1 i ltac:(lia)) as Ex1.
  pose proof (reading y1 i ltac:(lia)) as Ey1.
  pose proof (reading z1 i ltac:(lia)) as Ez1.
  pose proof (reading x2 i ltac:(lia)) as Ex2.
  pose proof (reading y2 i ltac:(lia)) as Ey2.
  pose proof (reading z2 i ltac:(lia)) as Ez2.
  pose proof (nth_pitch_of _ _ _ _ _ _ _ Ex1 Ey1 Ez1) as Np1.
  pose proof (nth_roll_of _ _ _ _ _ Ey1 Ez1) as Nr1.
  pose proof (nth_pitch_of _ _ _ _ _ _ _ Ex2 Ey2 Ez2) as Np2.
  pose proof (nth_roll_of _ _ _ _ _ Ey2 Ez2) as Nr2.
  pose proof (nth_error_map2 Rminus _ _ _ _ _ Np1 Np2) as Ncp.
  pose proof (nth_error_map2 Rminus _ _ _ _ _ Nr1 Nr2) as Ncr.
  pose proof (nth_magnitude _ _ _ _ _ Ncp Ncr) as Ncm.
  pose proof (pitch_deg_range (nth i x1 0) (nth i y1 0) (nth i z1 0)).
  pose proof (pitch_deg_range (nth i x2 0) (nth i y2 0) (nth i z2 0)).
  pose proof (roll_deg_range (nth i y1 0) (nth i z1 0)).
  pose proof (roll_deg_range (nth i y2 0) (nth i z2 0)).
  eexists _, _, _, _, _, _, _.
  split; [eapply num_at_col; [exact Gp1 | exact Np1] |].
  split; [eapply num_at_col; [exact Gr1 | exact Nr1] |].
  split; [eapply num_at_col; [exact Gp2 | exact Np2] |].
  split; [eapply num_at_col; [exact Gr2 | exact Nr2] |].
  split; [eapply num_at_col; [exact Gcp | exact Ncp] |].
  split; [eapply num_at_col; [exact Gcr | exact Ncr] |].
  split; [eapply num_at_col; [exact Gcm | exact Ncm] |].
  repeat split; try lra. apply sqrt_pos.
Qed.

(* ----------------------------------------------------------------- *)
(** ** The range and the monotony of the severity *)

Section SeverityRange.

Variable th : Thresholds.

Lemma forward_head_adds (v : R) (st : verdict) :
  (snd st <= snd (forward_head th v st) <= snd st + 3)%Z.
Proof.
  unfold forward_head.
  destruct (Rgt_dec v (forward_head_severe th));
    [| destruct (Rgt_dec v (forward_head_mild th))]; cbn [snd]; lia.
Qed.

Lemma hunched_adds (v : R) (st : verdict) :
  (snd st <= snd (hunched th v st) <= snd st + 3)%Z.
Proof.
  unfold hunched.
  destruct (Rgt_dec v (hunched_shoulders_severe th));
    [| destruct (Rgt_dec v (hunched_shoulders_mild th))]; cbn [snd]; lia.
Qed.

Lemma side_lean_adds (v : R) (st : verdict) :
  (snd st <= snd (side_lean th v st) <= snd st + 2)%Z.
Proof.
  unfold side_lean.
  destruct (Rgt_dec (Rabs v) (side_lean_severe th));
    [| destruct (Rgt_dec (Rabs v) (side_lean_mild th))]; cbn [snd]; lia.
Qed.

Lemma movement_adds_nothing (v : R) (st : verdict) :
  snd (movement th v st) = snd st.
Proof.
  unfold movement.
  destruct (Rgt_dec v (movement_threshold th));
    [| destruct (Rlt_dec v (stability_threshold th))]; reflexivity.
Qed.

Lemma row_verdict_severity_range (pitch cp cr : R) (st : option R) :
  (0 <= snd (row_verdict th pitch cp cr st) <= 8)%Z.
Proof.
  unfold row_verdict.
  pose proof (forward_head_adds pitch ([], 0%Z)) as H1.
  pose proof (hunched_adds cp (forward_head th pitch ([], 0%Z))) as H2.
  pose proof (side_lean_adds cr
                (hunched th cp (forward_head th pitch ([], 0%Z)))) as H3.
  cbn [snd] in H1.
  destruct st as [v |]; [rewrite movement_adds_nothing |]; lia.
Qed.

(** Raising a reading never lowers what its criterion adds, as long as
    the mild threshold does not exceed the severe one. *)
Lemma forward_head_monotone (v v' : R) (st st' : verdict) :
  forward_head_mild th <= forward_head_severe th ->
  v <= v' -> (snd st <= snd st')%Z ->
  (snd (forward_head th v st) <= snd (forward_head th v' st'))%Z.
Proof.
  intros Hth Hv Hs. unfold forward_head.
  destruct (Rgt_dec v (forward_head_severe th));
    destruct (Rgt_dec v' (forward_head_severe th));
    destruct (Rgt_dec v (forward_head_mild th));
    destruct (Rgt_dec v' (forward_head_mild th));
    cbn [snd]; try lia; exfalso; lra.
Qed.

Lemma hunched_monotone (v v' : R) (st st' : verdict) :
  hunched_shoulders_mild th <= hunched_shoulders_severe th ->
  v <= v' -> (snd st <= snd st')%Z ->
  (snd (hunched th v st) <= snd (hunched th v' st'))%Z.
Proof.
  intros Hth Hv Hs. unfold hunched.
  destruct (Rgt_dec v (hunched_shoulders_severe th));
    destruct (Rgt_dec v' (hunched_shoulders_severe th));
    destruct (Rgt_dec v (hunched_shoulders_mild th));
    destruct (Rgt_dec v' (hunched_shoulders_mild th));
    cbn [snd]; try lia; exfalso; lra.
Qed.

Lemma side_lean_monotone (v v' : R) (st st' : verdict) :
  side_lean_mild th <= side_lean_severe th ->
  Rabs v <= Rabs v' -> (snd st <= snd st')%Z ->
  (snd (side_lean th v st) <= snd (side_lean th v' st'))%Z.
Proof.
  intros Hth Hv Hs. unfold side_lean.
  destruct (Rgt_dec (Rabs v) (side_lean_severe th));
    destruct (Rgt_dec (Rabs v') (side_lean_severe th));
    destruct (Rgt_dec (Rabs v) (side_lean_mild th));
    destruct (Rgt_dec (Rabs v') (side_lean_mild th));
    cbn [snd]; try lia; exfalso; lra.
Qed.

Lemma row_verdict_monotone (p p' c c' r r' : R) (st st' : option R) :
  forward_head_mild th <= forward_head_severe th ->
  hunched_shoulders_mild th <= hunched_shoulders_severe th ->
  side_lean_mild th <= side_lean_severe th ->
  p <= p' -> c <= c' -> Rabs r <= Rabs r' ->
  (snd (row_verdict th p c r st) <= snd (row_verdict th p' c' r' st'))%Z.
Proof.
  intros H1 H2 H3 Hp Hc Hr. unfold row_verdict.
  assert (H : (snd (side_lean th r
                      (hunched th c (forward_head th p ([], 0%Z))))
               <= snd (side_lean th r'
                         (hunched th c' (forward_head th p' ([], 0%Z)))))%Z).
  { apply side_lean_monotone; [exact H3 | exact Hr |].
    apply hunched_monotone; [exact H2 | exact Hc |].
    apply forward_head_monotone; [exact H1 | exact Hp | cbn; lia]. }
  destruct st, st'; rewrite ?movement_adds_nothing; exact H.
Qed.

End SeverityRange.

Lemma init_thresholds (sr ws : Z) (self : t) :
  init sr ws = Ok self ->
  forward_head_mild (thresholds self) = 10 /\
  forward_head_severe (thresholds self) = 20 /\
  hunched_shoulders_mild (thresholds self) = 15 /\
  hunched_shoulders_severe (thresholds self) = 25 /\
  side_lean_mild (thresholds self) = 8 /\
  side_lean_severe (thresholds self) = 15 /\
  movement_threshold (thresholds self) = 3 /\
  stability_threshold (thresholds self) = 2 /\
  is_trained self = false.
Proof.
  unfold init. destruct (Py.int_overflows_float sr); [discriminate |].
  destruct (Z.eqb_spec sr 0) as [E | NE]; [discriminate |].
  intros H; inversion H; subst; cbn. repeat split.
Qed.

Lemma classified_severity (th : Thresholds) (f g : DataFrame)
    (p pc rc : list R) (stab : option (list R)) (i : nat) :
  classified_upto th f p pc rc stab (nrows f) g -> (i < nrows f)%nat ->
  num_at g "severity_score" i
  = Some (IZR (snd (verdict_at th p pc rc stab i))).
Proof.
  intros (_ & _ & _ & _ & _ & ls & cs & vs & Gl & Gc & Gv & _ & _ & _ & Hrows)
         Hi.
  destruct (Hrows i Hi) as (_ & _ & Ev).
  eapply num_at_col; [exact Gv |]. rewrite Ev. do 2 f_equal.
  pose proof (row_verdict_severity_range th (nth i p 0) (nth i pc 0)
                (nth i rc 0) (option_map (fun ss => nth i ss 0) stab)).
  unfold verdict_at. lia.
Qed.

(** The severity the classifier stores is a whole number from 0 to 8: the
    three criteria add at most 3 + 3 + 2, so the cap at 10 is never
    reached. *)
Theorem severity_score_between_0_and_8 (self : t) (s : store) (df : ref)
    (f : DataFrame) (p pc rc : list R) (stab : option (list R)) :
  lookup s df = Some f -> wf f ->
  get_col "s1_pitch" f = Some (NumCol p) ->
  get_col "spine_pitch_curvature" f = Some (NumCol pc) ->
  get_col "spine_roll_curvature" f = Some (NumCol rc) ->
  get_col "spine_stability" f = option_map NumCol stab ->
  exists g,
    classify_posture_realtime self df s = (Ok (length s), s ++ [g]) /\
    forall i, (i < nrows f)%nat ->
      exists z,
        num_at g "severity_score" i = Some (IZR z) /\ (0 <= z <= 8)%Z /\
        z = total_delta
              (triggered (thresholds self) (nth i p 0) (nth i pc 0)
                 (nth i rc 0) (option_map (fun ss => nth i ss 0) stab)).
Proof.
  intros Hdf Hwf Hp Hpc Hrc Hstab.
  destruct (classify_posture_realtime_run self s df f p pc rc stab
              Hdf Hwf Hp Hpc Hrc Hstab) as (g & Hrun & Hdone).
  exists g. split; [exact Hrun |]. intros i Hi.
  exists (snd (verdict_at (thresholds self) p pc rc stab i)).
  split;
    [exact (classified_severity (thresholds self) f g p pc rc stab i
              Hdone Hi) |].
  unfold verdict_at. split; [apply row_verdict_severity_range |].
  rewrite (row_verdict_accounted (thresholds self)), row_verdict_issues.
  reflexivity.
Qed.

(** Between two rows of one frame, the one whose pitch and pitch
    curvature are at least as large and whose roll curvature is at least
    as far from zero gets at least the severity of the other: stepping up
    from a mild tier to a severe one never lowers the score. *)
Theorem severity_grows_with_the_readings (sr ws : Z) (self : t) (s : store)
    (df : ref) (f : DataFrame) (p pc rc : list R)
    (stab : option (list R)) :
  init sr ws = Ok self ->
  lookup s df = Some f -> wf f ->
  get_col "s1_pitch" f = Some (NumCol p) ->
  get_col "spine_pitch_curvature" f = Some (NumCol pc) ->
  get_col "spine_roll_curvature" f = Some (NumCol rc) ->
  get_col "spine_stability" f = option_map NumCol stab ->
  exists g,
    classify_posture_realtime self df s = (Ok (length s), s ++ [g]) /\
    forall i j, (i < nrows f)%nat -> (j < nrows f)%nat ->
      nth i p 0 <= nth j p 0 ->
      nth i pc 0 <= nth j pc 0 ->
      Rabs (nth i rc 0) <= Rabs (nth j rc 0) ->
      exists vi vj,
        num_at g "severity_score" i = Some vi /\
        num_at g "severity_score" j = Some vj /\ vi <= vj.
Proof.
  intros Hinit Hdf Hwf Hp Hpc Hrc Hstab.
  destruct (init_thresholds sr ws self Hinit)
    as (T1 & T2 & T3 & T4 & T5 & T6 & _).
  destruct (classify_posture_realtime_run self s df f p pc rc stab
              Hdf Hwf Hp Hpc Hrc Hstab) as (g & Hrun & Hdone).
  exists g. split; [exact Hrun |]. intros i j Hi Hj Lp Lc Lr.
  eexists _, _.
  split;
    [exact (classified_severity (thresholds self) f g p pc rc stab i
              Hdone Hi) |].
  split;
    [exact (classified_severity (thresholds self) f g p pc rc stab j
              Hdone Hj) |].
  apply IZR_le. unfold verdict_at.
  apply row_verdict_monotone; try assumption.
  - rewrite T1, T2. lra.
  - rewrite T3, T4. lra.
  - rewrite T5, T6. lra.
Qed.

(* ----------------------------------------------------------------- *)
(** ** Alerts *)

Section Alerts.

Variables (self : t) (s : store) (r : ref) (g : DataFrame) (threshold : R).
Hypothesis Hr : lookup s r = Some g.

Lemma getitem_run (c : string) (col : column) :
  get_col c g = Some col -> getitem r c s = (Ok col, s).
Proof.
  intros Hc. unfold getitem.
  rewrite (bind_ok _ _ _ _ _ (read_run _ _ _ Hr)), Hc. reflexivity.
Qed.

Lemma getitem_missing (c : string) :
  get_col c g = None -> getitem r c s = (Raise (KeyError c), s).
Proof.
  intros Hc. unfold getitem.
  rewrite (bind_ok _ _ _ _ _ (read_run _ _ _ Hr)), Hc. reflexivity.
Qed.

(** The alert for the last row of a frame that has both columns. *)
Lemma generate_realtime_alert_run (vs : list R) (ls : list string)
    (v : R) (l : string) :
  get_col "severity_score" g = Some (NumCol vs) ->
  get_col "posture_label" g = Some (StrCol ls) ->
  nth_error vs (length vs - 1) = Some v ->
  nth_error ls (length ls - 1) = Some l ->
  generate_realtime_alert self r threshold s
  = (Ok (if Rge_dec v 3 then
           Some {| level := "high";
                   message := String.append "Posture Alert: "
                                (title (replace_underscores l));
                   action := "Adjust posture immediately";
                   type := "vibration" |}
         else if Rge_dec v 1 then
           Some {| level := "medium";
                   message := String.append "Posture Notice: "
                                (title (replace_underscores l));
                   action := "Consider adjusting position";
                   type := "notification" |}
         else None), s).
Proof.
  intros Hv Hl Ev El. unfold generate_realtime_alert.
  rewrite (bind_ok _ _ _ _ _ (has_column_run r _ s g Hr)).
  unfold has_col. rewrite Hv. cbn [negb].
  rewrite (bind_ok _ _ _ _ _ (getitem_run _ _ Hv)).
  unfold iloc_last at 1. rewrite Ev.
  erewrite bind_ok by reflexivity.
  rewrite (bind_ok _ _ _ _ _ (getitem_run _ _ Hl)).
  unfold iloc_last at 1. rewrite El.
  erewrite bind_ok by reflexivity.
  unfold ge_num at 1. erewrite bind_ok by reflexivity.
  destruct (Rge_dec v 3).
  - cbn [display_name]. erewrite bind_ok by reflexivity. reflexivity.
  - unfold ge_num. erewrite bind_ok by reflexivity.
    destruct (Rge_dec v 1).
    + cbn [display_name]. erewrite bind_ok by reflexivity. reflexivity.
    + reflexivity.
Qed.

End Alerts.

(** What the alert generator does short of an alert: a frame with no
    severity_score column gives no alert, whatever else it holds; a frame
    that has the column but no row raises IndexError; and a frame with
    severities but no posture_label column raises KeyError even where the
    last severity is below 1 and no alert would be due, because the label
    is read before the severity is looked at. *)
Theorem generate_realtime_alert_edges (self : t) (s : store) (r : ref)
    (g : DataFrame) (threshold : R) :
  lookup s r = Some g ->
  (get_col "severity_score" g = None ->
   generate_realtime_alert self r threshold s = (Ok None, s)) /\
  (forall col, get_col "severity_score" g = Some col -> col_len col = 0%nat ->
   generate_realtime_alert self r threshold s = (Raise IndexError, s)) /\
  (forall vs v,
     get_col "severity_score" g = Some (NumCol vs) ->
     nth_error vs (length vs - 1) = Some v ->
     get_col "posture_label" g = None ->
     generate_realtime_alert self r threshold s
     = (Raise (KeyError "posture_label"), s)).
Proof.
  intros Hr. split; [| split].
  - intros Hv. unfold generate_realtime_alert.
    rewrite (bind_ok _ _ _ _ _ (has_column_run r _ s g Hr)).
    unfold has_col. rewrite Hv. reflexivity.
  - intros col Hv Hlen. unfold generate_realtime_alert.
    rewrite (bind_ok _ _ _ _ _ (has_column_run r _ s g Hr)).
    unfold has_col. rewrite Hv. cbn [negb].
    rewrite (bind_ok _ _ _ _ _ (getitem_run s r g Hr _ _ Hv)).
    destruct col as [xs | xs]; destruct xs; try discriminate; reflexivity.
  - intros vs v Hv Ev Hl. unfold generate_realtime_alert.
    rewrite (bind_ok _ _ _ _ _ (has_column_run r _ s g Hr)).
    unfold has_col. rewrite Hv. cbn [negb].
    rewrite (bind_ok _ _ _ _ _ (getitem_run s r g Hr _ _ Hv)).
    unfold iloc_last at 1. rewrite Ev.
    erewrite bind_ok by reflexivity.
    rewrite (bind_raise _ _ _ _ _ (getitem_missing s r g Hr _ Hl)).
    reflexivity.
Qed.

Lemma movement_issues_add_nothing (th : Thresholds) (st : option R) :
  total_delta (movement_issues th st) = 0%Z.
Proof.
  unfold movement_issues. destruct st as [v |]; [| reflexivity].
  destruct (Rgt_dec v (movement_threshold th));
    [| destruct (Rlt_dec v (stability_threshold th))]; reflexivity.
Qed.

(** The alert after a classification goes by the last row: none when its
    issues add up to severity 0, a medium notice for 1 or 2, a high alert
    from 3 on, with the label of that row in title case as the message.
    A last row with no angle issue gives no alert, even if it carries a
    movement issue and so is not labelled good_posture. *)
Theorem alert_follows_the_last_row (self : t) (s : store) (df : ref)
    (f : DataFrame) (p pc rc : list R) (stab : option (list R))
    (threshold : R) :
  lookup s df = Some f -> wf f -> (0 < nrows f)%nat ->
  get_col "s1_pitch" f = Some (NumCol p) ->
  get_col "spine_pitch_curvature" f = Some (NumCol pc) ->
  get_col "spine_roll_curvature" f = Some (NumCol rc) ->
  get_col "spine_stability" f = option_map NumCol stab ->
  let i := (nrows f - 1)%nat in
  let angle :=
    angle_issues (thresholds self) (nth i p 0) (nth i pc 0) (nth i rc 0) in
  let issues :=
    triggered (thresholds self) (nth i p 0) (nth i pc 0) (nth i rc 0)
      (option_map (fun ss => nth i ss 0) stab) in
  let name := title (replace_underscores (label_of issues)) in
  exists g alert,
    classify_posture_realtime self df s = (Ok (length s), s ++ [g]) /\
    generate_realtime_alert self (length s) threshold (s ++ [g])
    = (Ok alert, s ++ [g]) /\
    (total_delta issues = 0%Z -> alert = None) /\
    (angle = [] -> alert = None) /\
    ((1 <= total_delta issues <= 2)%Z ->
     alert = Some {| level := "medium";
                     message := String.append "Posture Notice: " name;
                     action := "Consider adjusting position";
                     type := "notification" |}) /\
    ((3 <= total_delta issues)%Z ->
     alert = Some {| level := "high";
                     message := String.append "Posture Alert: " name;
                     action := "Adjust posture immediately";
                     type := "vibration" |}).
Proof.
  intros Hdf Hwf Hn Hp Hpc Hrc Hstab i angle issues name.
  destruct (classify_posture_realtime_run self s df f p pc rc stab
              Hdf Hwf Hp Hpc Hrc Hstab) as (g & Hrun & Hdone).
  pose proof Hdone as
    (_ & _ & _ & _ & _ & ls & cs & vs & Gl & Gc & Gv & Ll & Lc & Lv & Hrows).
  assert (Hi : (i < nrows f)%nat) by (subst i; lia).
  destruct (Hrows i Hi) as (El & _ & Ev).
  unfold verdict_at in El, Ev.
  rewrite (row_verdict_accounted (thresholds self)) in Ev.
  rewrite row_verdict_issues in El, Ev. fold issues in El, Ev.
  pose proof (row_verdict_severity_range (thresholds self) (nth i p 0)
                (nth i pc 0) (nth i rc 0)
                (option_map (fun ss => nth i ss 0) stab)) as Hrange.
  rewrite (row_verdict_accounted (thresholds self)), row_verdict_issues
    in Hrange. fold issues in Hrange.
  replace (Z.min (total_delta issues) 10) with (total_delta issues) in Ev
    by lia.
  assert (Ev' : nth_error vs (length vs - 1) = Some (IZR (total_delta issues)))
    by (rewrite Lv; exact Ev).
  assert (El' : nth_error ls (length ls - 1) = Some (label_of issues))
    by (rewrite Ll; exact El).
  pose proof (generate_realtime_alert_run self (s ++ [g]) (length s) g
                threshold (lookup_app_new s g) vs ls _ _ Gv Gl Ev' El')
    as Halert.
  fold name in Halert.
  eexists g, _. split; [exact Hrun |]. split; [exact Halert |].
  assert (H3 : forall z : Z, IZR z >= 3 <-> (3 <= z)%Z).
  { intros z. split; intros H.
    - apply le_IZR. lra.
    - apply IZR_le in H. lra. }
  assert (H1 : forall z : Z, IZR z >= 1 <-> (1 <= z)%Z).
  { intros z. split; intros H.
    - apply le_IZR. lra.
    - apply IZR_le in H. lra. }
  assert (Hnone : total_delta issues = 0%Z ->
    (if Rge_dec (IZR (total_delta issues)) 3 then
       Some {| level := "high";
               message := String.append "Posture Alert: " name;
               action := "Adjust posture immediately";
               type := "vibration" |}
     else if Rge_dec (IZR (total_delta issues)) 1 then
       Some {| level := "medium";
               message := String.append "Posture Notice: " name;
               action := "Consider adjusting position";
               type := "notification" |}
     else None) = None).
  { intros E.
    destruct (Rge_dec (IZR (total_delta issues)) 3) as [G | _];
      [apply H3 in G; lia |].
    destruct (Rge_dec (IZR (total_delta issues)) 1) as [G | _];
      [apply H1 in G; lia | reflexivity]. }
  split; [exact Hnone |].
  split.
  { intros Ea. apply Hnone. subst issues. unfold triggered. fold angle.
    rewrite Ea. cbn [app]. apply movement_issues_add_nothing. }
  split.
  - intros [Hlo Hhi].
    destruct (Rge_dec (IZR (total_delta issues)) 3) as [G | _];
      [apply H3 in G; lia |].
    destruct (Rge_dec (IZR (total_delta issues)) 1) as [_ | G];
      [reflexivity |].
    exfalso. apply G, H1. exact Hlo.
  - intros Hhi.
    destruct (Rge_dec (IZR (total_delta issues)) 3) as [_ | G];
      [reflexivity |].
    exfalso. apply G, H3. exact Hhi.
Qed.

(* ----------------------------------------------------------------- *)
(** ** The learned classifier *)

Section Learned.

Context `{Sklearn}.

Lemma getitem_store (r : ref) (c : string) (s : store) :
  snd (getitem r c s) = s.
Proof.
  unfold getitem, bind, read. destruct (lookup s r) as [f |]; [| reflexivity].
  destruct (get_col c f); reflexivity.
Qed.

Lemma feature_matrix_store (df : ref) (cols : list string) (s : store) :
  snd (feature_matrix df cols s) = s.
Proof.
  induction cols as [| c cols IH]; cbn [feature_matrix]; [reflexivity |].
  unfold bind at 1. pose proof (getitem_store df c s) as Hg.
  destruct (getitem df c s) as [[[xs | xs] | e] s1]; cbn in Hg; subst s1;
    try reflexivity.
  unfold bind.
  destruct (feature_matrix df cols s) as [[o | e] s2]; cbn in IH; subst;
    reflexivity.
Qed.

Lemma available_features_run (df : ref) (s : store) (f : DataFrame) :
  lookup s df = Some f ->
  available_features df s
  = (Ok (filter (fun col => has_col col f) ml_feature_columns), s).
Proof.
  intros Hdf. unfold available_features.
  rewrite (bind_ok _ _ _ _ _ (read_run _ _ _ Hdf)). reflexivity.
Qed.

Lemma setitem_new_frame (s : store) (g : DataFrame) (c : string)
    (v : column) :
  setitem (length s) c v (s ++ [g])
  = if Nat.eqb (col_len v) (nrows g)
    then (Ok tt, s ++ [set_col c v g])
    else (Raise (ValueError "Length of values does not match length of index"),
          s ++ [g]).
Proof.
  unfold setitem.
  rewrite (bind_ok _ _ _ _ _ (read_run _ _ _ (lookup_app_new s g))).
  destruct (Nat.eqb (col_len v) (nrows g)); [| reflexivity].
  unfold write. rewrite update_app_new. reflexivity.
Qed.

End Learned.

(** Without a fitted model the learned classifier hands back the very
    frame it was given, not a copy, and leaves the store as it is: when
    the instance is not trained, when it holds no model, and when the
    frame has fewer than five of the ten feature columns. *)
Theorem predict_posture_ml_passes_through `{Sklearn} (self : t)
    (learner : Learner) (df : ref) (s : store) (f : DataFrame) :
  lookup s df = Some f ->
  is_trained self = false \/ ml_model learner = None \/
  (length (filter (fun col => has_col col f) ml_feature_columns) < 5)%nat ->
  predict_posture_ml self learner df s = (Ok df, s).
Proof.
  intros Hdf Hcase. unfold predict_posture_ml.
  destruct (is_trained self); [| reflexivity].
  destruct (ml_model learner) as [model |]; [| reflexivity].
  destruct Hcase as [E | [E | Hfew]]; try discriminate.
  rewrite (bind_ok _ _ _ _ _ (available_features_run df s f Hdf)).
  destruct (Nat.ltb_spec
              (length (filter (fun col => has_col col f) ml_feature_columns))
              5); [reflexivity | lia].
Qed.

(** Whenever the learned classifier returns, it has either passed its
    input through untouched or allocated one new frame: the input's rows
    and columns with [ml_prediction] and [ml_confidence] added, one entry
    per row each, whatever the library computed.  The frames the caller
    holds are never written to. *)
Theorem predict_posture_ml_adds_two_columns `{Sklearn} (self : t)
    (learner : Learner) (df : ref) (s : store) (f : DataFrame) (r : ref) :
  lookup s df = Some f ->
  fst (predict_posture_ml self learner df s) = Ok r ->
  let s' := snd (predict_posture_ml self learner df s) in
  (r = df /\ s' = s) \/
  (r = length s /\
   exists g predictions confidences,
     s' = s ++ [g] /\ nrows g = nrows f /\
     get_col "ml_prediction" g = Some (StrCol predictions) /\
     length predictions = nrows f /\
     get_col "ml_confidence" g = Some (NumCol confidences) /\
     length confidences = nrows f /\
     forall c, c <> "ml_prediction" -> c <> "ml_confidence" ->
               get_col c g = get_col c f).
Proof.
  intros Hdf.
  destruct (predict_posture_ml self learner df s) as [res s'] eqn:Erun.
  cbn [fst snd]. intros ->. revert Erun. unfold predict_posture_ml.
  assert (Hsame : forall d : ref,
            (Ok d, s) = (Ok r, s') -> r = d /\ s' = s)
    by (intros d E; split; congruence).
  destruct (is_trained self); [| intros E; left; apply Hsame, E].
  destruct (ml_model learner) as [model |];
    [| intros E; left; apply Hsame, E].
  rewrite (bind_ok _ _ _ _ _ (available_features_run df s f Hdf)).
  set (cols := filter (fun col => has_col col f) ml_feature_columns).
  destruct (length cols <? 5)%nat; [intros E; left; apply Hsame, E |].
  pose proof (feature_matrix_store df cols s) as HX.
  destruct (feature_matrix df cols s) as [[X | e] s1] eqn:EX; cbn in HX;
    subst s1.
  2:{ rewrite (bind_raise _ _ _ _ _ EX). discriminate. }
  rewrite (bind_ok _ _ _ _ _ EX).
  destruct (transform (scaler learner) X) as [Xs | e] eqn:ET;
    [| unfold bind at 1; cbn; discriminate].
  unfold bind at 1. cbn [lift ret].
  rewrite (bind_ok _ _ _ _ _ (copy_run df s f Hdf)).
  destruct (predict model Xs) as [ps | e] eqn:EP;
    [| unfold bind at 1; cbn; discriminate].
  unfold bind at 1. cbn [lift ret].
  unfold bind at 1. rewrite setitem_new_frame.
  destruct (Nat.eqb_spec (col_len (StrCol ps)) (nrows f)) as [Lp | _];
    [| discriminate].
  destruct (predict_proba_max model Xs) as [cs | e] eqn:EC;
    [| unfold bind at 1; cbn; discriminate].
  unfold bind at 1. cbn [lift ret].
  unfold bind at 1. rewrite setitem_new_frame.
  cbn [nrows set_col].
  destruct (Nat.eqb_spec (col_len (NumCol cs)) (nrows f)) as [Lc | _];
    [| discriminate].
  unfold ret. intros E. right. split; [congruence |].
  exists (set_col "ml_confidence" (NumCol cs)
            (set_col "ml_prediction" (StrCol ps) f)), ps, cs.
  split; [congruence |].
  split; [reflexivity |].
  split; [rewrite get_set_other by discriminate; apply get_set_same |].
  split; [exact Lp |].
  split; [apply get_set_same |].
  split; [exact Lc |].
  intros c H1 H2. rewrite !get_set_other by assumption. reflexivity.
Qed.

(* ----------------------------------------------------------------- *)
(** ** The complete analysis *)

Lemma label_of_triggered (th : Thresholds) (pitch cp cr : R)
    (st : option R) :
  In (label_of (triggered th pitch cp cr st)) posture_labels.
Proof.
  unfold triggered, angle_issues, movement_issues, tier.
  destruct (Rgt_dec pitch (forward_head_severe th));
    [| destruct (Rgt_dec pitch (forward_head_mild th))];
    (destruct (Rgt_dec cp (hunched_shoulders_severe th));
     [| destruct (Rgt_dec cp (hunched_shoulders_mild th))]);
    (destruct (Rgt_dec (Rabs cr) (side_lean_severe th));
     [| destruct (Rgt_dec (Rabs cr) (side_lean_mild th))]);
    (destruct st as [v |];
     [destruct (Rgt_dec v (movement_threshold th));
      [| destruct (Rlt_dec v (stability_threshold th))] |]);
    cbn; auto 15.
Qed.

(** A row whose stability is below the static bound is never good. *)
Lemma label_of_static (th : Thresholds) (pitch cp cr v : R) :
  v <= movement_threshold th -> v < stability_threshold th ->
  In "static_posture" (triggered th pitch cp cr (Some v)) /\
  (label_of (triggered th pitch cp cr (Some v)) = "static_posture" \/
   label_of (triggered th pitch cp cr (Some v)) = "multiple_issues").
Proof.
  intros Hm Hs.
  unfold triggered, angle_issues, movement_issues, tier.
  destruct (Rgt_dec v (movement_threshold th)); [lra |].
  destruct (Rlt_dec v (stability_threshold th)); [| lra].
  destruct (Rgt_dec pitch (forward_head_severe th));
    [| destruct (Rgt_dec pitch (forward_head_mild th))];
    (destruct (Rgt_dec cp (hunched_shoulders_severe th));
     [| destruct (Rgt_dec cp (hunched_shoulders_mild th))]);
    (destruct (Rgt_dec (Rabs cr) (side_lean_severe th));
     [| destruct (Rgt_dec (Rabs cr) (side_lean_mild th))]);
    cbn; auto 15.
Qed.

Lemma classify_posture_realtime_keeps (self : t) (df : ref) (s : store)
    (f g : DataFrame) (r : result ref) :
  lookup s df = Some f ->
  classify_posture_realtime self df s = (r, s ++ [g]) ->
  forall c, ~ In c classification_columns -> get_col c g = get_col c f.
Proof.
  intros Hdf Hrun.
  assert (Hk : exists g',
            lookup (snd (classify_posture_realtime self df s)) (length s)
            = Some g' /\ nrows g' = nrows f /\
            forall c, ~ In c classification_columns ->
                      get_col c g' = get_col c f).
  { unfold classify_posture_realtime.
    apply (copy_then_touch df _ _ s f Hdf). intros d.
    unfold classify_row. stage_columns. }
  destruct Hk as (g' & Hl & _ & Hc).
  rewrite Hrun in Hl. cbn [snd] in Hl. rewrite lookup_app_new in Hl.
  inversion Hl; subst g'. exact Hc.
Qed.

Lemma lookup_fourth (s : store) (g1 g2 g3 g4 : DataFrame)
    (tails : list DataFrame) :
  lookup ((s ++ [g1; g2; g3; g4]) ++ tails) (S (S (S (length s))))
  = Some g4.
Proof.
  apply lookup_app_old.
  replace (s ++ [g1; g2; g3; g4]) with ((s ++ [g1; g2; g3]) ++ [g4])
    by (rewrite <- app_assoc; reflexivity).
  replace (S (S (S (length s)))) with (length (s ++ [g1; g2; g3]))
    by (rewrite length_app; cbn; lia).
  apply lookup_app_new.
Qed.

Section CompleteAnalysis.

Context `{Sklearn} `{SciPy}.

Variables (sr ws : Z) (self : t) (learner : Learner).
Variables (s : store) (df : ref) (f : DataFrame).
Hypothesis Hinit : init sr ws = Ok self.
Hypothesis Hsr : (1 <= sr)%Z.
Hypothesis Hdf : lookup s df = Some f.
Hypothesis Hnum : forall c, In c filtered_columns -> numeric f c.
Hypothesis Hcase : (sr <= 6)%Z \/ (nrows f <= 8)%nat \/ (16 <= nrows f)%nat.

(** The run of the five levels on an instance that [init] built. *)
Lemma process_complete_analysis_run :
  exists g1 g2 g3 g4 p pc rc m report tails,
    process_complete_analysis self learner df s
    = (Ok (S (S (S (length s))), report),
       (s ++ [g1; g2; g3; g4]) ++ tails) /\
    nrows g3 = nrows f /\ length m = nrows f /\
    classified_upto (thresholds self) g3 p pc rc
      (Some (pipeline_stability self (nrows f) m)) (nrows f) g4 /\
    ((Z.of_nat (nrows f) < sr * 60)%Z ->
     report = insufficient_data /\ tails = []) /\
    ((sr * 60 <= Z.of_nat (nrows f))%Z ->
     exists ls dist recs,
       get_col "posture_label" g4 = Some (StrCol ls) /\
       length ls = nrows f /\
       pattern_analysis report = None /\
       total_samples report
       = Some (Nat.min (Z.to_nat (5 * 60 * sr)) (nrows f)) /\
       posture_distribution report = Some dist /\
       dist = percentages
                (last_rows (Nat.min (Z.to_nat (5 * 60 * sr)) (nrows f)) ls)
                (Nat.min (Z.to_nat (5 * 60 * sr)) (nrows f)) /\
       recommendations report = Some recs /\ (length recs <= 6)%nat).
Proof.
  destruct (four_stages_run sr ws self s df f Hinit Hdf Hnum Hcase)
    as (g1 & g2 & g3 & g4 & p & pc & rc & m & Hrun1 & Hrun2 & Hrun3 & Hrun4
        & Hn1 & Hn2 & Hn3 & Hm2 & Hm3 & Lm & Lp & Hdone).
  destruct (init_fields sr ws self Hinit) as (_ & Esr & _).
  destruct (init_thresholds sr ws self Hinit)
    as (_ & _ & _ & _ & _ & _ & _ & _ & Etrained).
  fold (pipeline_stability self (nrows f) m) in Hdone.
  assert (Hl3 : lookup (s ++ [g1; g2; g3]) (S (S (length s))) = Some g3).
  { replace (s ++ [g1; g2; g3]) with ((s ++ [g1; g2]) ++ [g3])
      by (rewrite <- app_assoc; reflexivity).
    replace (S (S (length s))) with (length (s ++ [g1; g2]))
      by (rewrite length_app; cbn; lia).
    apply lookup_app_new. }
  assert (Hl4 : lookup (s ++ [g1; g2; g3; g4]) (S (S (S (length s))))
                = Some g4).
  { pose proof (lookup_fourth s g1 g2 g3 g4 []) as E.
    rewrite app_nil_r in E. exact E. }
  assert (Hn4 : nrows g4 = nrows f).
  { destruct Hdone as (E & _). lia. }
  assert (Hpre :
            process_complete_analysis self learner df s
            = (pattern_results <-
                 analyze_patterns self (S (S (S (length s)))) 5 ;;
               ret (S (S (S (length s))), pattern_results))
                (s ++ [g1; g2; g3; g4])).
  { unfold process_complete_analysis.
    rewrite (bind_ok _ _ _ _ _ Hrun1), (bind_ok _ _ _ _ _ Hrun2),
      (bind_ok _ _ _ _ _ Hrun3), (bind_ok _ _ _ _ _ Hrun4).
    rewrite Etrained. unfold bind, ret.
    destruct (analyze_patterns self (S (S (S (length s)))) 5
                (s ++ [g1; g2; g3; g4])) as [[rep | e] s'];
      reflexivity. }
  destruct (Z.ltb_spec (Z.of_nat (nrows f)) (sr * 60)) as [Hshort | Hlong].
  - exists g1, g2, g3, g4, p, pc, rc, m, insufficient_data, [].
    split.
    { rewrite Hpre, app_nil_r.
      erewrite bind_ok; [reflexivity |].
      apply (analyze_patterns_short self _ _ g4 5 Hl4).
      rewrite Hn4, Esr. exact Hshort. }
    split; [exact Hn3 |]. split; [exact Lm |]. split; [exact Hdone |].
    split; [auto | lia].
  - pose proof Hdone as
      (_ & Gp & _ & _ & Gs & ls & cs & vs & Gl & _ & _ & Ll & _ & _ & _).
    cbn [option_map] in Gs.
    assert (Gm : get_col "spine_curvature_magnitude" g4 = Some (NumCol m)).
    { assert (Hrun4' : classify_posture_realtime self (S (S (length s)))
                         (s ++ [g1; g2; g3])
                       = (Ok (S (S (S (length s)))),
                          (s ++ [g1; g2; g3]) ++ [g4])).
      { rewrite Hrun4, <- app_assoc. reflexivity. }
      rewrite (classify_posture_realtime_keeps self _ _ g3 g4 _ Hl3 Hrun4');
        [exact Hm3 |].
      cbn. intros Hin.
      repeat (destruct Hin as [Hin | Hin]; [discriminate |]).
      contradiction. }
    assert (Lss : length (pipeline_stability self (nrows f) m) = nrows f).
    { unfold pipeline_stability.
      destruct (10 <=? window_samples self (nrows f))%Z.
      - rewrite length_rolling_std. exact Lm.
      - apply repeat_length. }
    destruct (analyze_patterns_run self (s ++ [g1; g2; g3; g4])
                (S (S (S (length s)))) g4 5 ls p m
                (pipeline_stability self (nrows f) m) Hl4)
      as (recs & Hrun5 & Hrecs); try lia; try assumption.
    rewrite Hn4, Esr in Hrun5.
    eexists g1, g2, g3, g4, p, pc, rc, m, _, _.
    split.
    { rewrite Hpre. erewrite bind_ok by exact Hrun5. reflexivity. }
    split; [exact Hn3 |]. split; [exact Lm |]. split; [exact Hdone |].
    split; [lia |]. intros _.
    eexists ls, _, recs. cbn.
    split; [exact Gl |]. split; [lia |].
    repeat split. exact Hrecs.
Qed.

End CompleteAnalysis.

Lemma confidence_of_static (th : Thresholds) (pitch cp cr v : R) :
  v <= movement_threshold th -> v < stability_threshold th ->
  confidence_of (triggered th pitch cp cr (Some v)) <= 8 / 10.
Proof.
  intros Hm Hs.
  unfold triggered, angle_issues, movement_issues, tier.
  destruct (Rgt_dec v (movement_threshold th)); [lra |].
  destruct (Rlt_dec v (stability_threshold th)); [| lra].
  destruct (Rgt_dec pitch (forward_head_severe th));
    [| destruct (Rgt_dec pitch (forward_head_mild th))];
    (destruct (Rgt_dec cp (hunched_shoulders_severe th));
     [| destruct (Rgt_dec cp (hunched_shoulders_mild th))]);
    (destruct (Rgt_dec (Rabs cr) (side_lean_severe th));
     [| destruct (Rgt_dec (Rabs cr) (side_lean_mild th))]);
    cbn; lra.
Qed.

Lemma pipeline_stability_starved (sr ws : Z) (self : t) (n : nat)
    (m : list R) (i : nat) :
  init sr ws = Ok self -> (1 <= sr)%Z -> length m = n ->
  (i < n)%nat -> (i < 4)%nat \/ (n < 10)%nat ->
  nth i (pipeline_stability self n m) 0 = 0.
Proof.
  intros Hinit Hsr Lm Hi Hcase.
  destruct (init_fields sr ws self Hinit) as (_ & Esr & _ & Efw & _).
  unfold pipeline_stability, window_samples. rewrite Efw, Esr.
  destruct (Z.leb_spec 10 (Z.min (30 * sr) (Z.of_nat n))) as [Hw | Hw].
  - destruct Hcase as [H4 | Hn]; [| lia].
    apply nth_error_nth. apply rolling_std_starved; lia.
  - apply nth_error_nth. apply nth_error_repeat. exact Hi.
Qed.

(** The complete analysis of a recording, on an instance as [init] builds
    it, at a positive sample rate and on input outside the lengths at
    which the preprocessor fails: it returns a new frame with one row per
    input sample, each row labelled with one of the ten posture labels
    (never left at "unknown") and scored from 0 to 8, together with the
    report, which is the insufficient-data report below a minute of data
    and otherwise covers the last min(300 * sample_rate, n) rows, with a
    distribution over posture labels only and at most 6 recommendations.
    The input frame is still what it was. *)
Theorem complete_analysis_labels_every_sample `{Sklearn} `{SciPy}
    (sr ws : Z) (self : t) (learner : Learner) (s : store) (df : ref)
    (f : DataFrame) :
  init sr ws = Ok self -> (1 <= sr)%Z ->
  lookup s df = Some f ->
  (forall c, In c filtered_columns -> numeric f c) ->
  (sr <= 6)%Z \/ (nrows f <= 8)%nat \/ (16 <= nrows f)%nat ->
  exists report added g,
    process_complete_analysis self learner df s
    = (Ok (S (S (S (length s))), report), s ++ added) /\
    lookup (s ++ added) (S (S (S (length s)))) = Some g /\
    lookup (s ++ added) df = Some f /\
    nrows g = nrows f /\
    (forall i, (i < nrows f)%nat ->
       exists label severity,
         str_at g "posture_label" i = Some label /\
         In label posture_labels /\
         num_at g "severity_score" i = Some (IZR severity) /\
         (0 <= severity <= 8)%Z) /\
    ((Z.of_nat (nrows f) < sr * 60)%Z -> report = insufficient_data) /\
    ((sr * 60 <= Z.of_nat (nrows f))%Z ->
     exists dist recs,
       pattern_analysis report = None /\
       total_samples report
       = Some (Nat.min (Z.to_nat (300 * sr)) (nrows f)) /\
       posture_distribution report = Some dist /\
       (forall label, In label (keys dist) -> In label posture_labels) /\
       recommendations report = Some recs /\ (length recs <= 6)%nat).
Proof.
  intros Hinit Hsr Hdf Hnum Hcase.
  destruct (process_complete_analysis_run sr ws self learner s df f
              Hinit Hsr Hdf Hnum Hcase)
    as (g1 & g2 & g3 & g4 & p & pc & rc & m & report & tails & Hrun & Hn3
        & Lm & Hdone & Hshort & Hlong).
  exists report, ([g1; g2; g3; g4] ++ tails), g4.
  rewrite app_assoc.
  split; [exact Hrun |].
  split; [apply lookup_fourth |].
  split; [rewrite <- app_assoc; apply lookup_app_old; exact Hdf |].
  pose proof Hdone as
    (Hn4 & _ & _ & _ & _ & ls & cs & vs & Gl & _ & Gv & _ & _ & _ & Hrows).
  split; [lia |].
  split; [| split].
  - intros i Hi. destruct (Hrows i Hi) as (El & _ & Ev).
    exists (label_of (fst (verdict_at (thresholds self) p pc rc
                             (Some (pipeline_stability self (nrows f) m)) i))),
           (snd (verdict_at (thresholds self) p pc rc
                   (Some (pipeline_stability self (nrows f) m)) i)).
    split; [exact (str_at_col g4 _ ls i _ Gl El) |].
    split.
    { unfold verdict_at. rewrite row_verdict_issues.
      apply label_of_triggered. }
    split.
    { apply (num_at_col g4 _ vs i _ Gv). rewrite Ev. do 2 f_equal.
      pose proof (row_verdict_severity_range (thresholds self) (nth i p 0)
                    (nth i pc 0) (nth i rc 0)
                    (option_map (fun ss => nth i ss 0)
                       (Some (pipeline_stability self (nrows f) m)))).
      unfold verdict_at. lia. }
    unfold verdict_at. apply row_verdict_severity_range.
  - intros Hs. apply Hshort, Hs.
  - intros Hl.
    destruct (Hlong Hl)
      as (ls' & dist & recs & Gl' & Ll & Ep & Et & Ed & Edist & Er & Hrecs).
    exists dist, recs.
    replace (300 * sr)%Z with (5 * 60 * sr)%Z by lia.
    split; [exact Ep |]. split; [exact Et |]. split; [exact Ed |].
    split; [| split; [exact Er | exact Hrecs]].
    set (k := Nat.min (Z.to_nat (5 * 60 * sr)) (nrows f)) in *.
    assert (Hk : (60 <= k <= nrows f)%nat).
    { subst k. split; [apply Nat.min_glb |]; nia. }
    assert (Lk : length (last_rows k ls') = k)
      by (apply length_last_rows; lia).
    intros label Hin. rewrite Edist in Hin.
    pose proof (keys_percentages (last_rows k ls')) as Hkeys.
    rewrite Lk in Hkeys. rewrite Hkeys in Hin.
    apply in_keys_value_counts, in_last_rows in Hin.
    apply In_nth_error in Hin. destruct Hin as (i & Ei).
    assert (Hi : (i < nrows f)%nat).
    { rewrite <- Ll. apply nth_error_Some. congruence. }
    assert (Els : ls' = ls) by congruence. subst ls'.
    destruct (Hrows i Hi) as (El & _ & _).
    assert (E : label
                = label_of (fst (verdict_at (thresholds self) p pc rc
                                   (Some (pipeline_stability self (nrows f) m))
                                   i)))
      by congruence.
    rewrite E. unfold verdict_at. rewrite row_verdict_issues.
    apply label_of_triggered.
Qed.

(** In the complete analysis the first four samples of every recording,
    and every sample of a recording of fewer than ten, have a spine
    stability of 0, which is below the static bound: they carry the issue
    static_posture, so their label is "static_posture" or
    "multiple_issues", never "good_posture", at a confidence of 0.8 at
    most. *)
Theorem complete_analysis_starts_static `{Sklearn} `{SciPy}
    (sr ws : Z) (self : t) (learner : Learner) (s : store) (df : ref)
    (f : DataFrame) :
  init sr ws = Ok self -> (1 <= sr)%Z ->
  lookup s df = Some f ->
  (forall c, In c filtered_columns -> numeric f c) ->
  (sr <= 6)%Z \/ (nrows f <= 8)%nat \/ (16 <= nrows f)%nat ->
  exists report added g,
    process_complete_analysis self learner df s
    = (Ok (S (S (S (length s))), report), s ++ added) /\
    lookup (s ++ added) (S (S (S (length s)))) = Some g /\
    forall i, (i < nrows f)%nat -> (i < 4)%nat \/ (nrows f < 10)%nat ->
      num_at g "spine_stability" i = Some 0 /\
      (str_at g "posture_label" i = Some "static_posture" \/
       str_at g "posture_label" i = Some "multiple_issues") /\
      exists c, num_at g "confidence" i = Some c /\ c <= 8 / 10.
Proof.
  intros Hinit Hsr Hdf Hnum Hcase.
  destruct (process_complete_analysis_run sr ws self learner s df f
              Hinit Hsr Hdf Hnum Hcase)
    as (g1 & g2 & g3 & g4 & p & pc & rc & m & report & tails & Hrun & Hn3
        & Lm & Hdone & _).
  exists report, ([g1; g2; g3; g4] ++ tails), g4.
  rewrite app_assoc.
  split; [exact Hrun |].
  split; [apply lookup_fourth |].
  destruct (init_thresholds sr ws self Hinit)
    as (_ & _ & _ & _ & _ & _ & Tm & Ts & _).
  destruct Hdone as
    (Hn4 & _ & _ & _ & Gs & ls & cs & vs & Gl & Gc & _ & _ & _ & _ & Hrows).
  cbn [option_map] in Gs.
  intros i Hi Hfew. destruct (Hrows i Hi) as (El & Ec & _).
  unfold verdict_at in El, Ec. rewrite row_verdict_issues in El, Ec.
  cbn [option_map] in El, Ec.
  pose proof (pipeline_stability_starved sr ws self (nrows f) m i
                Hinit Hsr Lm Hi Hfew) as E0.
  rewrite E0 in El, Ec.
  assert (Hm0 : 0 <= movement_threshold (thresholds self))
    by (rewrite Tm; lra).
  assert (Hs0 : 0 < stability_threshold (thresholds self))
    by (rewrite Ts; lra).
  split.
  { apply (num_at_col g4 _ _ i 0 Gs).
    assert (Li : (i < length (pipeline_stability self (nrows f) m))%nat).
    { unfold pipeline_stability.
      destruct (10 <=? window_samples self (nrows f))%Z.
      - rewrite length_rolling_std. lia.
      - rewrite repeat_length. exact Hi. }
    rewrite <- E0. apply nth_error_nth'. exact Li. }
  split.
  - destruct (label_of_static (thresholds self) (nth i p 0) (nth i pc 0)
                (nth i rc 0) 0 Hm0 Hs0) as (_ & [E | E]).
    + left. rewrite <- E. exact (str_at_col g4 _ ls i _ Gl El).
    + right. rewrite <- E. exact (str_at_col g4 _ ls i _ Gl El).
  - eexists. split; [exact (num_at_col g4 _ cs i _ Gc Ec) |].
    apply confidence_of_static; assumption.
Qed.

(* ----------------------------------------------------------------- *)
(** ** The alerts among the recommendations *)

Section Advice.

Lemma in_firstn {A} (n : nat) (l : list A) (x : A) :
  In x (firstn n l) -> In x l.
Proof.
  revert l. induction n as [| n IH]; intros [| a l]; cbn; try contradiction.
  intros [E | Hin]; [left; exact E | right; apply IH, Hin].
Qed.

Lemma worsening_only (o : option string) (x : string) :
  (match o with Some "worsening" => [x] | _ => [] end) = [] \/
  (match o with Some "worsening" => [x] | _ => [] end) = [x].
Proof.
  destruct o as [s |]; [| left; reflexivity].
  repeat (first [ left; reflexivity | right; reflexivity
                | match goal with
                  | |- context [match ?v with _ => _ end] => destruct v
                  end ]).
Qed.

Lemma curvature_advice_is_later (o : option string) (x : string) :
  In x (match o with
        | Some "improving" =>
            ["Great news! Your posture is improving over time"]
        | Some "worsening" =>
            ["Warning: Posture declining - review workspace setup"]
        | _ => []
        end) ->
  In x later_advice.
Proof.
  destruct o as [s |]; [| contradiction].
  repeat (first [ contradiction
                | intros [<- | []]; cbn; solve [auto 15]
                | match goal with
                  | |- context [match ?v with _ => _ end] => destruct v
                  end ]).
Qed.

(** The list before the cut: the three alerts with their exercises, then
    advice that is none of the alerts. *)
Lemma generate_recommendations_shape (self : t) (ar : PatternReport)
    (dist : list (string * R)) :
  posture_distribution ar = Some dist ->
  exists trend_alert rest,
    generate_recommendations self ar
    = firstn 6
        (when (gtb (share dist "severe_forward_head" "mild_forward_head") 30)
           ([forward_head_alert; "Exercise: Chin tucks (10 reps every hour)"]
            ++ trend_alert)
         ++ when (gtb (share dist "severe_hunched" "mild_hunched") 25)
              [hunched_alert;
               "Stretching: Doorway chest stretch (30 seconds, 3 times)"]
         ++ when (gtb (share dist "severe_side_lean" "mild_side_lean") 20)
              [side_lean_alert;
               "Exercise: Side planks for core strengthening"]
         ++ rest) /\
    (trend_alert = [] \/
     trend_alert
     = ["Trend Alert: Forward head posture is getting worse - take immediate action!"]) /\
    forall x, In x rest -> In x later_advice.
Proof.
  intros Hd. unfold generate_recommendations. rewrite Hd. cbv zeta.
  eexists _, _. split; [reflexivity |]. split; [apply worsening_only |].
  intros x Hin. apply in_app_or in Hin. destruct Hin as [Hin | Hin].
  { destruct (String.eqb _ "too_static");
      [| destruct (String.eqb _ "highly_dynamic")];
      cbn in Hin |- *; intuition. }
  apply in_app_or in Hin. destruct Hin as [Hin | Hin].
  { unfold gtb, ltb in Hin.
    destruct (Rgt_dec _ 70); [| destruct (Rgt_dec _ 50);
                                [| destruct (Rlt_dec _ 30)]];
      cbn in Hin |- *; intuition. }
  apply curvature_advice_is_later in Hin. exact Hin.
Qed.

End Advice.

(** Each of the three alerts is among the recommendations exactly when
    its share of the window is above its bound (30, 25 and 20 percent):
    the cut to six entries never removes an alert, although it can remove
    the exercise that goes with the side-lean alert and all the advice
    that follows.  A forward-head alert is always the first entry. *)
Theorem alerts_survive_the_cut (self : t) (ar : PatternReport)
    (dist : list (string * R)) :
  posture_distribution ar = Some dist ->
  let recs := generate_recommendations self ar in
  (In forward_head_alert recs
   <-> share dist "severe_forward_head" "mild_forward_head" > 30) /\
  (In hunched_alert recs
   <-> share dist "severe_hunched" "mild_hunched" > 25) /\
  (In side_lean_alert recs
   <-> share dist "severe_side_lean" "mild_side_lean" > 20) /\
  (share dist "severe_forward_head" "mild_forward_head" > 30 ->
   nth_error recs 0 = Some forward_head_alert).
Proof.
  intros Hd recs. subst recs.
  destruct (generate_recommendations_shape self ar dist Hd)
    as (w & rest & -> & Hw & Hrest).
  assert (Hnot : forall x n,
            In x (firstn n rest) -> In x later_advice)
    by (intros x n Hin; apply Hrest, (in_firstn n), Hin).
  unfold when, gtb.
  destruct (Rgt_dec (share dist "severe_forward_head" "mild_forward_head") 30);
    destruct (Rgt_dec (share dist "severe_hunched" "mild_hunched") 25);
    destruct (Rgt_dec (share dist "severe_side_lean" "mild_side_lean") 20);
    destruct Hw as [-> | ->];
    cbn [app]; rewrite ?firstn_cons;
    (repeat split;
     try (intros _; cbn; solve [auto 10]);
     try (intros _; assumption);
     try reflexivity;
     try (intros Hin; exfalso; cbn [In] in Hin;
          repeat (destruct Hin as [Hin | Hin]; [discriminate |]);
          try contradiction;
          apply Hnot in Hin; cbn in Hin;
          repeat (destruct Hin as [Hin | Hin]; [discriminate |]);
          contradiction);
     try (intros; lra)).
Qed.

(* ----------------------------------------------------------------- *)
(** ** The further properties on examples *)

Lemma stages_touch_own_columns_only_witness :
  lookup [upright] 0%nat = Some upright /\
  exists g,
    lookup (snd (extract_orientation ten_hertz 0%nat [upright])) 1%nat
    = Some g /\
    nrows g = 1%nat /\
    get_col "timestamp" g = get_col "timestamp" upright.
Proof.
  split; [reflexivity |].
  destruct (proj1 (proj2
             (@stages_touch_own_columns_only passthrough ten_hertz 0%nat
                [upright] upright eq_refl)))
    as (g & Hl & Hn & Hc).
  exists g. split; [exact Hl |]. split; [exact Hn |].
  apply Hc. cbn. intuition discriminate.
Defined.

Lemma orientation_angles_in_range_witness :
  exists g p1,
    extract_orientation ten_hertz 0%nat [upright]
    = (Ok 1%nat, [upright] ++ [g]) /\
    num_at g "s1_pitch" 0 = Some p1 /\ -90 <= p1 <= 90.
Proof.
  destruct (orientation_angles_in_range ten_hertz [upright] 0%nat upright
              [0] [0] [98 / 10] [0] [0] [98 / 10]
              eq_refl ltac:(repeat constructor)
              eq_refl eq_refl eq_refl eq_refl eq_refl eq_refl)
    as (g & Hrun & Hrows).
  destruct (Hrows 0%nat (le_n 1))
    as (p1 & r1 & p2 & r2 & cp & cr & cm & Hp1 & _ & _ & _ & _ & _ & _
        & Hrange & _).
  exists g, p1. split; [exact Hrun |]. split; [exact Hp1 | exact Hrange].
Defined.

Lemma severity_score_between_0_and_8_witness :
  exists g z,
    classify_posture_realtime ten_hertz 0%nat [leaning]
    = (Ok 1%nat, [leaning] ++ [g]) /\
    num_at g "severity_score" 0 = Some (IZR z) /\ (0 <= z <= 8)%Z.
Proof.
  destruct (severity_score_between_0_and_8 ten_hertz [leaning] 0%nat leaning
              [25; 0] [0; 0] [0; 0] (Some [5 / 2; 5 / 2])
              eq_refl ltac:(repeat constructor)
              eq_refl eq_refl eq_refl eq_refl)
    as (g & Hrun & Hrows).
  destruct (Hrows 0%nat (le_S 1 1 (le_n 1))) as (z & Hz & Hrange & _).
  exists g, z. split; [exact Hrun |]. split; [exact Hz | exact Hrange].
Defined.

Lemma severity_grows_with_the_readings_witness :
  init 10 50 = Ok ten_hertz /\
  exists g,
    classify_posture_realtime ten_hertz 0%nat [leaning]
    = (Ok 1%nat, [leaning] ++ [g]) /\
    exists vi vj,
      num_at g "severity_score" 1 = Some vi /\
      num_at g "severity_score" 0 = Some vj /\ vi <= vj.
Proof.
  split; [reflexivity |].
  destruct (severity_grows_with_the_readings 10 50 ten_hertz [leaning]
              0%nat leaning [25; 0] [0; 0] [0; 0] (Some [5 / 2; 5 / 2])
              eq_refl eq_refl ltac:(repeat constructor)
              eq_refl eq_refl eq_refl eq_refl)
    as (g & Hrun & Hrows).
  exists g. split; [exact Hrun |].
  apply (Hrows 1%nat 0%nat (le_n 2) (le_S 1 1 (le_n 1))).
  - cbn. lra.
  - cbn. lra.
  - cbn. lra.
Defined.

Lemma analyze_patterns_recommends_at_most_six_witness :
  fst (analyze_patterns ten_hertz 0%nat 5 [ramp]) = Ok insufficient_data /\
  exists recs,
    recommendations insufficient_data = Some recs /\ (length recs <= 6)%nat.
Proof.
  split; [reflexivity |].
  apply (analyze_patterns_recommends_at_most_six ten_hertz 0%nat 5 [ramp]
           insufficient_data).
  reflexivity.
Defined.

Lemma analyze_patterns_report_witness :
  exists rep dist,
    fst (analyze_patterns one_hertz 0%nat 5 [drifting]) = Ok rep /\
    total_samples rep = Some 60%nat /\
    posture_distribution rep = Some dist /\
    (forall label, In label (keys dist) -> label = "good_posture").
Proof.
  destruct (analyze_patterns_report one_hertz [drifting] 0%nat drifting 5
              (repeat "good_posture" 60)
              (map (fun x => 0 + 1 * x) (Np.indices 60))
              (repeat 0 60) (repeat 0 60)
              eq_refl ltac:(cbn; lia) ltac:(lia) ltac:(cbn; lia)
              eq_refl eq_refl eq_refl eq_refl
              eq_refl eq_refl eq_refl eq_refl)
    as (rep & dist & Hrun & _ & Ht & _ & Hd & _ & Hkeys & _).
  exists rep, dist. split; [exact Hrun |]. split; [exact Ht |].
  split; [exact Hd |].
  intros label Hin. apply Hkeys in Hin.
  apply (repeat_spec 60 "good_posture" label). exact Hin.
Defined.

Lemma steady_drift_is_classified_by_its_step_witness :
  exists rep tr,
    fst (analyze_patterns one_hertz 0%nat 5 [drifting]) = Ok rep /\
    trends rep = Some tr /\
    assoc_get "forward_head_trend" tr = Some "worsening".
Proof.
  destruct (steady_drift_is_classified_by_its_step one_hertz [drifting]
              0%nat drifting 5 (repeat "good_posture" 60)
              (repeat 0 60) (repeat 0 60) 0 1
              eq_refl ltac:(cbn; lia) ltac:(lia) ltac:(cbn; lia)
              eq_refl eq_refl eq_refl eq_refl
              eq_refl eq_refl eq_refl)
    as (rep & tr & Hrun & Htr & _ & Hup & _).
  exists rep, tr. split; [exact Hrun |]. split; [exact Htr |].
  apply Hup. lra.
Defined.

Lemma alerts_survive_the_cut_witness :
  posture_distribution all_forward = Some [("mild_forward_head", 100)] /\
  nth_error (generate_recommendations ten_hertz all_forward) 0
  = Some forward_head_alert.
Proof.
  split; [reflexivity |].
  apply (proj2 (proj2 (proj2
           (alerts_survive_the_cut ten_hertz all_forward
              [("mild_forward_head", 100)] eq_refl)))).
  unfold share, get. cbn. lra.
Defined.

Lemma generate_realtime_alert_edges_witness :
  lookup [upright] 0%nat = Some upright /\
  generate_realtime_alert ten_hertz 0%nat (7 / 10) [upright]
  = (Ok None, [upright]).
Proof.
  split; [reflexivity |].
  apply (proj1 (generate_realtime_alert_edges ten_hertz [upright] 0%nat
                  upright (7 / 10) eq_refl)).
  reflexivity.
Defined.

Lemma alert_follows_the_last_row_witness :
  exists g,
    classify_posture_realtime ten_hertz 0%nat [leaning]
    = (Ok 1%nat, [leaning] ++ [g]) /\
    generate_realtime_alert ten_hertz 1%nat (7 / 10) ([leaning] ++ [g])
    = (Ok None, [leaning] ++ [g]).
Proof.
  destruct (alert_follows_the_last_row ten_hertz [leaning] 0%nat leaning
              [25; 0] [0; 0] [0; 0] (Some [5 / 2; 5 / 2]) (7 / 10)
              eq_refl ltac:(repeat constructor) (le_S 1 1 (le_n 1))
              eq_refl eq_refl eq_refl eq_refl)
    as (g & alert & Hrun & Halert & _ & Hnone & _).
  exists g. split; [exact Hrun |].
  etransitivity; [exact Halert |].
  rewrite Hnone; [reflexivity |].
  cbn. unfold angle_issues, tier. cbn.
  destruct (Rgt_dec 0 20); [lra |]. destruct (Rgt_dec 0 10); [lra |].
  destruct (Rgt_dec 0 25); [lra |]. destruct (Rgt_dec 0 15); [lra |].
  destruct (Rgt_dec (Rabs 0) 15) as [G | _];
    [rewrite Rabs_R0 in G; lra |].
  destruct (Rgt_dec (Rabs 0) 8) as [G | _];
    [rewrite Rabs_R0 in G; lra |].
  reflexivity.
Defined.

Lemma predict_posture_ml_passes_through_witness :
  lookup [featured] 0%nat = Some featured /\
  @predict_posture_ml constant_model ten_hertz constant_learner 0%nat
    [featured]
  = (Ok 0%nat, [featured]).
Proof.
  split; [reflexivity |].
  apply (@predict_posture_ml_passes_through constant_model ten_hertz
           constant_learner 0%nat [featured] featured eq_refl).
  left. reflexivity.
Defined.

Lemma predict_posture_ml_adds_two_columns_witness :
  fst (@predict_posture_ml constant_model fitted constant_learner 0%nat
         [featured])
  = Ok 1%nat /\
  exists g predictions,
    snd (@predict_posture_ml constant_model fitted constant_learner 0%nat
           [featured])
    = [featured] ++ [g] /\
    get_col "ml_prediction" g = Some (StrCol predictions) /\
    length predictions = 2%nat /\
    get_col "s1_pitch" g = get_col "s1_pitch" featured.
Proof.
  split; [reflexivity |].
  destruct (@predict_posture_ml_adds_two_columns constant_model fitted
              constant_learner 0%nat [featured] featured 1%nat
              eq_refl eq_refl)
    as [[E _] | (_ & g & ps & cs & Hs & _ & Hp & Lp & _ & _ & Hold)].
  - discriminate E.
  - exists g, ps. split; [exact Hs |]. split; [exact Hp |].
    split; [exact Lp |]. apply Hold; discriminate.
Defined.

Lemma nine_samples_numeric (c : string) :
  In c filtered_columns -> numeric nine_samples c.
Proof.
  intros Hc. cbn in Hc.
  repeat (destruct Hc as [<- | Hc];
          [eexists; split; reflexivity |]).
  contradiction.
Defined.

Lemma complete_analysis_labels_every_sample_witness :
  init 1 50 = Ok one_hertz /\
  exists report added g,
    @process_complete_analysis constant_model passthrough one_hertz
      constant_learner 0%nat [nine_samples]
    = (Ok (4%nat, report), [nine_samples] ++ added) /\
    lookup ([nine_samples] ++ added) 4%nat = Some g /\
    nrows g = 9%nat /\ report = insufficient_data.
Proof.
  split; [reflexivity |].
  destruct (@complete_analysis_labels_every_sample constant_model passthrough
              1 50 one_hertz constant_learner [nine_samples] 0%nat
              nine_samples eq_refl ltac:(lia) eq_refl nine_samples_numeric
              (or_introl (ltac:(lia) : (1 <= 6)%Z)))
    as (report & added & g & Hrun & Hl & _ & Hn & _ & Hshort & _).
  exists report, added, g. split; [exact Hrun |]. split; [exact Hl |].
  split; [exact Hn |]. apply Hshort. cbn. lia.
Defined.

Lemma complete_analysis_starts_static_witness :
  exists report added g,
    @process_complete_analysis constant_model passthrough one_hertz
      constant_learner 0%nat [nine_samples]
    = (Ok (4%nat, report), [nine_samples] ++ added) /\
    lookup ([nine_samples] ++ added) 4%nat = Some g /\
    num_at g "spine_stability" 0 = Some 0.
Proof.
  destruct (@complete_analysis_starts_static constant_model passthrough
              1 50 one_hertz constant_learner [nine_samples] 0%nat
              nine_samples eq_refl ltac:(lia) eq_refl nine_samples_numeric
              (or_introl (ltac:(lia) : (1 <= 6)%Z)))
    as (report & added & g & Hrun & Hl & Hrows).
  exists report, added, g. split; [exact Hrun |]. split; [exact Hl |].
  apply (Hrows 0%nat); [cbn; lia | left; lia].
Defined.
